(** * webserver.go: the three request handlers and the cookie setter

    A shallow embedding of [webserver.go].  The handlers are embedded as
    functions from the response under construction and the request to the
    response they leave behind.  The pieces of Go's standard library they call
    ([net/http], [net/textproto], [net/url], [fmt], [encoding/json], [regexp])
    are embedded next to them, as far as the handlers use them.

    Go strings are byte strings: [string] (a list of 8-bit [ascii]) holds them
    as they are.

    The runes of a string, as the runtime reads them in a loop over the
    string, come before [strconv], which quotes a text rune by rune.  After the
    handlers come [splitHangeul] and the mux that [main] builds, with the
    [ServeMux] of [net/http] and [path.Clean]. *)

From Stdlib Require Import ZArith Ascii.
From stdpp Require Import base option list strings gmap fin_maps.

Local Open Scope Z_scope.

(** ** Bytes *)

Module bytes.

(** Line feed and double quote, which have no literal of their own. *)
Definition LF : ascii := "010"%char.
Definition DQ : ascii := "034"%char.

Definition code (c : ascii) : Z := Z.of_N (N_of_ascii c).

(** [lo <= c && c <= hi] on byte values. *)
Definition between (lo hi c : ascii) : bool :=
  (code lo <=? code c) && (code c <=? code hi).

Definition isDigit (c : ascii) : bool := between "0" "9" c.
Definition isLower (c : ascii) : bool := between "a" "z" c.
Definition isUpper (c : ascii) : bool := between "A" "Z" c.
Definition isLetter (c : ascii) : bool := isLower c || isUpper c.

Definition ofZ (z : Z) : ascii := ascii_of_N (Z.to_N z).

(** [strings.Join]. *)
Fixpoint Join (elems : list string) (sep : string) : string :=
  match elems with
  | [] => EmptyString
  | [e] => e
  | e :: rest => e +:+ sep +:+ Join rest sep
  end.

Fixpoint all (p : ascii -> bool) (s : string) : bool :=
  match s with
  | EmptyString => true
  | String c s' => p c && all p s'
  end.

Fixpoint filter (p : ascii -> bool) (s : string) : string :=
  match s with
  | EmptyString => EmptyString
  | String c s' => if p c then String c (filter p s') else filter p s'
  end.

(** [strings.CutPrefix]: the rest of [s] after [prefix], if [s] starts
    with it. *)
Fixpoint CutPrefix (s prefix : string) {struct prefix} : option string :=
  match prefix with
  | EmptyString => Some s
  | String p prefix' =>
      match s with
      | String c s' => if Ascii.eqb c p then CutPrefix s' prefix' else None
      | EmptyString => None
      end
  end.

Section sorting.
Context {V : Type}.

Fixpoint insertByKey (kv : string * V) (l : list (string * V)) : list (string * V) :=
  match l with
  | [] => [kv]
  | kv' :: l' =>
      if String.leb (fst kv) (fst kv') then kv :: kv' :: l'
      else kv' :: insertByKey kv l'
  end.

(** The entries of a map, by increasing key: [String.leb] compares byte by
    byte, as Go compares strings. *)
Definition sortedEntries (m : gmap string V) : list (string * V) :=
  foldr insertByKey [] (map_to_list m).
End sorting.

End bytes.

(** ** net/textproto: header keys *)

Module textproto.

(** [isTokenTable]: the bytes of an RFC 7230 token. *)
Definition validHeaderFieldByte (c : ascii) : bool :=
  bytes.isDigit c || bytes.isLetter c ||
  match c with
  | "!" | "#" | "$" | "%" | "&" | "'" | "*" | "+" | "-" | "."
  | "^" | "_" | "`" | "|" | "~" => true
  | _ => false
  end%char.

(** The second loop of [canonicalMIMEHeaderKey]: upper case for the first
    letter and for a letter after a dash, lower case for the others. *)
Fixpoint canonicalize (upper : bool) (a : string) : string :=
  match a with
  | EmptyString => EmptyString
  | String c a' =>
      let c' :=
        if upper && bytes.isLower c then bytes.ofZ (bytes.code c - 32)
        else if negb upper && bytes.isUpper c then bytes.ofZ (bytes.code c + 32)
        else c in
      String c' (canonicalize (Ascii.eqb c' "-") a')
  end.

(** [CanonicalMIMEHeaderKey]: a key with a byte that is no token byte is
    returned unchanged. *)
Definition CanonicalMIMEHeaderKey (s : string) : string :=
  if bytes.all validHeaderFieldByte s then canonicalize true s else s.

End textproto.

(** ** net/http: headers, cookies, the response writer *)

Module http.

(** [http.Header] is [map[string][]string]. *)
Abbreviation Header := (gmap string (list string)).

Definition Header_Values (h : Header) (key : string) : list string :=
  default [] (h !! textproto.CanonicalMIMEHeaderKey key).

Definition Header_Set (h : Header) (key value : string) : Header :=
  <[textproto.CanonicalMIMEHeaderKey key := [value]]> h.

Definition Header_Add (h : Header) (key value : string) : Header :=
  <[textproto.CanonicalMIMEHeaderKey key := Header_Values h key ++ [value]]> h.

Definition Header_Del (h : Header) (key : string) : Header :=
  delete (textproto.CanonicalMIMEHeaderKey key) h.

(** [http.Cookie], with the fields that a cookie of the program or a cookie
    read from a request has set: the name, the value and, for a cookie of a
    request, whether its value came between double quotes.  The other fields
    are at their zero values, for which [String] adds no attribute. *)
Record Cookie := mkCookie { Name : string; Value : string; Quoted : bool }.

(** [isCookieNameValid]. *)
Definition isCookieNameValid (raw : string) : bool :=
  match raw with
  | EmptyString => false
  | _ => bytes.all textproto.validHeaderFieldByte raw
  end.

(** [validCookieValueByte]. *)
Definition validCookieValueByte (b : ascii) : bool :=
  (32 <=? bytes.code b) && (bytes.code b <? 127) &&
  negb (Ascii.eqb b bytes.DQ) && negb (Ascii.eqb b ";") && negb (Ascii.eqb b "\").

(** [sanitizeCookieValue]: the invalid bytes are dropped, and what is left,
    unless it is empty, is wrapped in double quotes when it holds a space or a
    comma or when the cookie is a quoted one. *)
Definition sanitizeCookieValue (v : string) (quoted : bool) : string :=
  let v := bytes.filter validCookieValueByte v in
  match v with
  | EmptyString => v
  | _ =>
      if negb (bytes.all (fun b => negb (Ascii.eqb b " ") && negb (Ascii.eqb b ",")) v)
         || quoted
      then String bytes.DQ (v +:+ String bytes.DQ EmptyString)
      else v
  end.

(** The method [String] of [Cookie]. *)
Definition Cookie_String (c : Cookie) : string :=
  if isCookieNameValid (Name c)
  then Name c +:+ "=" +:+ sanitizeCookieValue (Value c) (Quoted c)
  else EmptyString.

(** The response as the handler builds it, as [httptest.ResponseRecorder]
    records it: the handler's live header map, and the status and the copy of
    the headers fixed by the first [WriteHeader]. *)
Record ResponseWriter := mkResponseWriter {
  HeaderMap : Header;
  wroteHeader : bool;
  Code : Z;
  snapHeader : Header;
  Body : string
}.

(** [httptest.NewRecorder]. *)
Definition NewRecorder : ResponseWriter :=
  {| HeaderMap := ∅; wroteHeader := false; Code := 200;
     snapHeader := ∅; Body := EmptyString |}.

(** Applying [f] to the map [response.Header()] returns. *)
Definition withHeader (f : Header -> Header) (w : ResponseWriter) : ResponseWriter :=
  {| HeaderMap := f (HeaderMap w); wroteHeader := wroteHeader w;
     Code := Code w; snapHeader := snapHeader w; Body := Body w |}.

(** [WriteHeader]: only the first call counts.  (Go panics on a code
    outside 100..999; the program passes 404 and 500 only.) *)
Definition WriteHeader (w : ResponseWriter) (code : Z) : ResponseWriter :=
  if wroteHeader w then w
  else {| HeaderMap := HeaderMap w; wroteHeader := true; Code := code;
          snapHeader := HeaderMap w; Body := Body w |}.

(** [Write]: the first write fixes status 200 when no status was written. *)
Definition Write (w : ResponseWriter) (buf : string) : ResponseWriter :=
  let w := if wroteHeader w then w else WriteHeader w 200 in
  {| HeaderMap := HeaderMap w; wroteHeader := wroteHeader w; Code := Code w;
     snapHeader := snapHeader w; Body := Body w +:+ buf |}.

(** [http.SetCookie]. *)
Definition SetCookie (w : ResponseWriter) (cookie : Cookie) : ResponseWriter :=
  let v := Cookie_String cookie in
  match v with
  | EmptyString => w
  | _ => withHeader (fun h => Header_Add h "Set-Cookie" v) w
  end.

(** [http.Error]. *)
Definition Error (w : ResponseWriter) (error : string) (code : Z) : ResponseWriter :=
  let w := withHeader (fun h => Header_Del h "Content-Length") w in
  let w := withHeader (fun h => Header_Set h "Content-Type" "text/plain; charset=utf-8") w in
  let w := withHeader (fun h => Header_Set h "X-Content-Type-Options" "nosniff") w in
  let w := WriteHeader w code in
  Write w (error +:+ String bytes.LF EmptyString).

(** What the client is sent: [ResponseRecorder.Result]. *)
Record Response := mkResponse {
  StatusCode : Z;
  RespHeader : Header;
  RespBody : string
}.

Definition Result (w : ResponseWriter) : Response :=
  {| StatusCode := Code w;
     RespHeader := if wroteHeader w then snapHeader w else HeaderMap w;
     RespBody := Body w |}.

End http.

(** ** Runes: UTF-8 as the runtime reads and writes it *)

Module utf8.

Definition runeError : Z := 65533.    (* U+FFFD *)
Definition maxRune : Z := 1114111.    (* U+10FFFF *)
Definition surrogateMin : Z := 55296. (* U+D800 *)
Definition surrogateMax : Z := 57343. (* U+DFFF *)
Definition runeSelf : Z := 128.

Definition t2 : Z := 192.
Definition t3 : Z := 224.
Definition t4 : Z := 240.
Definition t5 : Z := 248.
Definition tx : Z := 128.
Definition maskx : Z := 63.
Definition mask2 : Z := 31.
Definition mask3 : Z := 15.
Definition mask4 : Z := 7.
Definition locb : Z := 128.
Definition hicb : Z := 191.
Definition rune1Max : Z := 127.
Definition rune2Max : Z := 2047.
Definition rune3Max : Z := 65535.

(** [locb <= b && b <= hicb]: a continuation byte. *)
Definition continues (b : ascii) : bool :=
  (locb <=? bytes.code b) && (bytes.code b <=? hicb).

(** [decoderune] of the runtime on [s[k:]], for [k < len(s)]: the rune, and
    how far the position moves. *)
Definition decoderune (s : string) : Z * nat :=
  match s with
  | EmptyString => (runeError, 1%nat)
  | String s0 t =>
      let c0 := bytes.code s0 in
      if (t2 <=? c0) && (c0 <? t3) then
        match t with
        | String s1 _ =>
            if continues s1 then
              let r := Z.lor (Z.shiftl (Z.land c0 mask2) 6) (Z.land (bytes.code s1) maskx) in
              if rune1Max <? r then (r, 2%nat) else (runeError, 1%nat)
            else (runeError, 1%nat)
        | _ => (runeError, 1%nat)
        end
      else if (t3 <=? c0) && (c0 <? t4) then
        match t with
        | String s1 (String s2 _) =>
            if continues s1 && continues s2 then
              let r := Z.lor (Z.shiftl (Z.land c0 mask3) 12)
                         (Z.lor (Z.shiftl (Z.land (bytes.code s1) maskx) 6)
                            (Z.land (bytes.code s2) maskx)) in
              if (rune2Max <? r) && negb ((surrogateMin <=? r) && (r <=? surrogateMax))
              then (r, 3%nat) else (runeError, 1%nat)
            else (runeError, 1%nat)
        | _ => (runeError, 1%nat)
        end
      else if (t4 <=? c0) && (c0 <? t5) then
        match t with
        | String s1 (String s2 (String s3 _)) =>
            if continues s1 && continues s2 && continues s3 then
              let r := Z.lor (Z.shiftl (Z.land c0 mask4) 18)
                         (Z.lor (Z.shiftl (Z.land (bytes.code s1) maskx) 12)
                            (Z.lor (Z.shiftl (Z.land (bytes.code s2) maskx) 6)
                               (Z.land (bytes.code s3) maskx))) in
              if (rune3Max <? r) && (r <=? maxRune) then (r, 4%nat) else (runeError, 1%nat)
            else (runeError, 1%nat)
        | _ => (runeError, 1%nat)
        end
      else (runeError, 1%nat)
  end.

(** [for _, v := range s]: the runes [v] in order.  [skip] counts the bytes
    of the rune before that are still to be passed. *)
Fixpoint rangeRunes (skip : nat) (s : string) : list Z :=
  match s with
  | EmptyString => []
  | String c s' =>
      match skip with
      | S k => rangeRunes k s'
      | O =>
          if bytes.code c <? runeSelf then bytes.code c :: rangeRunes 0 s'
          else let '(r, size) := decoderune s in r :: rangeRunes (size - 1) s'
      end
  end.

(** [byte(x)]: the low eight bits. *)
Definition byte (x : Z) : Z := Z.land x 255.

(** [encoderune] of the runtime: the bytes [string(r)] and [string(runes)] put
    for the rune [r], an [int32]. *)
Definition encoderune (r : Z) : string :=
  let i := r mod 2 ^ 32 in
  let three (r : Z) :=
    String (bytes.ofZ (Z.lor t3 (byte (Z.shiftr r 12))))
      (String (bytes.ofZ (Z.lor tx (Z.land (byte (Z.shiftr r 6)) maskx)))
         (String (bytes.ofZ (Z.lor tx (Z.land (byte r) maskx))) EmptyString)) in
  if i <=? rune1Max then String (bytes.ofZ (byte r)) EmptyString
  else if i <=? rune2Max then
    String (bytes.ofZ (Z.lor t2 (byte (Z.shiftr r 6))))
      (String (bytes.ofZ (Z.lor tx (Z.land (byte r) maskx))) EmptyString)
  else if (maxRune <? i) || ((surrogateMin <=? i) && (i <=? surrogateMax)) then
    three runeError
  else if i <=? rune3Max then three r
  else
    String (bytes.ofZ (Z.lor t4 (byte (Z.shiftr r 18))))
      (String (bytes.ofZ (Z.lor tx (Z.land (byte (Z.shiftr r 12)) maskx)))
         (String (bytes.ofZ (Z.lor tx (Z.land (byte (Z.shiftr r 6)) maskx)))
            (String (bytes.ofZ (Z.lor tx (Z.land (byte r) maskx))) EmptyString))).

(** [string(runes)]. *)
Fixpoint encodeRunes (runes : list Z) : string :=
  match runes with
  | [] => EmptyString
  | r :: runes' => encoderune r +:+ encodeRunes runes'
  end.

(** A Unicode scalar value: a code point that is no surrogate. *)
Definition validRune (r : Z) : bool :=
  (0 <=? r) && (r <=? maxRune) && negb ((surrogateMin <=? r) && (r <=? surrogateMax)).

End utf8.

(** ** errors, strconv *)

Module strconv.

Definition lowerhex (d : Z) : ascii :=
  if d <? 10 then bytes.ofZ (48 + d) else bytes.ofZ (87 + d).

(** [\xNN]. *)
Definition hexEscape (c : ascii) : string :=
  String "\" (String "x" (String (lowerhex (bytes.code c / 16))
    (String (lowerhex (bytes.code c mod 16)) EmptyString))).

(** The ranges of [isPrint16] and the entries of [isNotPrint16] that lie
    below U+0800. *)
Definition isPrint16 : list (Z * Z) :=
  [(0x0020, 0x007e); (0x00a1, 0x0377); (0x037a, 0x037f); (0x0384, 0x0556);
   (0x0559, 0x058a); (0x058d, 0x05c7); (0x05d0, 0x05ea); (0x05ef, 0x05f4);
   (0x0606, 0x070d); (0x0710, 0x074a); (0x074d, 0x07b1); (0x07c0, 0x07fa);
   (0x07fd, 0x082d)].

Definition isNotPrint16 : list Z :=
  [0x00ad; 0x038b; 0x038d; 0x03a2; 0x0530; 0x0590; 0x061c; 0x06dd].

(** [IsPrint], on the runes below U+0800: the test of Latin-1, and past it
    the search of the two tables.  These are all the runes that one or two
    bytes encode, and [Quote] meets no other rune in a [url.EscapeError], which
    holds a percent sign and two bytes at most.  The tables from U+0800 on are
    not embedded: there the answer is [false], which is not Go's for the
    printable runes. *)
Definition IsPrint (r : Z) : bool :=
  if r <=? 0xFF then
    if (0x20 <=? r) && (r <=? 0x7E) then true
    else if (0xA1 <=? r) && (r <=? 0xFF) then negb (r =? 0xAD)
    else false
  else if r <? 0x0800 then
    existsb (fun range => (fst range <=? r) && (r <=? snd range)) isPrint16
    && negb (existsb (Z.eqb r) isNotPrint16)
  else false.

(** The hexadecimal digits of [r], [n] of them. *)
Fixpoint hexDigits (n : nat) (r : Z) : string :=
  match n with
  | O => EmptyString
  | S k => hexDigits k (r / 16) +:+ String (lowerhex (r mod 16)) EmptyString
  end.

(** [appendEscapedRune] with the double quote as the quote, as [Quote]
    calls it. *)
Definition appendEscapedRune (r : Z) : string :=
  if (r =? 34) || (r =? 92) then String "\" (String (bytes.ofZ r) EmptyString)
  else if IsPrint r then utf8.encoderune r
  else match r with
       | 7 => "\a" | 8 => "\b" | 12 => "\f" | 10 => "\n"
       | 13 => "\r" | 9 => "\t" | 11 => "\v"
       | _ =>
           if (r <? 32) || (r =? 127) then "\x" +:+ hexDigits 2 r
           else if negb (utf8.validRune r) then "\u" +:+ hexDigits 4 utf8.runeError
           else if r <? 65536 then "\u" +:+ hexDigits 4 r
           else "\U" +:+ hexDigits 8 r
       end.

(** The loop of [Quote] over the runes of [s]; [skip] counts the bytes of
    the rune before that are still to be passed.  [utf8.DecodeRuneInString]
    returns the rune and the width that [utf8.decoderune] returns, and
    [utf8.AppendRune] appends the bytes of [utf8.encoderune].  A byte that
    starts no rune is written as [\xNN]. *)
Fixpoint quoteLoop (skip : nat) (s : string) : string :=
  match s with
  | EmptyString => EmptyString
  | String c s' =>
      match skip with
      | S k => quoteLoop k s'
      | O =>
          let '(r, width) :=
            if bytes.code c <? utf8.runeSelf then (bytes.code c, 1%nat)
            else utf8.decoderune s in
          if (width =? 1)%nat && (r =? utf8.runeError)
          then hexEscape c +:+ quoteLoop 0 s'
          else appendEscapedRune r +:+ quoteLoop (width - 1) s'
      end
  end.

Definition Quote (s : string) : string :=
  String bytes.DQ (quoteLoop 0 s +:+ String bytes.DQ EmptyString).

End strconv.

(** Go's [error] values, as far as the program meets them. *)
Inductive error :=
| EscapeError (s : string)      (* [url.EscapeError] *)
| errorString (msg : string).   (* [errors.New], [fmt.Errorf], an [os.PathError] by its text *)

(** The method [Error]. *)
Definition Error (e : error) : string :=
  match e with
  | EscapeError s => "invalid URL escape " +:+ strconv.Quote s
  | errorString msg => msg
  end.

(** ** net/url: query strings *)

Module url.

(** [url.Values] is [map[string][]string]. *)
Abbreviation Values := (gmap string (list string)).

Definition ishex (c : ascii) : bool :=
  bytes.isDigit c || bytes.between "a" "f" c || bytes.between "A" "F" c.

Definition unhex (c : ascii) : Z :=
  if bytes.isDigit c then bytes.code c - 48
  else if bytes.between "a" "f" c then bytes.code c - 97 + 10
  else if bytes.between "A" "F" c then bytes.code c - 65 + 10
  else 0.

(** [s[:3]] when [s] has more than three bytes, else [s]. *)
Definition firstThree (s : string) : string :=
  match s with
  | String a (String b (String c _)) => String a (String b (String c EmptyString))
  | _ => s
  end.

(** [QueryUnescape]: [unescape] in mode [encodeQueryComponent].  Go checks
    the escapes in a first pass and decodes in a second; the first bad
    escape from the left is the error in both. *)
Fixpoint QueryUnescape (s : string) : string + error :=
  match s with
  | EmptyString => inl EmptyString
  | String "%" rest =>
      match rest with
      | String a (String b rest') =>
          if ishex a && ishex b then
            match QueryUnescape rest' with
            | inl t => inl (String (bytes.ofZ (Z.lor (Z.shiftl (unhex a) 4) (unhex b))) t)
            | inr e => inr e
            end
          else inr (EscapeError (firstThree s))
      | _ => inr (EscapeError (firstThree s))
      end
  | String "+" rest =>
      match QueryUnescape rest with
      | inl t => inl (String " " t)
      | inr e => inr e
      end
  | String c rest =>
      match QueryUnescape rest with
      | inl t => inl (String c t)
      | inr e => inr e
      end
  end%char.

(** [strings.Cut] on a one-byte separator: before and after its first
    occurrence; all of [s] and the empty string when it does not occur. *)
Fixpoint Cut (s : string) (sep : ascii) : string * string :=
  match s with
  | EmptyString => (EmptyString, EmptyString)
  | String c s' =>
      if Ascii.eqb c sep then (EmptyString, s')
      else let '(before, after) := Cut s' sep in (String c before, after)
  end.

(** The keys [parseQuery] cuts off [query] at each [&], in order. *)
Fixpoint segments (query : string) : list string :=
  match query with
  | EmptyString => [EmptyString]
  | String c query' =>
      if Ascii.eqb c "&" then EmptyString :: segments query'
      else match segments query' with
           | seg :: segs => String c seg :: segs
           | [] => [String c EmptyString]
           end
  end.

Definition ContainsByte (s : string) (c : ascii) : bool :=
  negb (bytes.all (fun b => negb (Ascii.eqb b c)) s).

(** One turn of the loop of [parseQuery], on the map and the error so far. *)
Definition parseQueryStep (st : Values * option error) (key : string)
  : Values * option error :=
  let '(m, err) := st in
  if ContainsByte key ";" then
    (m, Some (errorString "invalid semicolon separator in query"))
  else
    match key with
    | EmptyString => (m, err)
    | _ =>
        let '(key, value) := Cut key "=" in
        match QueryUnescape key with
        | inr err1 => (m, if err is None then Some err1 else err)
        | inl key =>
            match QueryUnescape value with
            | inr err1 => (m, if err is None then Some err1 else err)
            | inl value => (<[key := default [] (m !! key) ++ [value]]> m, err)
            end
        end
    end.

(** [url.ParseQuery] (Go 1.17 and later, where a semicolon in a key is an
    error): the map is returned along with the error. *)
Definition ParseQuery (query : string) : Values * option error :=
  foldl parseQueryStep (∅, None) (segments query).

End url.

(** ** fmt: the verb %v *)

Module fmt.

(** %v of a [[]string]. *)
Definition vStrings (l : list string) : string :=
  "[" +:+ bytes.Join l " " +:+ "]".

(** %v of a [map[string][]string]: the entries by increasing key. *)
Definition vValues (m : url.Values) : string :=
  "map[" +:+
  bytes.Join (map (fun kv => fst kv +:+ ":" +:+ vStrings (snd kv)) (bytes.sortedEntries m)) " "
  +:+ "]".

(** %v of a [[]*http.Cookie]: each cookie through its method [String]. *)
Definition vCookies (l : list http.Cookie) : string :=
  "[" +:+ bytes.Join (map http.Cookie_String l) " " +:+ "]".

(** [Fprint] and [Fprintf] on a response writer, once the text is formatted. *)
Definition Fprint (w : http.ResponseWriter) (s : string) : http.ResponseWriter :=
  http.Write w s.

Definition nl : string := String bytes.LF EmptyString.

End fmt.

(** ** regexp: the pattern of the item URL *)

Module regexp.

(** The class [\w]: [[0-9A-Za-z_]], ASCII only. *)
Definition isWordByte (c : ascii) : bool :=
  bytes.isDigit c || bytes.isLetter c || Ascii.eqb c "_".

(** The syntax of the patterns the program needs, and what it is for a
    pattern to match all of a text: [Matches r s groups] when [r] matches [s]
    with its groups capturing [groups], in the order of their opening
    parentheses. *)
Inductive Regexp :=
| Lit (s : string)
| Class (p : ascii -> bool)
| Cat (r1 r2 : Regexp)
| Plus (r : Regexp)
| Group (r : Regexp).

Inductive Matches : Regexp -> string -> list string -> Prop :=
| MLit s : Matches (Lit s) s []
| MClass p c : p c = true -> Matches (Class p) (String c EmptyString) []
| MCat r1 r2 s1 s2 g1 g2 :
    Matches r1 s1 g1 -> Matches r2 s2 g2 -> Matches (Cat r1 r2) (s1 +:+ s2) (g1 ++ g2)
| MPlusOne r s g : Matches r s g -> Matches (Plus r) s g
| MPlusMore r s1 s2 g1 g2 :
    Matches r s1 g1 -> Matches (Plus r) s2 g2 -> Matches (Plus r) (s1 +:+ s2) g2
| MGroup r s g : Matches r s g -> Matches (Group r) s (s :: g).

(** [^/item/(\w+)$]: the two anchors make the pattern match all of the text. *)
Definition itemURL : Regexp :=
  Cat (Lit "/item/") (Group (Plus (Class isWordByte))).

(** [itemURL.FindStringSubmatch]: the whole match and the text of the group,
    or nil.  Both ends are anchored, so the match is all of [s], and the group
    is what follows [/item/]. *)
Definition itemURL_FindStringSubmatch (s : string) : list string :=
  match bytes.CutPrefix s "/item/" with
  | Some name =>
      match name with
      | EmptyString => []
      | _ => if bytes.all isWordByte name then [s; name] else []
      end
  | None => []
  end.

End regexp.

(** ** encoding/json *)

Module json.

(** [htmlSafeSet]: the ASCII bytes the encoder copies. *)
Definition htmlSafe (c : ascii) : bool :=
  (32 <=? bytes.code c) && (bytes.code c <? 128) &&
  negb (Ascii.eqb c bytes.DQ) && negb (Ascii.eqb c "\") &&
  negb (Ascii.eqb c "<") && negb (Ascii.eqb c ">") && negb (Ascii.eqb c "&").

(** One byte of [appendString] with [escapeHTML].  A byte from 128 on is
    copied, as Go does for valid UTF-8 other than U+2028 and U+2029; the
    replacement of invalid UTF-8 is not embedded. *)
Definition appendByte (c : ascii) : string :=
  if htmlSafe c || (128 <=? bytes.code c) then String c EmptyString
  else if Ascii.eqb c "\" || Ascii.eqb c bytes.DQ then String "\" (String c EmptyString)
  else match bytes.code c with
       | 8 => "\b" | 12 => "\f" | 10 => "\n" | 13 => "\r" | 9 => "\t"
       | _ => "\u00" +:+ String (strconv.lowerhex (bytes.code c / 16))
                (String (strconv.lowerhex (bytes.code c mod 16)) EmptyString)
       end.

Fixpoint appendBytes (src : string) : string :=
  match src with
  | EmptyString => EmptyString
  | String c src' => appendByte c +:+ appendBytes src'
  end.

(** [appendString]: a Go string as a JSON string. *)
Definition appendString (src : string) : string :=
  String bytes.DQ (appendBytes src +:+ String bytes.DQ EmptyString).

(** [Marshal] of a [map[string]string]: the keys sorted. *)
Definition Marshal_map (m : gmap string string) : string :=
  "{" +:+
  bytes.Join (map (fun kv => appendString (fst kv) +:+ ":" +:+ appendString (snd kv))
                  (bytes.sortedEntries m)) ","
  +:+ "}".

(** [Marshal] of a [[]string] that is not nil. *)
Definition Marshal_slice (l : list string) : string :=
  "[" +:+ bytes.Join (map appendString l) "," +:+ "]".

(** *** Reading JSON back

    A reader for the JSON the handlers write: strings, arrays and objects,
    without white space.  It fails on any other text. *)

#[warnings="-register-all"]
Inductive Value :=
| VString (s : string)
| VArray (l : list Value)
| VObject (l : list (string * Value)).

Definition unescape (e : ascii) : option ascii :=
  match e with
  | "034" | "\" | "/" => Some e
  | "b" => Some "008" | "f" => Some "012" | "n" => Some "010"
  | "r" => Some "013" | "t" => Some "009"
  | _ => None
  end%char.

(** The text of a string after its opening quote, and what follows the
    closing quote. *)
Fixpoint parseString (s : string) : option (string * string) :=
  match s with
  | EmptyString => None
  | String c s' =>
      if Ascii.eqb c bytes.DQ then Some (EmptyString, s')
      else if Ascii.eqb c "\" then
        match s' with
        | String e s'' =>
            match unescape e, parseString s'' with
            | Some b, Some (t, rest) => Some (String b t, rest)
            | _, _ => None
            end
        | EmptyString => None
        end
      else if bytes.code c <? 32 then None
      else match parseString s' with
           | Some (t, rest) => Some (String c t, rest)
           | None => None
           end
  end.

Fixpoint parseValue (fuel : nat) (s : string) {struct fuel} : option (Value * string) :=
  match fuel with
  | O => None
  | S fuel =>
      match s with
      | String c s' =>
          if Ascii.eqb c bytes.DQ then
            match parseString s' with
            | Some (t, rest) => Some (VString t, rest)
            | None => None
            end
          else if Ascii.eqb c "[" then
            match s' with
            | String "]" rest => Some (VArray [], rest)
            | _ => match parseElements fuel s' with
                   | Some (l, rest) => Some (VArray l, rest)
                   | None => None
                   end
            end
          else if Ascii.eqb c "{" then
            match s' with
            | String "}" rest => Some (VObject [], rest)
            | _ => match parseMembers fuel s' with
                   | Some (l, rest) => Some (VObject l, rest)
                   | None => None
                   end
            end
          else None
      | EmptyString => None
      end
  end%char
with parseElements (fuel : nat) (s : string) {struct fuel} : option (list Value * string) :=
  match fuel with
  | O => None
  | S fuel =>
      match parseValue fuel s with
      | Some (v, String "," rest) =>
          match parseElements fuel rest with
          | Some (l, rest') => Some (v :: l, rest')
          | None => None
          end
      | Some (v, String "]" rest) => Some ([v], rest)
      | _ => None
      end
  end%char
with parseMembers (fuel : nat) (s : string) {struct fuel}
  : option (list (string * Value) * string) :=
  match fuel with
  | O => None
  | S fuel =>
      match s with
      | String "034" s' =>
          match parseString s' with
          | Some (k, String ":" rest) =>
              match parseValue fuel rest with
              | Some (v, String "," rest') =>
                  match parseMembers fuel rest' with
                  | Some (l, rest'') => Some ((k, v) :: l, rest'')
                  | None => None
                  end
              | Some (v, String "}" rest') => Some ([(k, v)], rest')
              | _ => None
              end
          | _ => None
          end
      | _ => None
      end
  end%char.

(** The value a whole text denotes. *)
Definition parse (s : string) : option Value :=
  match parseValue (S (String.length s)) s with
  | Some (v, EmptyString) => Some v
  | _ => None
  end.

(** The member [key] of an object. *)
Definition member (v : Value) (key : string) : option Value :=
  match v with
  | VObject l => snd <$> List.find (fun kv => String.eqb (fst kv) key) l
  | _ => None
  end.

End json.

(** ** The request *)

(** [http.Request] as the handlers read it, as the server hands it over
    ([Form] not yet parsed). *)
Record Request := mkRequest {
  Method : string;
  RequestURI : string;
  URL_Path : string;
  URL_RawQuery : string;
  (** what [request.Cookies()] returns *)
  Cookies : list http.Cookie;
  (** what [parsePostForm] returns on the body of a POST, PUT or PATCH
      request (a nil map as the empty map) *)
  postForm : url.Values * option error
}.

(** [copyValues]. *)
Definition copyValues (dst src : url.Values) : url.Values :=
  union_with (fun d s => Some (d ++ s)) dst src.

(** [ParseForm]: the value it leaves in [request.Form], and the error. *)
Definition ParseForm (r : Request) : url.Values * option error :=
  let '(PostForm, err) :=
    if String.eqb (Method r) "POST" || String.eqb (Method r) "PUT"
       || String.eqb (Method r) "PATCH"
    then postForm r else (∅, None) in
  let '(newValues, e) := url.ParseQuery (URL_RawQuery r) in
  let err := if err is None then e else err in
  let Form :=
    if decide (PostForm = ∅) then newValues
    else copyValues (copyValues ∅ PostForm) newValues in
  (Form, err).

(** ** The program *)

Definition SetMyCookie (response : http.ResponseWriter) : http.ResponseWriter :=
  let cookie := {| http.Name := "testcookiename"; http.Value := "testcookievalue";
                   http.Quoted := false |} in
  http.SetCookie response cookie.

(** [GenericHandler]. *)
Definition GenericHandler (response : http.ResponseWriter) (request : Request)
  : http.ResponseWriter :=
  let response := SetMyCookie response in
  let response := http.withHeader (fun h => http.Header_Set h "Content-type" "text/plain") response in
  let '(Form, err) := ParseForm request in
  let response :=
    match err with
    | Some err => http.Error response ("error parsing url " +:+ Error err) 500
    | None => response
    end in
  let response := fmt.Fprint response ("FooWebHandler says ... " +:+ fmt.nl) in
  let response := fmt.Fprint response (" request.Method     '" +:+ Method request +:+ "'" +:+ fmt.nl) in
  let response := fmt.Fprint response (" request.RequestURI '" +:+ RequestURI request +:+ "'" +:+ fmt.nl) in
  let response := fmt.Fprint response (" request.URL.Path   '" +:+ URL_Path request +:+ "'" +:+ fmt.nl) in
  let response := fmt.Fprint response (" request.Form       '" +:+ fmt.vValues Form +:+ "'" +:+ fmt.nl) in
  let response := fmt.Fprint response (" request.Cookies()  '" +:+ fmt.vCookies (Cookies request) +:+ "'" +:+ fmt.nl) in
  response.

(** [HomeHandler].  [ReadFile] is [ioutil.ReadFile] on the server's working
    directory: the bytes read and the error. *)
Definition HomeHandler (ReadFile : string -> string * option error)
  (response : http.ResponseWriter) (request : Request) : http.ResponseWriter :=
  let response := http.withHeader (fun h => http.Header_Set h "Content-type" "text/html; charset=utf-8") response in
  let '(webpage, err) := ReadFile "home.html" in
  let response :=
    match err with
    | Some err => http.Error response ("home.html file error " +:+ Error err) 500
    | None => response
    end in
  fmt.Fprint response webpage.

(** [ItemHandler].  [itemMatches[1]] is in range: a match of the pattern has
    two entries. *)
Definition ItemHandler (response : http.ResponseWriter) (request : Request)
  : http.ResponseWriter :=
  let response := SetMyCookie response in
  let response := http.withHeader (fun h => http.Header_Set h "Content-type" "application/json") response in
  let data : gmap string string := <["name" := EmptyString]> (<["what" := "item"]> ∅) in
  let itemMatches := regexp.itemURL_FindStringSubmatch (URL_Path request) in
  if (0 <? Z.of_nat (length itemMatches)) then
    let data := <["name" := nth 1 itemMatches EmptyString]> data in
    let dataall := itemMatches in
    let dataall := dataall ++ ["This is long JSON data for calculation for bytes."] in
    let json_bytes := json.Marshal_map data in
    let json_all := json.Marshal_slice dataall in
    let response := fmt.Fprint response (json_bytes +:+ fmt.nl) in
    let response := fmt.Fprint response (json_all +:+ fmt.nl) in
    response
  else
    http.Error response "404 page not found" 404.

(** [http.Handler] run on a fresh response: what the client is sent. *)
Definition serve (handler : http.ResponseWriter -> Request -> http.ResponseWriter)
  (request : Request) : http.Response :=
  http.Result (handler http.NewRecorder request).

(** The lines of a body: the text before each line feed. *)
Fixpoint lines (s : string) : list string :=
  match s with
  | EmptyString => []
  | String c s' =>
      if Ascii.eqb c bytes.LF then EmptyString :: lines s'
      else match lines s' with
           | l :: ls => String c l :: ls
           | [] => [String c EmptyString]
           end
  end.

(** [strings.HasPrefix] and [strings.Contains]. *)
Fixpoint hasPrefix (s prefix : string) {struct prefix} : bool :=
  match prefix, s with
  | EmptyString, _ => true
  | String p prefix', String c s' => Ascii.eqb c p && hasPrefix s' prefix'
  | String _ _, EmptyString => false
  end.

Fixpoint Contains (s substr : string) : bool :=
  hasPrefix s substr ||
  match s with
  | EmptyString => false
  | String _ s' => Contains s' substr
  end.

(** [httptest.NewRequest] for a target with no escape in its path (so that
    [URL.Path] is the text before the question mark), without body or cookies. *)
Definition NewRequest (method target : string) : Request :=
  let '(path, query) := url.Cut target "?" in
  {| Method := method; RequestURI := target; URL_Path := path;
     URL_RawQuery := query; Cookies := []; postForm := (∅, None) |}.

(** A text between double quotes. *)
Definition quoted (s : string) : string :=
  String bytes.DQ (s +:+ String bytes.DQ EmptyString).

(** The heading and the five lines [GenericHandler] prints. *)
Definition dump (request : Request) (Form : url.Values) : string :=
  "FooWebHandler says ... " +:+ fmt.nl +:+
  " request.Method     '" +:+ Method request +:+ "'" +:+ fmt.nl +:+
  " request.RequestURI '" +:+ RequestURI request +:+ "'" +:+ fmt.nl +:+
  " request.URL.Path   '" +:+ URL_Path request +:+ "'" +:+ fmt.nl +:+
  " request.Form       '" +:+ fmt.vValues Form +:+ "'" +:+ fmt.nl +:+
  " request.Cookies()  '" +:+ fmt.vCookies (Cookies request) +:+ "'" +:+ fmt.nl.

(** A token of the item URL: one or more word characters. *)
Definition isToken (T : string) : Prop :=
  T <> EmptyString /\ bytes.all regexp.isWordByte T = true.

(** The two lines of a response to [/item/T]. *)
Definition objectLine (T : string) : string :=
  "{" +:+ quoted "name" +:+ ":" +:+ quoted T +:+ ","
      +:+ quoted "what" +:+ ":" +:+ quoted "item" +:+ "}".

Definition arrayLine (T : string) : string :=
  "[" +:+ quoted ("/item/" +:+ T) +:+ "," +:+ quoted T +:+ ","
      +:+ quoted "This is long JSON data for calculation for bytes." +:+ "]".

(** The headers of a response of [ItemHandler] with the two JSON lines. *)
Definition itemHeader : http.Header :=
  <["Content-Type" := ["application/json"]]>
    (<["Set-Cookie" := ["testcookiename=testcookievalue"]]> ∅).

(** The headers of a response written by [http.Error] after the cookie. *)
Definition errorHeader : http.Header :=
  <["X-Content-Type-Options" := ["nosniff"]]>
    (<["Content-Type" := ["text/plain; charset=utf-8"]]>
       (<["Set-Cookie" := ["testcookiename=testcookievalue"]]> ∅)).

(** The headers of a response of [GenericHandler] with the dump. *)
Definition genericHeader : http.Header :=
  <["Content-Type" := ["text/plain"]]>
    (<["Set-Cookie" := ["testcookiename=testcookievalue"]]> ∅).

(** A request with a bad escape in its query: [GET /generic/x?a=%zz]. *)
Definition badEscape : Request := NewRequest "GET" "/generic/x?a=%zz".

(** A read of [home.html] that fails after six bytes. *)
Definition brokenRead (name : string) : string * option error :=
  ("<html>", Some (errorString "read home.html: input/output error")).

(** A working directory without [home.html]. *)
Definition noFile (name : string) : string * option error :=
  (EmptyString, Some (errorString ("open " +:+ name +:+ ": no such file or directory"))).

(** Two requests to one path that differ in all the rest. *)
Definition plainGet : Request := NewRequest "GET" "/item/yellow".
Definition busyPost : Request :=
  {| Method := "POST"; RequestURI := "/item/yellow?size=3";
     URL_Path := "/item/yellow"; URL_RawQuery := "size=3";
     Cookies := [{| http.Name := "testcookiename"; http.Value := "testcookievalue";
                  http.Quoted := false |}];
     postForm := ({["colour" := ["red"]]}, None) |}.

(** ** Cookies and errors as they are printed *)

(** A cookie that [String] writes as it is: its name is a token, and its
    value is not empty and holds bytes of a cookie value only, none of them a
    space or a comma. *)
Definition plainCookie (c : http.Cookie) : bool :=
  http.isCookieNameValid (http.Name c)
  && negb (String.eqb (http.Value c) EmptyString)
  && bytes.all (fun b => http.validCookieValueByte b
                         && negb (Ascii.eqb b " ") && negb (Ascii.eqb b ","))
       (http.Value c).

(** The text of a cookie as a client sends it: the name, the equals sign
    and the value, between double quotes when it was sent so. *)
Definition cookiePair (c : http.Cookie) : string :=
  http.Name c +:+ "=" +:+ (if http.Quoted c then quoted (http.Value c) else http.Value c).

(** An error as the parsers of the form return it: a text, or the
    [EscapeError] of [unescape], which holds the percent sign and the two bytes
    after it, or fewer at the end of the text. *)
Definition shortEscape (err : error) : bool :=
  match err with
  | EscapeError (String "%" t) => (String.length t <=? 2)%nat
  | EscapeError _ => false
  | errorString _ => true
  end.

(** [GET /generic/anything?color=purple] with two cookies, the second one
    sent between double quotes. *)
Definition purpleWithCookies : Request :=
  {| Method := "GET"; RequestURI := "/generic/anything?color=purple";
     URL_Path := "/generic/anything"; URL_RawQuery := "color=purple";
     Cookies := [{| http.Name := "testcookiename"; http.Value := "testcookievalue";
                    http.Quoted := false |};
                 {| http.Name := "q"; http.Value := "v"; http.Quoted := true |}];
     postForm := (∅, None) |}.

(** [GET /generic/x?a=%é]: a percent sign before the two bytes of U+00E9. *)
Definition badEscapeLatin : Request :=
  NewRequest "GET" ("/generic/x?a=%" +:+ String "195" (String "169" EmptyString)).

(** ** Queries and forms *)

(** No percent sign and no semicolon. *)
Definition plainQueryByte (c : ascii) : bool :=
  negb (Ascii.eqb c "%") && negb (Ascii.eqb c ";").

(** The method is one whose body [ParseForm] reads. *)
Definition hasFormBody (r : Request) : bool :=
  String.eqb (Method r) "POST" || String.eqb (Method r) "PUT"
  || String.eqb (Method r) "PATCH".

(** A request with the key [color] in its body and in its query. *)
Definition postBoth : Request :=
  {| Method := "POST"; RequestURI := "/generic/page?color=purple";
     URL_Path := "/generic/page"; URL_RawQuery := "color=purple";
     Cookies := []; postForm := ({["color" := ["red"]]}, None) |}.

(** ** The loop over a string *)

(** [splitHangeul]. *)
Definition splitHangeul (in_ : string) : list Z :=
  utf8.rangeRunes 0 in_.

(** ** path: Clean *)

Module path.

(** The inner loop of the [..] case of [Clean], after [out.w--]: [outR] is
    the buffer up to [out.w], last byte first, and [removed] is the byte at
    [out.w]. *)
Fixpoint backtrackLoop (dotdot : nat) (removed : ascii) (outR : list ascii) : list ascii :=
  match outR with
  | [] => []
  | y :: rest =>
      if (dotdot <? length outR)%nat && negb (Ascii.eqb removed "/")
      then backtrackLoop dotdot y rest
      else outR
  end.

(** [out.w--] and the loop after it. *)
Definition backtrack (dotdot : nat) (out : string) : string :=
  match rev (String.list_ascii_of_string out) with
  | [] => out
  | x :: outR => String.string_of_list_ascii (rev (backtrackLoop dotdot x outR))
  end.

Definition startsWithSlashOrEnds (p : string) : bool :=
  match p with
  | EmptyString => true
  | String c _ => Ascii.eqb c "/"
  end.

(** The loop of [Clean] over the rest [p] of the path, with the buffer [out]
    and the mark [dotdot].  [inElem] says that the loop that copies a path
    element is at work; it stops at a slash, which the outer loop then
    passes. *)
Fixpoint cleanLoop (rooted inElem : bool) (p : string) (out : string) (dotdot : nat)
  : string :=
  match p with
  | EmptyString => out
  | String c p' =>
      if inElem then
        if Ascii.eqb c "/" then cleanLoop rooted false p' out dotdot
        else cleanLoop rooted true p' (out +:+ String c EmptyString) dotdot
      else if Ascii.eqb c "/" then cleanLoop rooted false p' out dotdot
      else if Ascii.eqb c "." && startsWithSlashOrEnds p' then
        cleanLoop rooted false p' out dotdot
      else
        match p' with
        | String "." p'' =>
            if Ascii.eqb c "." && startsWithSlashOrEnds p'' then
              if (dotdot <? String.length out)%nat then
                cleanLoop rooted false p'' (backtrack dotdot out) dotdot
              else if negb rooted then
                let out := if (0 <? String.length out)%nat then out +:+ "/" else out in
                let out := out +:+ ".." in
                cleanLoop rooted false p'' out (String.length out)
              else cleanLoop rooted false p'' out dotdot
            else
              let out :=
                if (rooted && negb (String.length out =? 1)%nat)
                   || (negb rooted && negb (String.length out =? 0)%nat)
                then out +:+ "/" else out in
              cleanLoop rooted true p' (out +:+ String c EmptyString) dotdot
        | _ =>
            let out :=
              if (rooted && negb (String.length out =? 1)%nat)
                 || (negb rooted && negb (String.length out =? 0)%nat)
              then out +:+ "/" else out in
            cleanLoop rooted true p' (out +:+ String c EmptyString) dotdot
        end
  end%char.

(** [path.Clean]. *)
Definition Clean (p : string) : string :=
  match p with
  | EmptyString => "."
  | String c p' =>
      let out :=
        if Ascii.eqb c "/" then cleanLoop true false p' "/" 1
        else cleanLoop false false p EmptyString 0 in
      match out with
      | EmptyString => "."
      | _ => out
      end
  end.

End path.

(** ** net/http: ServeMux

    The mux as from Go 1.22: a pattern is cut into segments and kept in a
    tree, and a request is matched by its escaped path, segment by segment.
    The patterns of the program are a path of literal segments with or without
    a slash at its end; patterns with a method or with a wildcard in braces are
    not embedded, and [Handle] says so when it meets one. *)

Module mux.

Definition Handler : Type := http.ResponseWriter -> Request -> http.ResponseWriter.

(** [strings.Split(p, "/")]: the texts between the slashes of [p]. *)
Fixpoint splitSlash (p : string) : list string :=
  match p with
  | EmptyString => [EmptyString]
  | String c p' =>
      if Ascii.eqb c "/" then EmptyString :: splitSlash p'
      else match splitSlash p' with
           | piece :: pieces => String c piece :: pieces
           | [] => [String c EmptyString]
           end
  end.

(** [strings.Count(s, "/")]. *)
Fixpoint countSlash (s : string) : nat :=
  match s with
  | EmptyString => O
  | String c s' => if Ascii.eqb c "/" then S (countSlash s') else countSlash s'
  end.

Fixpoint lastByte (s : string) : option ascii :=
  match s with
  | EmptyString => None
  | String c EmptyString => Some c
  | String _ s1 => lastByte s1
  end.

(** [strings.HasSuffix(s, "/")]. *)
Definition endsInSlash (s : string) : bool :=
  match lastByte s with
  | Some c => Ascii.eqb c "/"
  | None => false
  end.

(** [url.PathUnescape]: [unescape] in the mode [encodePathSegment], where a
    plus sign stays as it is; [None] for the error of a bad escape. *)
Fixpoint PathUnescape (s : string) : option string :=
  match s with
  | EmptyString => Some EmptyString
  | String "%" rest =>
      match rest with
      | String a (String b rest') =>
          if url.ishex a && url.ishex b then
            match PathUnescape rest' with
            | Some t =>
                Some (String (bytes.ofZ (Z.lor (Z.shiftl (url.unhex a) 4) (url.unhex b))) t)
            | None => None
            end
          else None
      | _ => None
      end
  | String c rest =>
      match PathUnescape rest with
      | Some t => Some (String c t)
      | None => None
      end
  end%char.

(** [pathUnescape]: a text with a bad escape stays as it is. *)
Definition pathUnescape (path : string) : string :=
  default path (PathUnescape path).

(** *** Patterns *)

Record segment := mkSegment {
  s : string;     (* the literal, or the name of the wildcard *)
  wild : bool;
  multi : bool    (* the wildcard [...] *)
}.

Record pattern := mkPattern {
  str : string;
  method : string;
  host : string;
  segments : list segment
}.

(** The segments of the path of a pattern, from the texts between its
    slashes: a literal for each, unescaped, and for a slash at the end of the
    path the nameless wildcard [...]. *)
Fixpoint patternSegments (pieces : list string) : list segment :=
  match pieces with
  | [] => []
  | [EmptyString] => [{| s := EmptyString; wild := true; multi := true |}]
  | piece :: pieces' =>
      {| s := pathUnescape piece; wild := false; multi := false |} :: patternSegments pieces'
  end.

(** What [parsePattern] returns: the pattern, an error, or, for a pattern
    with a method or a wildcard in braces, that it is not embedded. *)
Inductive parsed :=
| Parsed (p : pattern)
| Invalid
| Beyond.

(** [parsePattern], on the patterns [[HOST]/[PATH]] without braces. *)
Definition parsePattern (str : string) : parsed :=
  match str with
  | EmptyString => Invalid
  | _ =>
      if url.ContainsByte str " " || url.ContainsByte str "009" then Beyond
      else if negb (url.ContainsByte str "/") then Invalid
      else
        let '(host, rest) := url.Cut str "/" in
        if url.ContainsByte host "{" then Invalid
        else if url.ContainsByte rest "{" then Beyond
        else Parsed {| str := str; method := EmptyString; host := host;
                       segments := patternSegments (splitSlash rest) |}
  end.

Definition lastSegment (p : pattern) : segment :=
  List.last (segments p) {| s := EmptyString; wild := false; multi := false |}.

(** How two patterns relate, by the requests they match. *)
Inductive relationship :=
| equivalent | moreGeneral | moreSpecific | disjoint | overlaps.

Definition inverseRelationship (r : relationship) : relationship :=
  match r with
  | moreSpecific => moreGeneral
  | moreGeneral => moreSpecific
  | _ => r
  end.

Definition relationship_eqb (r1 r2 : relationship) : bool :=
  match r1, r2 with
  | equivalent, equivalent | moreGeneral, moreGeneral | moreSpecific, moreSpecific
  | disjoint, disjoint | overlaps, overlaps => true
  | _, _ => false
  end.

Definition combineRelationships (r1 r2 : relationship) : relationship :=
  match r1 with
  | equivalent => r2
  | disjoint => disjoint
  | overlaps => if relationship_eqb r2 disjoint then disjoint else overlaps
  | moreGeneral | moreSpecific =>
      if relationship_eqb r2 equivalent then r1
      else if relationship_eqb r2 (inverseRelationship r1) then overlaps
      else r2
  end.

Definition compareSegments (s1 s2 : segment) : relationship :=
  if multi s1 && multi s2 then equivalent
  else if multi s1 then moreGeneral
  else if multi s2 then moreSpecific
  else if wild s1 && wild s2 then equivalent
  else if wild s1 then (if String.eqb (s s2) "/" then disjoint else moreGeneral)
  else if wild s2 then (if String.eqb (s s1) "/" then disjoint else moreSpecific)
  else if String.eqb (s s1) (s s2) then equivalent
  else disjoint.

Definition compareMethods (p1 p2 : pattern) : relationship :=
  if String.eqb (method p1) (method p2) then equivalent
  else if String.eqb (method p1) EmptyString then moreGeneral
  else if String.eqb (method p2) EmptyString then moreSpecific
  else if String.eqb (method p1) "GET" && String.eqb (method p2) "HEAD" then moreGeneral
  else if String.eqb (method p2) "GET" && String.eqb (method p1) "HEAD" then moreSpecific
  else disjoint.

(** The loop of [comparePaths] over the corresponding segments, and what
    follows it. *)
Fixpoint compareFrom (p1 p2 : pattern) (rel : relationship) (segs1 segs2 : list segment)
  : relationship :=
  match segs1, segs2 with
  | s1 :: segs1', s2 :: segs2' =>
      let rel := combineRelationships rel (compareSegments s1 s2) in
      if relationship_eqb rel disjoint then rel
      else compareFrom p1 p2 rel segs1' segs2'
  | [], [] => rel
  | [], _ :: _ =>
      if multi (lastSegment p1) then combineRelationships rel moreGeneral else disjoint
  | _ :: _, [] =>
      if multi (lastSegment p2) then combineRelationships rel moreSpecific else disjoint
  end.

Definition comparePaths (p1 p2 : pattern) : relationship :=
  if negb (length (segments p1) =? length (segments p2))%nat
     && negb (multi (lastSegment p1)) && negb (multi (lastSegment p2))
  then disjoint
  else compareFrom p1 p2 equivalent (segments p1) (segments p2).

Definition comparePathsAndMethods (p1 p2 : pattern) : relationship :=
  let mrel := compareMethods p1 p2 in
  if relationship_eqb mrel disjoint then disjoint
  else combineRelationships mrel (comparePaths p1 p2).

Definition conflictsWith (p1 p2 : pattern) : bool :=
  if negb (String.eqb (host p1) (host p2)) then false
  else
    let rel := comparePathsAndMethods p1 p2 in
    relationship_eqb rel equivalent || relationship_eqb rel overlaps.

(** *** The tree *)

(** A node of the tree: for a leaf, the pattern and the handler it was
    registered with; the children by their keys; the child of the wildcard
    [...]; and the child of the key [""]. *)
#[local] Unset Elimination Schemes.
Inductive routingNode :=
| Node (leaf : option (pattern * Handler)) (children : list (string * routingNode))
    (multiChild emptyChild : option routingNode).
#[local] Set Elimination Schemes.

Definition leaf (n : routingNode) : option (pattern * Handler) :=
  let 'Node l _ _ _ := n in l.
Definition children (n : routingNode) : list (string * routingNode) :=
  let 'Node _ c _ _ := n in c.
Definition multiChild (n : routingNode) : option routingNode :=
  let 'Node _ _ m _ := n in m.
Definition emptyChild (n : routingNode) : option routingNode :=
  let 'Node _ _ _ e := n in e.

Definition emptyNode : routingNode := Node None [] None None.

(** The small map of a node: the value of a key, and the map with a key
    set, a new key going to the end. *)
Fixpoint find {A : Type} (l : list (string * A)) (key : string) : option A :=
  match l with
  | [] => None
  | (k, c) :: l' => if String.eqb k key then Some c else find l' key
  end.

Fixpoint add {A : Type} (l : list (string * A)) (key : string) (c : A) : list (string * A) :=
  match l with
  | [] => [(key, c)]
  | (k, c') :: l' => if String.eqb k key then (k, c) :: l' else (k, c') :: add l' key c
  end.

Definition findChild (n : routingNode) (key : string) : option routingNode :=
  match key with
  | EmptyString => emptyChild n
  | _ => find (children n) key
  end.

(** The node [n] with [c] as its child of the key [key]: what the update of
    the node that [addChild] returns leaves in [n]. *)
Definition withChild (n : routingNode) (key : string) (c : routingNode) : routingNode :=
  match key with
  | EmptyString => Node (leaf n) (children n) (multiChild n) (Some c)
  | _ => Node (leaf n) (add (children n) key c) (multiChild n) (emptyChild n)
  end.

(** [addChild]: the child of the key, a new node when there is none. *)
Definition addChild (n : routingNode) (key : string) : routingNode :=
  default emptyNode (findChild n key).

(** [set]; [None] where Go panics, on a leaf that is set. *)
Definition set (n : routingNode) (p : pattern) (h : Handler) : option routingNode :=
  match leaf n with
  | Some _ => None
  | None => Some (Node (Some (p, h)) (children n) (multiChild n) (emptyChild n))
  end.

(** [addSegments]; [None] where Go panics. *)
Fixpoint addSegments (segs : list segment) (p : pattern) (h : Handler) (n : routingNode)
  : option routingNode :=
  match segs with
  | [] => set n p h
  | seg :: rest =>
      if multi seg then
        match rest with
        | [] =>
            match set emptyNode p h with
            | Some c => Some (Node (leaf n) (children n) (Some c) (emptyChild n))
            | None => None
            end
        | _ => None
        end
      else
        let key := if wild seg then EmptyString else s seg in
        match addSegments rest p h (addChild n key) with
        | Some c => Some (withChild n key c)
        | None => None
        end
  end.

(** [addPattern]: the first level of the tree is the host, the second the
    method, the others the segments of the path. *)
Definition addPattern (root : routingNode) (p : pattern) (h : Handler)
  : option routingNode :=
  let hostNode := addChild root (host p) in
  let methodNode := addChild hostNode (method p) in
  match addSegments (segments p) p h methodNode with
  | Some n => Some (withChild root (host p) (withChild hostNode (method p) n))
  | None => None
  end.

(** The segments that [matchPath] takes off a path one by one with
    [firstSegment]: the texts between the slashes after the first byte, each
    one unescaped, and ["/"] for a slash at the end of the path. *)
Fixpoint segmentsOf (pieces : list string) : list string :=
  match pieces with
  | [] => []
  | [EmptyString] => ["/"]
  | piece :: pieces' => pathUnescape piece :: segmentsOf pieces'
  end.

Definition pathSegments (path : string) : list string :=
  match path with
  | EmptyString => []
  | String _ path' => segmentsOf (splitSlash path')
  end.

(** [matchPath] on the segments of the path: the leaf, when there is one.
    (The values of the wildcards, which the handlers of the program do not
    read, are not embedded.) *)
Fixpoint matchPath (segs : list string) (n : option routingNode) : option routingNode :=
  match n with
  | None => None
  | Some n =>
      match segs with
      | [] => if leaf n is Some _ then Some n else None
      | seg :: rest =>
          match matchPath rest (findChild n seg) with
          | Some l => Some l
          | None =>
              match (if String.eqb seg "/" then None else matchPath rest (emptyChild n)) with
              | Some l => Some l
              | None => multiChild n
              end
          end
      end
  end.

Definition matchMethodAndPath (n : option routingNode) (method : string)
  (segs : list string) : option routingNode :=
  match n with
  | None => None
  | Some n =>
      match matchPath segs (findChild n method) with
      | Some l => Some l
      | None =>
          match (if String.eqb method "HEAD" then matchPath segs (findChild n "GET")
                 else None) with
          | Some l => Some l
          | None => matchPath segs (emptyChild n)
          end
      end
  end.

(** The method [match] of the tree. *)
Definition match_ (root : routingNode) (host method path : string) : option routingNode :=
  let segs := pathSegments path in
  match (match host with
         | EmptyString => None
         | _ => matchMethodAndPath (findChild root host) method segs
         end) with
  | Some l => Some l
  | None => matchMethodAndPath (emptyChild root) method segs
  end.

(** [exactMatch]. *)
Definition exactMatch (n : option routingNode) (path : string) : bool :=
  match n with
  | None => false
  | Some n =>
      match leaf n with
      | None => false
      | Some (p, _) =>
          if negb (multi (lastSegment p)) then true
          else if (match path with EmptyString => false | _ => true end)
                  && negb (endsInSlash path) then false
          else (length (segments p) =? countSlash path)%nat
      end
  end.

(** *** The mux *)

(** The tree and the patterns registered so far.  (Go looks for a conflict
    among the patterns that its index returns, which are all that can conflict;
    here all the patterns are compared.) *)
Record ServeMux := mkServeMux {
  tree : routingNode;
  patterns : list pattern
}.

Definition NewServeMux : ServeMux := {| tree := emptyNode; patterns := [] |}.

(** What [Handle] does: it registers the pattern, or it panics (a pattern
    that is not valid, a conflict with a registered pattern), or the pattern is
    beyond what is embedded. *)
Inductive Registration :=
| Registered (mux : ServeMux)
| Panics
| NotEmbedded.

(** The method [Handle] of the mux. *)
Definition Handle (mux : ServeMux) (pattern : string) (handler : Handler) : Registration :=
  match parsePattern pattern with
  | Invalid => Panics
  | Beyond => NotEmbedded
  | Parsed pat =>
      if existsb (conflictsWith pat) (patterns mux) then Panics
      else
        match addPattern (tree mux) pat handler with
        | Some tree' => Registered {| tree := tree'; patterns := patterns mux ++ [pat] |}
        | None => Panics
        end
  end.

(** [cleanPath]. *)
Definition cleanPath (p : string) : string :=
  match p with
  | EmptyString => "/"
  | String c _ =>
      let p := if Ascii.eqb c "/" then p else "/" +:+ p in
      let np := path.Clean p in
      if endsInSlash p && negb (String.eqb np "/") then
        if (String.length p =? String.length np + 1)%nat && hasPrefix p np then p
        else np +:+ "/"
      else np
  end.

(** [matchOrRedirect]: the leaf that matches, or the URL to redirect to, by
    its path and its query.  [u] is the URL of the request, by its path and its
    query, or [None] for nil. *)
Definition matchOrRedirect (mux : ServeMux) (host method path : string)
  (u : option (string * string)) : option routingNode * option (string * string) :=
  let n := match_ (tree mux) host method path in
  match u with
  | Some (uPath, uRawQuery) =>
      if negb (exactMatch n path) && negb (endsInSlash path) then
        let path := path +:+ "/" in
        if exactMatch (match_ (tree mux) host method path) path
        then (None, Some (cleanPath uPath +:+ "/", uRawQuery))
        else (n, None)
      else (n, None)
  | None => (n, None)
  end.

(** [http.NotFound]. *)
Definition NotFound (w : http.ResponseWriter) (r : Request) : http.ResponseWriter :=
  http.Error w "404 page not found" 404.

(** The status of the redirects of the mux, [StatusTemporaryRedirect]. *)
Definition redirectStatus : Z := 307.

(** What [findHandler] returns: a handler with its pattern, or the
    [RedirectHandler] to a URL of the given path and query. *)
Inductive Route :=
| Serve (h : Handler) (pattern : string)
| Redirect (path rawQuery : string).

(** [findHandler].  [host] is [r.Host], without its port unless the method
    is CONNECT; [urlHost] is [r.URL.Host]; [escapedPath] is
    [r.URL.EscapedPath()].  No pattern with a method is registered, so that a
    request without a match has no other method to be allowed with, and the
    handler is [NotFound]. *)
Definition findHandler (mux : ServeMux) (host urlHost escapedPath : string) (r : Request)
  : Route :=
  let u := Some (URL_Path r, URL_RawQuery r) in
  let serve (n : option routingNode) :=
    match n with
    | Some (Node (Some (p, h)) _ _ _) => Serve h (str p)
    | _ => Serve NotFound EmptyString
    end in
  if String.eqb (Method r) "CONNECT" then
    match snd (matchOrRedirect mux urlHost (Method r) escapedPath u) with
    | Some (path, rawQuery) => Redirect path rawQuery
    | None => serve (fst (matchOrRedirect mux host (Method r) escapedPath None))
    end
  else
    let path := cleanPath escapedPath in
    let '(n, u) := matchOrRedirect mux host (Method r) path u in
    match u with
    | Some (path, rawQuery) => Redirect path rawQuery
    | None =>
        if negb (String.eqb path escapedPath) then Redirect path (URL_RawQuery r)
        else serve n
    end.

(** What the mux does with a request: it lets a handler answer, or it
    redirects to a URL of the given path and query (the headers and the body of
    the redirect are not embedded). *)
Inductive Outcome :=
| Answered (w : http.ResponseWriter)
| Redirected (code : Z) (path rawQuery : string).

(** The method [ServeHTTP] of the mux; [proto11] is [r.ProtoAtLeast(1, 1)]. *)
Definition ServeHTTP (mux : ServeMux) (host urlHost escapedPath : string) (proto11 : bool)
  (w : http.ResponseWriter) (r : Request) : Outcome :=
  if String.eqb (RequestURI r) "*" then
    let w := if proto11 then http.withHeader (fun h => http.Header_Set h "Connection" "close") w
             else w in
    Answered (http.WriteHeader w 400)
  else
    match findHandler mux host urlHost escapedPath r with
    | Serve h _ => Answered (h w r)
    | Redirect path rawQuery => Redirected redirectStatus path rawQuery
    end.

End mux.

(** The mux [main] builds: its three calls of [mux.Handle]. *)
Definition mainMux (ReadFile : string -> string * option error) : mux.Registration :=
  match mux.Handle mux.NewServeMux "/home" (HomeHandler ReadFile) with
  | mux.Registered mux =>
      match mux.Handle mux "/item/" ItemHandler with
      | mux.Registered mux => mux.Handle mux "/generic/" GenericHandler
      | other => other
      end
  | other => other
  end.

(** The patterns of the program as they are parsed. *)
Definition homePattern : mux.pattern :=
  {| mux.str := "/home"; mux.method := EmptyString; mux.host := EmptyString;
     mux.segments := [{| mux.s := "home"; mux.wild := false; mux.multi := false |}] |}.

Definition subtreePattern (name : string) : mux.pattern :=
  {| mux.str := "/" +:+ name +:+ "/"; mux.method := EmptyString; mux.host := EmptyString;
     mux.segments := [{| mux.s := name; mux.wild := false; mux.multi := false |};
                      {| mux.s := EmptyString; mux.wild := true; mux.multi := true |}] |}.

Definition leafOf (p : mux.pattern) (h : mux.Handler) : mux.routingNode :=
  mux.Node (Some (p, h)) [] None None.

Definition subtreeOf (p : mux.pattern) (h : mux.Handler) : mux.routingNode :=
  mux.Node None [] (Some (leafOf p h)) None.

(** The tree of that mux below the empty host and the empty method. *)
Definition pathTree (ReadFile : string -> string * option error) : mux.routingNode :=
  mux.Node None
    [("home", leafOf homePattern (HomeHandler ReadFile));
     ("item", subtreeOf (subtreePattern "item") ItemHandler);
     ("generic", subtreeOf (subtreePattern "generic") GenericHandler)]
    None None.

Definition theMux (ReadFile : string -> string * option error) : mux.ServeMux :=
  {| mux.tree :=
       mux.Node None [] None (Some (mux.Node None [] None (Some (pathTree ReadFile))));
     mux.patterns := [homePattern; subtreePattern "item"; subtreePattern "generic"] |}.

(** The path the mux looks up is the escaped path of the request: the path
    is clean, or the method is CONNECT and the path starts with a slash. *)
Definition asIs (r : Request) (escapedPath : string) : Prop :=
  mux.cleanPath escapedPath = escapedPath
  \/ (Method r = "CONNECT" /\ hasPrefix escapedPath "/" = true).

(** A path that one of the three patterns has to do with: its first segment
    is [item] or [generic], or [home] is its one segment. *)
Definition routed (escapedPath : string) : bool :=
  match mux.pathSegments escapedPath with
  | [] => false
  | seg :: rest =>
      String.eqb seg "item" || String.eqb seg "generic"
      || (String.eqb seg "home" && match rest with [] => true | _ => false end)
  end.

(** A path that is the one segment [item] or [generic], with no slash after
    it. *)
Definition toSubtree (escapedPath : string) : bool :=
  match mux.pathSegments escapedPath with
  | [seg] => String.eqb seg "item" || String.eqb seg "generic"
  | _ => false
  end.

(** The leaf of the tree of main for the segments of a path. *)
Definition leafFor (ReadFile : string -> string * option error) (segs : list string)
  : option mux.routingNode :=
  match segs with
  | [] => None
  | seg :: rest =>
      if String.eqb seg "home" then
        match rest with [] => Some (leafOf homePattern (HomeHandler ReadFile)) | _ => None end
      else if String.eqb seg "item" then
        match rest with [] => None | _ => Some (leafOf (subtreePattern "item") ItemHandler) end
      else if String.eqb seg "generic" then
        match rest with
        | [] => None
        | _ => Some (leafOf (subtreePattern "generic") GenericHandler)
        end
      else None
  end.

(** The handler of the mux of main for the segments of a path. *)
Definition handlerFor (ReadFile : string -> string * option error) (segs : list string)
  : mux.Handler :=
  match segs with
  | [] => mux.NotFound
  | seg :: rest =>
      if String.eqb seg "home" then
        match rest with [] => HomeHandler ReadFile | _ => mux.NotFound end
      else if String.eqb seg "item" then
        match rest with [] => mux.NotFound | _ => ItemHandler end
      else if String.eqb seg "generic" then
        match rest with [] => mux.NotFound | _ => GenericHandler end
      else mux.NotFound
  end.

(** * Properties *)

(** ** Strings *)

Lemma app_cons (x : ascii) (a b : string) : String x a +:+ b = String x (a +:+ b).
Proof. reflexivity. Qed.

Lemma app_nil_l (a : string) : EmptyString +:+ a = a.
Proof. reflexivity. Qed.

Lemma app_assoc_s (a b c : string) : (a +:+ b) +:+ c = a +:+ (b +:+ c).
Proof.
  induction a as [|x a IH]; [reflexivity|].
  now rewrite !app_cons, IH.
Qed.

Lemma app_nil_r_s (a : string) : a +:+ EmptyString = a.
Proof.
  induction a as [|x a IH]; [reflexivity|].
  now rewrite app_cons, IH.
Qed.

Lemma all_app (p : ascii -> bool) (a b : string) :
  bytes.all p (a +:+ b) = bytes.all p a && bytes.all p b.
Proof.
  induction a as [|x a IH]; [reflexivity|].
  rewrite app_cons. simpl. rewrite IH. now rewrite andb_assoc.
Qed.

Lemma all_impl (p q : ascii -> bool) (s : string) :
  (forall c, p c = true -> q c = true) ->
  bytes.all p s = true -> bytes.all q s = true.
Proof.
  intros Hpq. induction s as [|x s IH]; simpl; [reflexivity|].
  intros [Hx Hs]%andb_prop. rewrite (Hpq _ Hx). simpl. auto.
Qed.

Lemma CutPrefix_Some (s prefix rest : string) :
  bytes.CutPrefix s prefix = Some rest <-> s = prefix +:+ rest.
Proof.
  revert s. induction prefix as [|p prefix IH]; intros s.
  - simpl. rewrite app_nil_l. split; [intros [= ->] | intros ->]; reflexivity.
  - rewrite app_cons. simpl. destruct s as [|c s]; [split; discriminate|].
    destruct (Ascii.eqb_spec c p) as [->|Hne].
    + rewrite IH. split; [intros -> | intros [= ->]]; reflexivity.
    + split; [discriminate | intros [= -> _]; contradiction].
Qed.

Lemma lines_line (s rest : string) :
  bytes.all (fun c => negb (Ascii.eqb c bytes.LF)) s = true ->
  lines (s +:+ String bytes.LF rest) = s :: lines rest.
Proof.
  induction s as [|x s IH].
  - reflexivity.
  - rewrite app_cons. simpl. intros [Hx Hs]%andb_prop.
    rewrite (IH Hs).
    destruct (Ascii.eqb x bytes.LF); [discriminate | reflexivity].
Qed.

Lemma hasPrefix_app (sub post : string) : hasPrefix (sub +:+ post) sub = true.
Proof.
  induction sub as [|x sub IH]; [now destruct post|].
  rewrite app_cons. simpl. now rewrite Ascii.eqb_refl.
Qed.

Lemma Contains_here (s sub : string) : hasPrefix s sub = true -> Contains s sub = true.
Proof. intros H. destruct s; simpl; now rewrite H. Qed.

Lemma Contains_app (pre sub post : string) :
  Contains (pre +:+ sub +:+ post) sub = true.
Proof.
  induction pre as [|x pre IH].
  - rewrite app_nil_l. apply Contains_here, hasPrefix_app.
  - rewrite app_cons. simpl. rewrite IH. apply orb_true_r.
Qed.

(** ** Header keys *)

Lemma canonical_Set_Cookie : textproto.CanonicalMIMEHeaderKey "Set-Cookie" = "Set-Cookie".
Proof. reflexivity. Qed.

Lemma canonical_Content_type : textproto.CanonicalMIMEHeaderKey "Content-type" = "Content-Type".
Proof. reflexivity. Qed.

Lemma testcookie_String :
  http.Cookie_String {| http.Name := "testcookiename"; http.Value := "testcookievalue";
                        http.Quoted := false |}
  = "testcookiename=testcookievalue".
Proof. reflexivity. Qed.

(** ** The response writer *)

Section writer.
Variable w : http.ResponseWriter.
Variable buf : string.

Lemma Write_Body : http.Body (http.Write w buf) = http.Body w +:+ buf.
Proof. unfold http.Write, http.WriteHeader. now destruct (http.wroteHeader w). Qed.

Lemma Write_wroteHeader : http.wroteHeader (http.Write w buf) = true.
Proof.
  unfold http.Write, http.WriteHeader.
  destruct (http.wroteHeader w) eqn:E; simpl; [exact E | reflexivity].
Qed.

Lemma Write_Code :
  http.Code (http.Write w buf) = if http.wroteHeader w then http.Code w else 200.
Proof. unfold http.Write, http.WriteHeader. now destruct (http.wroteHeader w). Qed.

Lemma Write_snapHeader :
  http.snapHeader (http.Write w buf)
  = if http.wroteHeader w then http.snapHeader w else http.HeaderMap w.
Proof. unfold http.Write, http.WriteHeader. now destruct (http.wroteHeader w). Qed.

(** Once a status is written, a write only adds to the body. *)
Lemma Write_Result_after :
  http.wroteHeader w = true ->
  http.Result (http.Write w buf)
  = {| http.StatusCode := http.StatusCode (http.Result w);
       http.RespHeader := http.RespHeader (http.Result w);
       http.RespBody := http.RespBody (http.Result w) +:+ buf |}.
Proof.
  intros Hw. unfold http.Result.
  rewrite Write_wroteHeader, Write_Code, Write_snapHeader, Write_Body, Hw.
  reflexivity.
Qed.
End writer.

Lemma Write_RespHeader_after (w : http.ResponseWriter) (buf : string) :
  http.wroteHeader w = true ->
  http.RespHeader (http.Result (http.Write w buf)) = http.RespHeader (http.Result w).
Proof. intros Hw. now rewrite Write_Result_after. Qed.

Lemma WriteHeader_Body (w : http.ResponseWriter) (code : Z) :
  http.Body (http.WriteHeader w code) = http.Body w.
Proof. unfold http.WriteHeader. now destruct (http.wroteHeader w). Qed.

Lemma Error_Body (w : http.ResponseWriter) (msg : string) (code : Z) :
  http.Body (http.Error w msg code) = http.Body w +:+ msg +:+ fmt.nl.
Proof. unfold http.Error. now rewrite Write_Body, WriteHeader_Body. Qed.

Lemma Error_wroteHeader (w : http.ResponseWriter) (msg : string) (code : Z) :
  http.wroteHeader (http.Error w msg code) = true.
Proof. unfold http.Error. apply Write_wroteHeader. Qed.

(** The status is written after a write and after [http.Error]. *)
Create HintDb writer.
#[local] Hint Resolve Write_wroteHeader Error_wroteHeader : writer.

Lemma Error_Code (w : http.ResponseWriter) (msg : string) (code : Z) :
  http.wroteHeader w = false -> http.Code (http.Error w msg code) = code.
Proof.
  intros Hw. unfold http.Error. rewrite Write_Code.
  unfold http.WriteHeader, http.withHeader. simpl. now rewrite Hw.
Qed.

(** ** The cookie setter *)

(** C7.  On every response, [SetMyCookie] appends the value
    [testcookiename=testcookievalue] to the values of the header [Set-Cookie],
    and changes nothing else: the other headers, the body, the status, the
    mark that the status was written and the headers already sent stay as
    they were.  It is a total function: it has no failure. *)
Theorem SetMyCookie_headers_only (response : http.ResponseWriter) :
  let response' := SetMyCookie response in
  http.Header_Values (http.HeaderMap response') "Set-Cookie"
  = http.Header_Values (http.HeaderMap response) "Set-Cookie"
    ++ ["testcookiename=testcookievalue"]
  /\ delete "Set-Cookie" (http.HeaderMap response')
     = delete "Set-Cookie" (http.HeaderMap response)
  /\ http.Body response' = http.Body response
  /\ http.Code response' = http.Code response
  /\ http.wroteHeader response' = http.wroteHeader response
  /\ http.snapHeader response' = http.snapHeader response.
Proof.
  cbv zeta. unfold SetMyCookie, http.SetCookie.
  rewrite testcookie_String. cbv iota beta.
  unfold http.withHeader, http.Header_Add, http.Header_Values; simpl.
  rewrite canonical_Set_Cookie.
  repeat split.
  - now rewrite lookup_insert_eq.
  - apply delete_insert_eq.
Qed.

(** ** The handlers and the cookie *)

(** Setting or deleting another header leaves the values of [Set-Cookie]. *)
Lemma Set_Cookie_after_Set (h : http.Header) (key value : string) :
  textproto.CanonicalMIMEHeaderKey key <> "Set-Cookie" ->
  http.Header_Values (http.Header_Set h key value) "Set-Cookie"
  = http.Header_Values h "Set-Cookie".
Proof.
  intros Hne. unfold http.Header_Values, http.Header_Set.
  rewrite canonical_Set_Cookie. now rewrite lookup_insert_ne.
Qed.

Lemma Set_Cookie_after_Del (h : http.Header) (key : string) :
  textproto.CanonicalMIMEHeaderKey key <> "Set-Cookie" ->
  http.Header_Values (http.Header_Del h key) "Set-Cookie"
  = http.Header_Values h "Set-Cookie".
Proof.
  intros Hne. unfold http.Header_Values, http.Header_Del.
  rewrite canonical_Set_Cookie. now rewrite lookup_delete_ne.
Qed.

(** [http.Error] on a response whose status is not written sends the
    [Set-Cookie] values the handler had set. *)
Lemma Error_keeps_Set_Cookie (w : http.ResponseWriter) (msg : string) (code : Z) :
  http.wroteHeader w = false ->
  http.Header_Values (http.RespHeader (http.Result (http.Error w msg code))) "Set-Cookie"
  = http.Header_Values (http.HeaderMap w) "Set-Cookie".
Proof.
  intros Hw. unfold http.Result. rewrite Error_wroteHeader.
  unfold http.Error. rewrite Write_snapHeader.
  unfold http.WriteHeader, http.withHeader; simpl. rewrite Hw; simpl.
  rewrite !Set_Cookie_after_Set, Set_Cookie_after_Del by discriminate.
  reflexivity.
Qed.

(** ** The item handler, by the outcome of the match *)

Lemma ItemHandler_no_match (w : http.ResponseWriter) (request : Request) :
  regexp.itemURL_FindStringSubmatch (URL_Path request) = [] ->
  ItemHandler w request
  = http.Error
      (http.withHeader (fun h => http.Header_Set h "Content-type" "application/json")
         (SetMyCookie w))
      "404 page not found" 404.
Proof. intros H. unfold ItemHandler. now rewrite H. Qed.

Lemma ItemHandler_match (w : http.ResponseWriter) (request : Request) (name : string) :
  regexp.itemURL_FindStringSubmatch (URL_Path request) = [URL_Path request; name] ->
  ItemHandler w request
  = fmt.Fprint
      (fmt.Fprint
         (http.withHeader (fun h => http.Header_Set h "Content-type" "application/json")
            (SetMyCookie w))
         (json.Marshal_map (<["name" := name]> (<["name" := EmptyString]> (<["what" := "item"]> ∅)))
          +:+ fmt.nl))
      (json.Marshal_slice
         [URL_Path request; name; "This is long JSON data for calculation for bytes."]
       +:+ fmt.nl).
Proof. intros H. unfold ItemHandler. now rewrite H. Qed.

(** What the pattern matches: [/item/] and then a token. *)
Lemma itemURL_matches (s : string) :
  regexp.itemURL_FindStringSubmatch s = []
  \/ exists T, s = "/item/" +:+ T /\ isToken T
               /\ regexp.itemURL_FindStringSubmatch s = [s; T].
Proof.
  unfold regexp.itemURL_FindStringSubmatch.
  destruct (bytes.CutPrefix s "/item/") as [name|] eqn:Hcut; [|now left].
  apply CutPrefix_Some in Hcut.
  destruct name as [|c name]; [now left|].
  destruct (bytes.all regexp.isWordByte (String c name)) eqn:Hall; [|now left].
  right. exists (String c name).
  split; [exact Hcut|]. split; [split; [discriminate | exact Hall] | reflexivity].
Qed.

Lemma itemURL_token (T : string) :
  isToken T ->
  regexp.itemURL_FindStringSubmatch ("/item/" +:+ T) = ["/item/" +:+ T; T].
Proof.
  intros [Hne Hall]. unfold regexp.itemURL_FindStringSubmatch.
  assert (bytes.CutPrefix ("/item/" +:+ T) "/item/" = Some T) as ->
    by now apply CutPrefix_Some.
  destruct T as [|c T]; [contradiction|]. now rewrite Hall.
Qed.

Lemma itemURL_no_token (s : string) :
  ~ (exists T, s = "/item/" +:+ T /\ isToken T) ->
  regexp.itemURL_FindStringSubmatch s = [].
Proof.
  intros Hno. destruct (itemURL_matches s) as [H|[T [Hs [HT _]]]]; [exact H|].
  exfalso. apply Hno. now exists T.
Qed.

(** ** The pattern of the item URL *)

Lemma Matches_Plus_Class (p : ascii -> bool) (s : string) (g : list string) :
  regexp.Matches (regexp.Plus (regexp.Class p)) s g ->
  s <> EmptyString /\ bytes.all p s = true /\ g = [].
Proof.
  intros H. remember (regexp.Plus (regexp.Class p)) as r eqn:Hr.
  induction H as [| | | r s g H _ | r s1 s2 g1 g2 H1 _ H2 IH2 |]; try discriminate.
  - injection Hr as ->. inversion H; subst.
    repeat split; [discriminate | simpl; now rewrite andb_true_r].
  - injection Hr as ->. inversion H1; subst.
    destruct (IH2 eq_refl) as [_ [Hall ->]].
    rewrite app_cons, app_nil_l.
    repeat split; [discriminate | simpl; now rewrite Hall, andb_true_r].
Qed.

Lemma Plus_Class_Matches (p : ascii -> bool) (s : string) :
  s <> EmptyString -> bytes.all p s = true -> regexp.Matches (regexp.Plus (regexp.Class p)) s [].
Proof.
  induction s as [|c s IH]; [contradiction|].
  intros _ [Hc Hs]%andb_prop.
  destruct s as [|c' s'].
  - apply regexp.MPlusOne. now apply regexp.MClass.
  - change (String c (String c' s')) with (String c EmptyString +:+ String c' s').
    apply regexp.MPlusMore with (g1 := []); [now apply regexp.MClass|].
    apply IH; [discriminate | exact Hs].
Qed.

(** The pattern matches the texts [/item/T] with [T] a token, and its group
    captures [T]. *)
Lemma Matches_itemURL (s : string) (groups : list string) :
  regexp.Matches regexp.itemURL s groups
  <-> exists T, s = "/item/" +:+ T /\ isToken T /\ groups = [T].
Proof.
  split.
  - intros H. inversion H as [| | r1 r2 s1 s2 g1 g2 H1 H2 | | |]; subst.
    inversion H1; subst. inversion H2 as [| | | | | r s' g' H3]; subst.
    apply Matches_Plus_Class in H3 as [Hne [Hall ->]].
    exists s2. repeat split; assumption.
  - intros [T [-> [[Hne Hall] ->]]].
    apply (regexp.MCat (regexp.Lit "/item/") _ "/item/" T [] [T]); [apply regexp.MLit|].
    apply regexp.MGroup. now apply Plus_Class_Matches.
Qed.

(** [itemURL_FindStringSubmatch] returns the whole text and the group of a
    match of the pattern, and nil when the pattern does not match. *)
Lemma FindStringSubmatch_Matches (s : string) :
  (exists T, regexp.Matches regexp.itemURL s [T] /\ regexp.itemURL_FindStringSubmatch s = [s; T])
  \/ ((forall groups, ~ regexp.Matches regexp.itemURL s groups)
      /\ regexp.itemURL_FindStringSubmatch s = []).
Proof.
  destruct (itemURL_matches s) as [Hnil | [T [Hs [HT Hfind]]]].
  - destruct (regexp.itemURL_FindStringSubmatch s) eqn:Hfind; [|discriminate].
    right. split; [|reflexivity].
    intros groups [T [Hs [HT _]]]%Matches_itemURL.
    subst s. rewrite (itemURL_token T HT) in Hfind. discriminate.
  - left. exists T. split; [|exact Hfind].
    apply Matches_itemURL. now exists T.
Qed.

(** ** The cookie on every response *)

(** C6.  Every response of [GenericHandler] and every response of
    [ItemHandler], whether the handler succeeds or answers with an error,
    carries the header [Set-Cookie] with the one value
    [testcookiename=testcookievalue]. *)
Theorem handlers_set_the_cookie (request : Request) :
  http.Header_Values (http.RespHeader (serve GenericHandler request)) "Set-Cookie"
  = ["testcookiename=testcookievalue"]
  /\ http.Header_Values (http.RespHeader (serve ItemHandler request)) "Set-Cookie"
     = ["testcookiename=testcookievalue"].
Proof.
  split.
  - unfold serve, GenericHandler.
    destruct (ParseForm request) as [Form [err|]].
    + unfold fmt.Fprint. rewrite !Write_RespHeader_after by auto with writer.
      now rewrite Error_keeps_Set_Cookie.
    + vm_compute. reflexivity.
  - unfold serve.
    destruct (itemURL_matches (URL_Path request)) as [H|[T [_ [_ H]]]].
    + rewrite (ItemHandler_no_match _ _ H). now rewrite Error_keeps_Set_Cookie.
    + rewrite (ItemHandler_match _ _ _ H). unfold fmt.Fprint.
      rewrite !Write_RespHeader_after by auto with writer.
      vm_compute. reflexivity.
Qed.

(** C10.  [ItemHandler] reads nothing of the request but its URL path: on
    two requests with the same URL path it leaves the same response (status,
    body, and all headers, [Set-Cookie] and [Content-Type] among them),
    whatever their methods, query strings, forms and cookies. *)
Theorem ItemHandler_reads_the_path_only
  (response : http.ResponseWriter) (request1 request2 : Request) :
  URL_Path request1 = URL_Path request2 ->
  ItemHandler response request1 = ItemHandler response request2.
Proof. intros Hpath. unfold ItemHandler. now rewrite Hpath. Qed.

(** C10 at a GET and a POST to [/item/yellow] that differ in method, query,
    cookies and form. *)
Lemma ItemHandler_reads_the_path_only_yellow :
  plainGet <> busyPost
  /\ ItemHandler http.NewRecorder plainGet = ItemHandler http.NewRecorder busyPost.
Proof.
  split; [discriminate|].
  exact (ItemHandler_reads_the_path_only http.NewRecorder plainGet busyPost eq_refl).
Defined.

(** ** JSON text of tokens *)

Lemma word_plain (c : ascii) : regexp.isWordByte c = true -> json.htmlSafe c = true.
Proof.
  destruct c as [[] [] [] [] [] [] [] []]; vm_compute; congruence.
Qed.

Lemma appendBytes_safe (s : string) :
  bytes.all json.htmlSafe s = true -> json.appendBytes s = s.
Proof.
  induction s as [|c s IH]; [reflexivity|].
  simpl. intros [Hc Hs]%andb_prop.
  unfold json.appendByte. rewrite Hc. simpl. rewrite app_cons, app_nil_l.
  now rewrite IH.
Qed.

Lemma appendString_safe (s : string) :
  bytes.all json.htmlSafe s = true -> json.appendString s = quoted s.
Proof. intros H. unfold json.appendString, quoted. now rewrite appendBytes_safe. Qed.

Lemma parseString_safe (s rest : string) :
  bytes.all json.htmlSafe s = true ->
  json.parseString (s +:+ String bytes.DQ rest) = Some (s, rest).
Proof.
  induction s as [|c s IH]; [reflexivity|].
  rewrite app_cons. simpl. intros [Hc Hs]%andb_prop.
  rewrite (IH Hs).
  destruct c as [[] [] [] [] [] [] [] []]; vm_compute in Hc; try discriminate; reflexivity.
Qed.

Lemma token_safe (T : string) : isToken T -> bytes.all json.htmlSafe T = true.
Proof. intros [_ H]. revert H. apply all_impl, word_plain. Qed.

Lemma no_LF_safe (s : string) :
  bytes.all json.htmlSafe s = true ->
  bytes.all (fun c => negb (Ascii.eqb c bytes.LF)) s = true.
Proof.
  apply all_impl. intros c.
  destruct c as [[] [] [] [] [] [] [] []]; vm_compute; congruence.
Qed.

Lemma data_entries (name : string) :
  bytes.sortedEntries
    (<["name" := name]> (<["name" := EmptyString]> (<["what" := "item"]> (∅ : gmap string string))))
  = [("name", name); ("what", "item")].
Proof. vm_compute. reflexivity. Qed.

Lemma Marshal_data (T : string) :
  isToken T ->
  json.Marshal_map (<["name" := T]> (<["name" := EmptyString]> (<["what" := "item"]> ∅)))
  = objectLine T.
Proof.
  intros HT. unfold json.Marshal_map. rewrite data_entries. simpl.
  rewrite (appendString_safe T) by now apply token_safe.
  rewrite !appendString_safe by reflexivity.
  unfold objectLine. now rewrite !app_assoc_s.
Qed.

Lemma Marshal_dataall (T : string) :
  isToken T ->
  json.Marshal_slice
    ["/item/" +:+ T; T; "This is long JSON data for calculation for bytes."]
  = arrayLine T.
Proof.
  intros HT. unfold json.Marshal_slice. simpl.
  rewrite (appendString_safe T) by now apply token_safe.
  rewrite (appendString_safe ("/item/" +:+ T))
    by (rewrite all_app; now rewrite (token_safe T HT)).
  rewrite appendString_safe by reflexivity.
  unfold arrayLine. now rewrite !app_assoc_s.
Qed.


(** *** Reading the two lines back *)

Lemma quoted_app (s rest : string) :
  quoted s +:+ rest = String bytes.DQ (s +:+ String bytes.DQ rest).
Proof. unfold quoted. now rewrite app_cons, app_assoc_s, app_cons, app_nil_l. Qed.

Lemma length_app_s (a b : string) :
  String.length (a +:+ b) = (String.length a + String.length b)%nat.
Proof.
  induction a as [|x a IH]; [reflexivity|].
  rewrite app_cons. simpl. now rewrite IH.
Qed.

Section reading.
Variable fuel : nat.
Variable s : string.
Hypothesis safe : bytes.all json.htmlSafe s = true.

Lemma parseValue_quoted (rest : string) :
  json.parseValue (S fuel) (quoted s +:+ rest) = Some (json.VString s, rest).
Proof.
  rewrite quoted_app.
  change (json.parseValue (S fuel) (String bytes.DQ ?x))
    with (match json.parseString x with
          | Some (t, r) => Some (json.VString t, r)
          | None => None
          end).
  now rewrite parseString_safe.
Qed.

(** An element that is a string, and what follows it. *)
Lemma parseElements_quoted_more (rest : string) :
  json.parseElements (S (S fuel)) (quoted s +:+ String "," rest)
  = match json.parseElements (S fuel) rest with
    | Some (l, r) => Some (json.VString s :: l, r)
    | None => None
    end.
Proof.
  change (json.parseElements (S (S fuel)) ?x)
    with (match json.parseValue (S fuel) x with
          | Some (v, String "," r) =>
              match json.parseElements (S fuel) r with
              | Some (l, r') => Some (v :: l, r')
              | None => None
              end
          | Some (v, String "]" r) => Some ([v], r)
          | _ => None
          end%char).
  now rewrite parseValue_quoted.
Qed.

Lemma parseElements_quoted_last (rest : string) :
  json.parseElements (S (S fuel)) (quoted s +:+ String "]" rest)
  = Some ([json.VString s], rest).
Proof.
  change (json.parseElements (S (S fuel)) ?x)
    with (match json.parseValue (S fuel) x with
          | Some (v, String "," r) =>
              match json.parseElements (S fuel) r with
              | Some (l, r') => Some (v :: l, r')
              | None => None
              end
          | Some (v, String "]" r) => Some ([v], r)
          | _ => None
          end%char).
  now rewrite parseValue_quoted.
Qed.

(** A member whose key is [s]. *)
Lemma parseMembers_key (t : string) :
  json.parseMembers (S fuel) (quoted s +:+ String ":" t)
  = match json.parseValue fuel t with
    | Some (v, String "," r) =>
        match json.parseMembers fuel r with
        | Some (l, r') => Some ((s, v) :: l, r')
        | None => None
        end
    | Some (v, String "}" r) => Some ([(s, v)], r)
    | _ => None
    end%char.
Proof.
  rewrite quoted_app.
  change (json.parseMembers (S fuel) (String bytes.DQ ?x))
    with (match json.parseString x with
          | Some (k, String ":" r0) =>
              match json.parseValue fuel r0 with
              | Some (v, String "," r) =>
                  match json.parseMembers fuel r with
                  | Some (l, r') => Some ((k, v) :: l, r')
                  | None => None
                  end
              | Some (v, String "}" r) => Some ([(k, v)], r)
              | _ => None
              end
          | _ => None
          end%char).
  now rewrite parseString_safe.
Qed.
End reading.

Lemma objectLine_shape (T : string) :
  objectLine T
  = String "{" (quoted "name" +:+ String ":" (quoted T +:+ String ","
      (quoted "what" +:+ String ":" (quoted "item" +:+ String "}" EmptyString)))).
Proof. unfold objectLine. now rewrite !app_cons, !app_nil_l. Qed.

Lemma arrayLine_shape (T : string) :
  arrayLine T
  = String "[" (quoted ("/item/" +:+ T) +:+ String "," (quoted T +:+ String ","
      (quoted "This is long JSON data for calculation for bytes."
         +:+ String "]" EmptyString))).
Proof. unfold arrayLine. now rewrite !app_cons, !app_nil_l. Qed.


Lemma parseValue_objectLine (fuel : nat) (T : string) :
  isToken T ->
  json.parseValue (S (S (S (S fuel)))) (objectLine T)
  = Some (json.VObject [("name", json.VString T); ("what", json.VString "item")],
          EmptyString).
Proof.
  intros HT%token_safe. rewrite objectLine_shape.
  change (json.parseValue (S ?n) (String "{" ?x))
    with (match json.parseMembers n x with
          | Some (l, r) => Some (json.VObject l, r)
          | None => None
          end).
  rewrite parseMembers_key by reflexivity.
  rewrite parseValue_quoted by exact HT.
  rewrite parseMembers_key by reflexivity.
  rewrite parseValue_quoted by reflexivity.
  reflexivity.
Qed.

Lemma parseValue_arrayLine (fuel : nat) (T : string) :
  isToken T ->
  json.parseValue (S (S (S (S (S fuel))))) (arrayLine T)
  = Some (json.VArray [json.VString ("/item/" +:+ T); json.VString T;
                       json.VString "This is long JSON data for calculation for bytes."],
          EmptyString).
Proof.
  intros HT%token_safe. rewrite arrayLine_shape.
  change (json.parseValue (S ?n) (String "[" ?x))
    with (match json.parseElements n x with
          | Some (l, r) => Some (json.VArray l, r)
          | None => None
          end).
  rewrite parseElements_quoted_more by (rewrite all_app; now rewrite HT).
  rewrite parseElements_quoted_more by exact HT.
  rewrite parseElements_quoted_last by reflexivity.
  reflexivity.
Qed.

Lemma fuel_of_length (s : string) (n : nat) :
  (n <= String.length s)%nat -> exists fuel, S (String.length s) = (S n + fuel)%nat.
Proof. intros H. exists (String.length s - n)%nat. lia. Qed.

Lemma parse_objectLine (T : string) :
  isToken T ->
  json.parse (objectLine T)
  = Some (json.VObject [("name", json.VString T); ("what", json.VString "item")]).
Proof.
  intros HT. unfold json.parse.
  destruct (fuel_of_length (objectLine T) 3) as [fuel ->].
  { unfold objectLine. rewrite !length_app_s. simpl. lia. }
  change (4 + fuel)%nat with (S (S (S (S fuel)))).
  now rewrite parseValue_objectLine.
Qed.

Lemma parse_arrayLine (T : string) :
  isToken T ->
  json.parse (arrayLine T)
  = Some (json.VArray [json.VString ("/item/" +:+ T); json.VString T;
                       json.VString "This is long JSON data for calculation for bytes."]).
Proof.
  intros HT. unfold json.parse.
  destruct (fuel_of_length (arrayLine T) 4) as [fuel ->].
  { unfold arrayLine. rewrite !length_app_s. simpl. lia. }
  change (5 + fuel)%nat with (S (S (S (S (S fuel))))).
  now rewrite parseValue_arrayLine.
Qed.

(** ** Whole responses *)

Lemma ItemHandler_token_response (request : Request) (T : string) :
  isToken T ->
  URL_Path request = "/item/" +:+ T ->
  serve ItemHandler request
  = {| http.StatusCode := 200;
       http.RespHeader := itemHeader;
       http.RespBody := objectLine T +:+ fmt.nl +:+ arrayLine T +:+ fmt.nl |}.
Proof.
  intros HT Hpath. unfold serve.
  rewrite (ItemHandler_match _ _ T) by (rewrite Hpath; now apply itemURL_token).
  rewrite Hpath, Marshal_data, Marshal_dataall by exact HT.
  unfold fmt.Fprint. rewrite Write_Result_after by auto with writer.
  unfold http.Result. rewrite Write_Code, Write_snapHeader, Write_wroteHeader, Write_Body.
  simpl. f_equal; rewrite ?app_assoc_s; reflexivity.
Qed.

Lemma ItemHandler_404_response (request : Request) :
  regexp.itemURL_FindStringSubmatch (URL_Path request) = [] ->
  serve ItemHandler request
  = {| http.StatusCode := 404;
       http.RespHeader := errorHeader;
       http.RespBody := "404 page not found" +:+ fmt.nl |}.
Proof. intros H. unfold serve. now rewrite ItemHandler_no_match. Qed.

Lemma GenericHandler_ok_response (request : Request) (Form : url.Values) :
  ParseForm request = (Form, None) ->
  serve GenericHandler request
  = {| http.StatusCode := 200;
       http.RespHeader := genericHeader;
       http.RespBody := dump request Form |}.
Proof.
  intros H. unfold serve, GenericHandler. rewrite H.
  unfold fmt.Fprint. rewrite !Write_Result_after by auto with writer.
  unfold http.Result. rewrite Write_Code, Write_snapHeader, Write_wroteHeader, Write_Body.
  simpl. unfold dump. f_equal; rewrite ?app_assoc_s; reflexivity.
Qed.

Lemma GenericHandler_error_response (request : Request) (Form : url.Values) (err : error) :
  ParseForm request = (Form, Some err) ->
  serve GenericHandler request
  = {| http.StatusCode := 500;
       http.RespHeader := errorHeader;
       http.RespBody :=
         "error parsing url " +:+ Error err +:+ fmt.nl +:+ dump request Form |}.
Proof.
  intros H. unfold serve, GenericHandler. rewrite H.
  unfold fmt.Fprint. rewrite !Write_Result_after by auto with writer.
  unfold http.Result. rewrite Error_wroteHeader, Error_Body, Error_Code by reflexivity.
  simpl. unfold dump. f_equal; rewrite ?app_assoc_s; reflexivity.
Qed.

Lemma HomeHandler_error_response
  (ReadFile : string -> string * option error) (request : Request)
  (webpage : string) (err : error) :
  ReadFile "home.html" = (webpage, Some err) ->
  serve (HomeHandler ReadFile) request
  = {| http.StatusCode := 500;
       http.RespHeader :=
         <["X-Content-Type-Options" := ["nosniff"]]>
           (<["Content-Type" := ["text/plain; charset=utf-8"]]> ∅);
       http.RespBody :=
         "home.html file error " +:+ Error err +:+ fmt.nl +:+ webpage |}.
Proof.
  intros H. unfold serve, HomeHandler. rewrite H.
  unfold fmt.Fprint. rewrite !Write_Result_after by auto with writer.
  unfold http.Result. rewrite Error_wroteHeader, Error_Body, Error_Code by reflexivity.
  simpl. f_equal; rewrite ?app_assoc_s; reflexivity.
Qed.

(** ** The item handler *)

Lemma objectLine_no_LF (T : string) :
  isToken T ->
  bytes.all (fun c => negb (Ascii.eqb c bytes.LF)) (objectLine T) = true.
Proof.
  intros HT%token_safe%no_LF_safe. unfold objectLine, quoted.
  repeat (rewrite ?all_app; simpl). now rewrite HT.
Qed.

Lemma arrayLine_no_LF (T : string) :
  isToken T ->
  bytes.all (fun c => negb (Ascii.eqb c bytes.LF)) (arrayLine T) = true.
Proof.
  intros HT%token_safe%no_LF_safe. unfold arrayLine, quoted.
  repeat (rewrite ?all_app; simpl). now rewrite HT.
Qed.

Lemma lines_of_item_body (T : string) :
  isToken T ->
  lines (objectLine T +:+ fmt.nl +:+ arrayLine T +:+ fmt.nl) = [objectLine T; arrayLine T].
Proof.
  intros HT. unfold fmt.nl. rewrite !app_cons, !app_nil_l.
  rewrite lines_line by now apply objectLine_no_LF.
  rewrite <- (app_nil_r_s (arrayLine T)) at 1. rewrite app_assoc_s, app_nil_l.
  rewrite lines_line by now apply arrayLine_no_LF.
  reflexivity.
Qed.

(** C2.  For every token [T] of one or more word characters, the response to
    a request whose URL path is [/item/T] has status 200, and the first line
    of its body is the text [objectLine T], which reads as the JSON object
    with [name] equal to [T] and [what] equal to [item]. *)
Theorem ItemHandler_object_line (request : Request) (T : string) :
  isToken T ->
  URL_Path request = "/item/" +:+ T ->
  let response := serve ItemHandler request in
  http.StatusCode response = 200
  /\ lines (http.RespBody response) !! 0%nat = Some (objectLine T)
  /\ json.parse (objectLine T)
     = Some (json.VObject [("name", json.VString T); ("what", json.VString "item")])
  /\ json.member (json.VObject [("name", json.VString T); ("what", json.VString "item")])
       "name" = Some (json.VString T)
  /\ json.member (json.VObject [("name", json.VString T); ("what", json.VString "item")])
       "what" = Some (json.VString "item").
Proof.
  intros HT Hpath. cbv zeta.
  rewrite (ItemHandler_token_response request T HT Hpath).
  cbn [http.RespBody http.StatusCode].
  rewrite lines_of_item_body by exact HT.
  repeat split. now apply parse_objectLine.
Qed.

(** C2 at [GET /item/yellow]. *)
Lemma ItemHandler_object_line_yellow :
  isToken "yellow"
  /\ http.StatusCode (serve ItemHandler (NewRequest "GET" "/item/yellow")) = 200
  /\ lines (http.RespBody (serve ItemHandler (NewRequest "GET" "/item/yellow"))) !! 0%nat
     = Some (objectLine "yellow").
Proof.
  assert (HT : isToken "yellow") by (split; [discriminate | reflexivity]).
  split; [exact HT|].
  destruct (ItemHandler_object_line (NewRequest "GET" "/item/yellow") "yellow" HT eq_refl)
    as [Hstatus [Hline _]].
  split; [exact Hstatus | exact Hline].
Defined.

(** C4.  For every token [T], the second line of the body of the response to
    [/item/T] is the text [arrayLine T], which reads as the JSON array of the
    whole match [/item/T], the token [T] and the text
    [This is long JSON data for calculation for bytes.], in this order. *)
Theorem ItemHandler_array_line (request : Request) (T : string) :
  isToken T ->
  URL_Path request = "/item/" +:+ T ->
  let response := serve ItemHandler request in
  lines (http.RespBody response) !! 1%nat = Some (arrayLine T)
  /\ json.parse (arrayLine T)
     = Some (json.VArray
               [json.VString ("/item/" +:+ T); json.VString T;
                json.VString "This is long JSON data for calculation for bytes."]).
Proof.
  intros HT Hpath. cbv zeta.
  rewrite (ItemHandler_token_response request T HT Hpath).
  cbn [http.RespBody http.StatusCode].
  rewrite lines_of_item_body by exact HT.
  split; [reflexivity | now apply parse_arrayLine].
Qed.

(** C4 at [POST /item/yellow]. *)
Lemma ItemHandler_array_line_yellow :
  isToken "yellow"
  /\ lines (http.RespBody (serve ItemHandler (NewRequest "POST" "/item/yellow"))) !! 1%nat
     = Some (arrayLine "yellow").
Proof.
  assert (HT : isToken "yellow") by (split; [discriminate | reflexivity]).
  split; [exact HT|].
  exact (proj1 (ItemHandler_array_line (NewRequest "POST" "/item/yellow") "yellow" HT eq_refl)).
Defined.

(** C3, as the program has it.  For every request whose URL path is not
    [/item/] followed by a token (a byte outside the word characters, one more
    slash, or no token at all), [ItemHandler] answers with status 404 and the
    body [404 page not found] followed by a line feed, the 19 bytes that
    [http.Error] writes and that Go's own [http.NotFound] sends. *)
Theorem ItemHandler_not_found (request : Request) :
  ~ (exists T, URL_Path request = "/item/" +:+ T /\ isToken T) ->
  let response := serve ItemHandler request in
  http.StatusCode response = 404
  /\ http.RespBody response = "404 page not found" +:+ fmt.nl.
Proof.
  intros Hno%itemURL_no_token. cbv zeta.
  now rewrite (ItemHandler_404_response request Hno).
Qed.

(** The path [/item/a-b] is not [/item/] and a token. *)
Lemma dash_is_no_token :
  ~ (exists T, "/item/a-b" = "/item/" +:+ T /\ isToken T).
Proof.
  intros [T [Heq [_ Hword]]].
  apply (proj2 (CutPrefix_Some _ _ _)) in Heq. injection Heq as <-.
  discriminate Hword.
Defined.

(** C3, as the program has it, at [GET /item/a-b]. *)
Lemma ItemHandler_not_found_dash :
  http.StatusCode (serve ItemHandler (NewRequest "GET" "/item/a-b")) = 404
  /\ http.RespBody (serve ItemHandler (NewRequest "GET" "/item/a-b"))
     = "404 page not found" +:+ fmt.nl.
Proof. exact (ItemHandler_not_found (NewRequest "GET" "/item/a-b") dash_is_no_token). Defined.

(** C3, as it is stated, fails: the path [/item/] has no token, and the body
    of the response is not the 18 bytes [404 page not found]. *)
Lemma ItemHandler_not_found_body_differs :
  ~ (exists T, URL_Path (NewRequest "GET" "/item/") = "/item/" +:+ T /\ isToken T)
  /\ ~ (http.StatusCode (serve ItemHandler (NewRequest "GET" "/item/")) = 404
        /\ http.RespBody (serve ItemHandler (NewRequest "GET" "/item/"))
           = "404 page not found").
Proof.
  split.
  - intros [T [Heq [Hne _]]].
    apply (proj2 (CutPrefix_Some _ _ _)) in Heq. injection Heq as <-.
    now apply Hne.
  - intros [_ Hbody]. discriminate Hbody.
Qed.

(** ** The generic handler *)

Lemma filter_all (p : ascii -> bool) (s : string) :
  bytes.all p s = true -> bytes.filter p s = s.
Proof.
  induction s as [|c s IH]; [reflexivity|].
  simpl. intros [Hc Hs]%andb_prop. now rewrite Hc, (IH Hs).
Qed.

(** [String] on a plain cookie. *)
Lemma Cookie_String_plain (c : http.Cookie) :
  plainCookie c = true -> http.Cookie_String c = cookiePair c.
Proof.
  unfold plainCookie. intros [[Hname Hvalue]%andb_prop Hbytes]%andb_prop.
  assert (Hvalid : bytes.all http.validCookieValueByte (http.Value c) = true).
  { revert Hbytes. apply all_impl. now intros b [[H _]%andb_prop _]%andb_prop. }
  assert (Hbare : bytes.all (fun b => negb (Ascii.eqb b " ") && negb (Ascii.eqb b ","))
                    (http.Value c) = true).
  { revert Hbytes. apply all_impl. intros b [[_ H1]%andb_prop H2]%andb_prop.
    now rewrite H1, H2. }
  unfold http.Cookie_String, cookiePair, http.sanitizeCookieValue. rewrite Hname.
  rewrite (filter_all _ _ Hvalid), Hbare.
  destruct (http.Value c) as [|b v]; [discriminate Hvalue|].
  cbn [negb orb]. now destruct (http.Quoted c).
Qed.

Lemma vCookies_plain (cookies : list http.Cookie) :
  forallb plainCookie cookies = true ->
  fmt.vCookies cookies = "[" +:+ bytes.Join (map cookiePair cookies) " " +:+ "]".
Proof.
  intros H. unfold fmt.vCookies.
  assert (map http.Cookie_String cookies = map cookiePair cookies) as ->; [|reflexivity].
  induction cookies as [|c cookies IH]; [reflexivity|].
  simpl in H. apply andb_prop in H as [Hc H].
  cbn [map]. now rewrite (Cookie_String_plain c Hc), (IH H).
Qed.

(** A text between two line feeds is one of the lines. *)
Lemma lines_In_after (pre L post : string) :
  bytes.all (fun c => negb (Ascii.eqb c bytes.LF)) L = true ->
  exists l ls,
    lines (pre +:+ String bytes.LF (L +:+ String bytes.LF post)) = l :: ls /\ In L ls.
Proof.
  intros HL. induction pre as [|c pre [l [ls [IH Hin]]]].
  - rewrite app_nil_l. exists EmptyString, (L :: lines post). split; [|now left].
    cbn [lines]. rewrite Ascii.eqb_refl. now rewrite lines_line.
  - rewrite app_cons. cbn [lines]. rewrite IH.
    destruct (Ascii.eqb c bytes.LF).
    + exists EmptyString, (l :: ls). split; [reflexivity | now right].
    + exists (String c l), ls. now split.
Qed.

(** C5.  On every request whose form is parsed without error,
    [GenericHandler] answers with status 200, content type [text/plain] and
    the body [dump]: the heading, then one line each for the method, the
    request URI, the URL path, the form and the cookies, in this order.  Where
    the cookies of the request are plain ones, the line of the cookies holds,
    between brackets and with a space between them, each cookie as
    [name=value], the value between double quotes when the client sent it so.
    For a GET request with the query [color=purple] the body contains the text
    [request.Form       'map[color:[purple]]'], and this text after one space
    is one of the lines of the body. *)
Theorem GenericHandler_dump (request : Request) (Form : url.Values) :
  ParseForm request = (Form, None) ->
  let response := serve GenericHandler request in
  http.StatusCode response = 200
  /\ http.Header_Values (http.RespHeader response) "Content-Type" = ["text/plain"]
  /\ http.RespBody response
     = "FooWebHandler says ... " +:+ fmt.nl +:+
       " request.Method     '" +:+ Method request +:+ "'" +:+ fmt.nl +:+
       " request.RequestURI '" +:+ RequestURI request +:+ "'" +:+ fmt.nl +:+
       " request.URL.Path   '" +:+ URL_Path request +:+ "'" +:+ fmt.nl +:+
       " request.Form       '" +:+ fmt.vValues Form +:+ "'" +:+ fmt.nl +:+
       " request.Cookies()  '" +:+ fmt.vCookies (Cookies request) +:+ "'" +:+ fmt.nl
  /\ (forallb plainCookie (Cookies request) = true ->
      http.RespBody response
      = "FooWebHandler says ... " +:+ fmt.nl +:+
        " request.Method     '" +:+ Method request +:+ "'" +:+ fmt.nl +:+
        " request.RequestURI '" +:+ RequestURI request +:+ "'" +:+ fmt.nl +:+
        " request.URL.Path   '" +:+ URL_Path request +:+ "'" +:+ fmt.nl +:+
        " request.Form       '" +:+ fmt.vValues Form +:+ "'" +:+ fmt.nl +:+
        " request.Cookies()  '[" +:+ bytes.Join (map cookiePair (Cookies request)) " "
          +:+ "]'" +:+ fmt.nl)
  /\ (Method request = "GET" -> URL_RawQuery request = "color=purple" ->
      Contains (http.RespBody response) "request.Form       'map[color:[purple]]'" = true
      /\ In " request.Form       'map[color:[purple]]'" (lines (http.RespBody response))).
Proof.
  intros Hparse. cbv zeta.
  rewrite (GenericHandler_ok_response request Form Hparse).
  cbn [http.RespBody http.StatusCode http.RespHeader].
  split; [reflexivity|]. split; [reflexivity|]. split; [reflexivity|]. split.
  { intros Hplain. unfold dump. rewrite (vCookies_plain _ Hplain).
    rewrite !app_assoc_s. reflexivity. }
  intros HGET Hquery.
  unfold ParseForm in Hparse. rewrite HGET, Hquery in Hparse.
  injection Hparse as <-.
  unfold dump.
  change (fmt.vValues _) with "map[color:[purple]]".
  split.
  - set (pre := "FooWebHandler says ... " +:+ fmt.nl +:+
         " request.Method     '" +:+ Method request +:+ "'" +:+ fmt.nl +:+
         " request.RequestURI '" +:+ RequestURI request +:+ "'" +:+ fmt.nl +:+
         " request.URL.Path   '" +:+ URL_Path request +:+ "'" +:+ fmt.nl +:+ " ").
    set (post := fmt.nl +:+
         " request.Cookies()  '" +:+ fmt.vCookies (Cookies request) +:+ "'" +:+ fmt.nl).
    transitivity (Contains (pre +:+ "request.Form       'map[color:[purple]]'" +:+ post)
                    "request.Form       'map[color:[purple]]'");
      [|apply Contains_app].
    f_equal. unfold pre, post. rewrite !app_assoc_s. reflexivity.
  - set (pre := "FooWebHandler says ... " +:+ fmt.nl +:+
         " request.Method     '" +:+ Method request +:+ "'" +:+ fmt.nl +:+
         " request.RequestURI '" +:+ RequestURI request +:+ "'" +:+ fmt.nl +:+
         " request.URL.Path   '" +:+ URL_Path request +:+ "'").
    set (post := " request.Cookies()  '" +:+ fmt.vCookies (Cookies request) +:+ "'" +:+ fmt.nl).
    destruct (lines_In_after pre " request.Form       'map[color:[purple]]'" post eq_refl)
      as [l [ls [Hlines Hin]]].
    match goal with |- In _ (lines ?body) =>
      replace body
        with (pre +:+ String bytes.LF
                (" request.Form       'map[color:[purple]]'" +:+ String bytes.LF post))
    end.
    + rewrite Hlines. now right.
    + unfold pre, post, fmt.nl. rewrite !app_assoc_s, ?app_cons, ?app_nil_l.
      reflexivity.
Qed.

(** C5 at [GET /generic/anything?color=purple]: the form is [color] with the
    one value [purple], and the fifth line of the body, which starts with a
    space, holds the text of the claim.  With two cookies, one of them sent
    between double quotes, the last line shows the two as they were sent. *)
Lemma GenericHandler_dump_purple :
  ParseForm (NewRequest "GET" "/generic/anything?color=purple")
  = ({["color" := ["purple"]]}, None)
  /\ http.StatusCode (serve GenericHandler (NewRequest "GET" "/generic/anything?color=purple"))
     = 200
  /\ lines (http.RespBody
              (serve GenericHandler (NewRequest "GET" "/generic/anything?color=purple")))
     = ["FooWebHandler says ... ";
        " request.Method     'GET'";
        " request.RequestURI '/generic/anything?color=purple'";
        " request.URL.Path   '/generic/anything'";
        " request.Form       'map[color:[purple]]'";
        " request.Cookies()  '[]'"]
  /\ Contains
       (http.RespBody (serve GenericHandler (NewRequest "GET" "/generic/anything?color=purple")))
       "request.Form       'map[color:[purple]]'" = true
  /\ lines (http.RespBody (serve GenericHandler purpleWithCookies))
     = ["FooWebHandler says ... ";
        " request.Method     'GET'";
        " request.RequestURI '/generic/anything?color=purple'";
        " request.URL.Path   '/generic/anything'";
        " request.Form       'map[color:[purple]]'";
        " request.Cookies()  '[testcookiename=testcookievalue q=" +:+ quoted "v" +:+ "]'"].
Proof.
  assert (Hparse : ParseForm (NewRequest "GET" "/generic/anything?color=purple")
                   = ({["color" := ["purple"]]}, None)) by reflexivity.
  assert (Hparse' : ParseForm purpleWithCookies = ({["color" := ["purple"]]}, None))
    by reflexivity.
  split; [exact Hparse|].
  destruct (GenericHandler_dump _ _ Hparse) as [Hstatus [_ [_ [Hbody Hline]]]].
  destruct (GenericHandler_dump _ _ Hparse') as [_ [_ [_ [Hbody' _]]]].
  split; [exact Hstatus|].
  split; [rewrite (Hbody eq_refl); reflexivity|].
  split; [exact (proj1 (Hline eq_refl eq_refl))|].
  rewrite (Hbody' eq_refl). reflexivity.
Defined.

(** ** The generic handler on a parse error *)

(** C1.  The form of [GET /generic/x?a=%zz] is not parsed: [ParseForm]
    returns the error of the escape [%zz].  [GenericHandler] answers with
    status 500 and writes the error message; it does not return there, and
    writes the dump after the message. *)
Theorem GenericHandler_writes_dump_after_error :
  ParseForm badEscape = (∅, Some (EscapeError "%zz"))
  /\ http.StatusCode (serve GenericHandler badEscape) = 500
  /\ http.RespBody (serve GenericHandler badEscape)
     = "error parsing url invalid URL escape " +:+ quoted "%zz" +:+ fmt.nl +:+
       dump badEscape ∅
  /\ Contains (http.RespBody (serve GenericHandler badEscape)) "FooWebHandler says" = true.
Proof.
  assert (Hparse : ParseForm badEscape = (∅, Some (EscapeError "%zz"))) by reflexivity.
  rewrite (GenericHandler_error_response badEscape ∅ _ Hparse).
  repeat split.
Qed.

(** Without a parse error the status is 200 (C5), so the parse error is the
    one error path; with a parse error the dump always follows the message. *)
Lemma GenericHandler_status (request : Request) :
  http.StatusCode (serve GenericHandler request)
  = if snd (ParseForm request) is Some _ then 500 else 200.
Proof.
  destruct (ParseForm request) as [Form [err|]] eqn:Hparse.
  - now rewrite (GenericHandler_error_response request Form err Hparse).
  - now rewrite (GenericHandler_ok_response request Form Hparse).
Qed.

(** ** The home handler *)

(** C8.  When reading [home.html] succeeds, the response to any request has
    status 200, content type [text/html; charset=utf-8], and as its body the
    bytes read, unchanged. *)
Theorem HomeHandler_serves_the_file
  (ReadFile : string -> string * option error) (request : Request) (contents : string) :
  ReadFile "home.html" = (contents, None) ->
  let response := serve (HomeHandler ReadFile) request in
  http.StatusCode response = 200
  /\ http.Header_Values (http.RespHeader response) "Content-Type"
     = ["text/html; charset=utf-8"]
  /\ http.RespBody response = contents.
Proof.
  intros Hread. cbv zeta. unfold serve, HomeHandler. rewrite Hread.
  unfold fmt.Fprint, http.Result.
  rewrite Write_Code, Write_snapHeader, Write_wroteHeader, Write_Body.
  repeat split.
Qed.

(** C8 at a [home.html] of fourteen bytes. *)
Lemma HomeHandler_serves_the_file_hello :
  http.StatusCode
    (serve (HomeHandler (fun _ => ("<h1>hello</h1>", None))) (NewRequest "GET" "/home")) = 200
  /\ http.RespBody
       (serve (HomeHandler (fun _ => ("<h1>hello</h1>", None))) (NewRequest "GET" "/home"))
     = "<h1>hello</h1>".
Proof.
  destruct (HomeHandler_serves_the_file (fun _ => ("<h1>hello</h1>", None))
              (NewRequest "GET" "/home") "<h1>hello</h1>" eq_refl)
    as [Hstatus [_ Hbody]].
  split; [exact Hstatus | exact Hbody].
Defined.

(** C9.  When the read of [home.html] fails after some bytes were read,
    [HomeHandler] answers with status 500 and writes the error message; it does
    not return there, and writes the bytes that were read after the message. *)
Theorem HomeHandler_writes_bytes_after_error :
  http.StatusCode (serve (HomeHandler brokenRead) (NewRequest "GET" "/home")) = 500
  /\ http.RespBody (serve (HomeHandler brokenRead) (NewRequest "GET" "/home"))
     = "home.html file error read home.html: input/output error" +:+ fmt.nl +:+ "<html>".
Proof.
  now rewrite (HomeHandler_error_response brokenRead _ "<html>" _ eq_refl).
Qed.

(** When the failed read returns no byte, as for a file that is missing or
    cannot be opened, the message is all of the body. *)
Lemma HomeHandler_error_no_bytes
  (ReadFile : string -> string * option error) (request : Request) (err : error) :
  ReadFile "home.html" = (EmptyString, Some err) ->
  http.StatusCode (serve (HomeHandler ReadFile) request) = 500
  /\ http.RespBody (serve (HomeHandler ReadFile) request)
     = "home.html file error " +:+ Error err +:+ fmt.nl.
Proof.
  intros Hread. rewrite (HomeHandler_error_response ReadFile request _ _ Hread).
  cbn [http.StatusCode http.RespBody]. now rewrite !app_nil_r_s.
Qed.

Example HomeHandler_no_file :
  http.RespBody (serve (HomeHandler noFile) (NewRequest "GET" "/home"))
  = "home.html file error open home.html: no such file or directory" +:+ fmt.nl.
Proof. reflexivity. Qed.

(** ** More on the handlers *)

(** [HomeHandler] sets no cookie: whatever the read of [home.html] returns,
    the headers of its response have no value for [Set-Cookie]. *)
Theorem HomeHandler_sets_no_cookie
  (ReadFile : string -> string * option error) (request : Request) :
  http.Header_Values (http.RespHeader (serve (HomeHandler ReadFile) request)) "Set-Cookie"
  = [].
Proof.
  unfold serve, HomeHandler.
  destruct (ReadFile "home.html") as [webpage [err|]].
  - unfold fmt.Fprint. rewrite Write_RespHeader_after by auto with writer.
    now rewrite Error_keeps_Set_Cookie.
  - unfold fmt.Fprint, http.Result.
    now rewrite Write_wroteHeader, Write_snapHeader.
Qed.

(** Whenever the read of [home.html] returns an error, the response of
    [HomeHandler] has status 500, the content type of [http.Error] in place of
    the HTML one, and as its body the message, a line feed, and then the bytes
    the read returned with the error. *)
Theorem HomeHandler_on_read_error
  (ReadFile : string -> string * option error) (request : Request)
  (webpage : string) (err : error) :
  ReadFile "home.html" = (webpage, Some err) ->
  let response := serve (HomeHandler ReadFile) request in
  http.StatusCode response = 500
  /\ http.Header_Values (http.RespHeader response) "Content-Type"
     = ["text/plain; charset=utf-8"]
  /\ http.Header_Values (http.RespHeader response) "X-Content-Type-Options" = ["nosniff"]
  /\ http.RespBody response
     = "home.html file error " +:+ Error err +:+ fmt.nl +:+ webpage.
Proof.
  intros Hread. cbv zeta.
  rewrite (HomeHandler_error_response ReadFile request webpage err Hread).
  repeat split.
Qed.

Lemma HomeHandler_on_read_error_noFile :
  http.StatusCode (serve (HomeHandler noFile) (NewRequest "GET" "/home")) = 500
  /\ http.RespBody (serve (HomeHandler noFile) (NewRequest "GET" "/home"))
     = "home.html file error open home.html: no such file or directory" +:+ fmt.nl.
Proof.
  destruct (HomeHandler_on_read_error noFile (NewRequest "GET" "/home") _ _ eq_refl)
    as [Hstatus [_ [_ Hbody]]].
  split; [exact Hstatus | exact Hbody].
Defined.

(** The status of [ItemHandler] is 200 on the paths [/item/T] with [T] a
    token, where the content type is [application/json], and 404 on all other
    paths, where [http.Error] has replaced the content type. *)
Theorem ItemHandler_status_and_type (request : Request) :
  let response := serve ItemHandler request in
  ((exists T, URL_Path request = "/item/" +:+ T /\ isToken T)
   /\ http.StatusCode response = 200
   /\ http.Header_Values (http.RespHeader response) "Content-Type" = ["application/json"])
  \/ (~ (exists T, URL_Path request = "/item/" +:+ T /\ isToken T)
      /\ http.StatusCode response = 404
      /\ http.Header_Values (http.RespHeader response) "Content-Type"
         = ["text/plain; charset=utf-8"]).
Proof.
  cbv zeta.
  destruct (itemURL_matches (URL_Path request)) as [Hnil | [T [Hpath [HT Hfind]]]].
  - right. rewrite (ItemHandler_404_response request Hnil). split; [|now split].
    intros [T [Hpath HT]]. rewrite Hpath, (itemURL_token T HT) in Hnil. discriminate.
  - left. rewrite (ItemHandler_token_response request T HT Hpath).
    split; [now exists T | now split].
Qed.

(** Once the status of a response is written, [SetMyCookie] changes nothing
    of what the client is sent: the cookie reaches the client only when
    it is set before the first write, as the two handlers do. *)
Theorem SetMyCookie_after_the_status (response : http.ResponseWriter) :
  http.wroteHeader response = true ->
  http.Result (SetMyCookie response) = http.Result response.
Proof.
  intros Hw. unfold SetMyCookie, http.SetCookie. rewrite testcookie_String.
  cbv iota beta. unfold http.Result, http.withHeader. simpl. now rewrite Hw.
Qed.

Lemma SetMyCookie_after_the_status_write :
  http.Result (SetMyCookie (http.Write http.NewRecorder "late"))
  = http.Result (http.Write http.NewRecorder "late")
  /\ http.Header_Values
       (http.RespHeader (http.Result (SetMyCookie (http.Write http.NewRecorder "late"))))
       "Set-Cookie" = [].
Proof.
  split; [|reflexivity].
  exact (SetMyCookie_after_the_status (http.Write http.NewRecorder "late") eq_refl).
Defined.

(** ** Queries *)

(** The equation of [QueryUnescape] on a byte that is no percent sign. *)
Lemma QueryUnescape_cons (c : ascii) (s : string) :
  c <> "%"%char ->
  url.QueryUnescape (String c s)
  = match url.QueryUnescape s with
    | inl t => inl (String (if Ascii.eqb c "+" then " "%char else c) t)
    | inr e => inr e
    end.
Proof.
  intros Hc.
  destruct c as [[] [] [] [] [] [] [] []]; try reflexivity; congruence.
Qed.

Lemma QueryUnescape_plain (s : string) :
  bytes.all plainQueryByte s = true -> exists t, url.QueryUnescape s = inl t.
Proof.
  induction s as [|c s IH]; [now exists EmptyString|].
  simpl bytes.all. intros [Hc Hs]%andb_prop.
  destruct (IH Hs) as [t Ht].
  destruct (Ascii.eqb_spec c "%") as [->|Hpercent]; [discriminate Hc|].
  rewrite (QueryUnescape_cons c s Hpercent), Ht. eauto.
Qed.

Lemma Cut_all (p : ascii -> bool) (s : string) (sep : ascii) :
  bytes.all p s = true ->
  bytes.all p (fst (url.Cut s sep)) = true /\ bytes.all p (snd (url.Cut s sep)) = true.
Proof.
  induction s as [|c s IH]; [now split|].
  simpl. intros [Hc Hs]%andb_prop.
  destruct (Ascii.eqb c sep); [now split|].
  destruct (IH Hs) as [H1 H2]. destruct (url.Cut s sep) as [before after].
  simpl in *. now rewrite Hc, H1.
Qed.

Lemma segments_all (p : ascii -> bool) (q : string) :
  bytes.all p q = true -> Forall (fun seg => bytes.all p seg = true) (url.segments q).
Proof.
  induction q as [|c q IH]; [now repeat constructor|].
  simpl. intros [Hc Hq]%andb_prop. specialize (IH Hq).
  destruct (Ascii.eqb c "&"); [now constructor|].
  destruct (url.segments q) as [|seg segs]; [now repeat constructor; simpl; rewrite Hc|].
  inversion IH as [|? ? Hseg Hsegs]; subst.
  constructor; [simpl; now rewrite Hc, Hseg | exact Hsegs].
Qed.

Lemma ContainsByte_plain (s : string) :
  bytes.all plainQueryByte s = true -> url.ContainsByte s ";" = false.
Proof.
  intros H. unfold url.ContainsByte.
  rewrite (all_impl plainQueryByte _ s); [reflexivity | | exact H].
  intros c [_ Hc]%andb_prop. exact Hc.
Qed.

Lemma parseQueryStep_plain (m : url.Values) (key : string) :
  bytes.all plainQueryByte key = true ->
  snd (url.parseQueryStep (m, None) key) = None.
Proof.
  intros Hkey. unfold url.parseQueryStep.
  rewrite (ContainsByte_plain key Hkey).
  destruct key as [|c key]; [reflexivity|].
  destruct (Cut_all plainQueryByte (String c key) "=" Hkey) as [Hk Hv].
  destruct (url.Cut (String c key) "=") as [k v]. simpl in Hk, Hv.
  destruct (QueryUnescape_plain k Hk) as [k' ->].
  destruct (QueryUnescape_plain v Hv) as [v' ->].
  reflexivity.
Qed.

Lemma ParseQuery_plain (q : string) :
  bytes.all plainQueryByte q = true -> snd (url.ParseQuery q) = None.
Proof.
  intros Hq%segments_all. unfold url.ParseQuery.
  generalize (∅ : url.Values) as m.
  induction Hq as [|seg segs Hseg _ IH]; intros m; [reflexivity|].
  cbn [foldl]. pose proof (parseQueryStep_plain m seg Hseg) as Hstep.
  destruct (url.parseQueryStep (m, None) seg) as [m' err']. simpl in Hstep. subst err'.
  apply IH.
Qed.

(** An error of [parseQuery] is never cleared by a later key. *)
Lemma parseQueryStep_keeps_error (m : url.Values) (e : error) (key : string) :
  exists m' e', url.parseQueryStep (m, Some e) key = (m', Some e').
Proof.
  unfold url.parseQueryStep.
  destruct (url.ContainsByte key ";"); [eauto|].
  destruct key as [|c key]; [eauto|].
  destruct (url.Cut (String c key) "=") as [k v].
  destruct (url.QueryUnescape k) as [k'|e1]; [|eauto].
  destruct (url.QueryUnescape v) as [v'|e1]; eauto.
Qed.

Lemma parseQuery_keeps_error (segs : list string) (m : url.Values) (e : error) :
  exists m' e', foldl url.parseQueryStep (m, Some e) segs = (m', Some e').
Proof.
  revert m e. induction segs as [|seg segs IH]; intros m e; [simpl; eauto|].
  cbn [foldl]. destruct (parseQueryStep_keeps_error m e seg) as [m' [e' ->]]. apply IH.
Qed.

Lemma ContainsByte_cons (c : ascii) (s : string) (b : ascii) :
  url.ContainsByte (String c s) b = Ascii.eqb c b || url.ContainsByte s b.
Proof. unfold url.ContainsByte. simpl. now destruct (Ascii.eqb c b). Qed.

Lemma segments_semicolon (q : string) :
  url.ContainsByte q ";" = true ->
  Exists (fun seg => url.ContainsByte seg ";" = true) (url.segments q).
Proof.
  induction q as [|c q IH]; [discriminate|].
  rewrite ContainsByte_cons. simpl.
  destruct (Ascii.eqb_spec c "&") as [->|Hamp].
  - simpl. intros H. apply Exists_cons_tl. now apply IH.
  - destruct (Ascii.eqb c ";") eqn:Hc; simpl.
    + intros _. destruct (url.segments q) as [|seg segs];
        apply Exists_cons_hd; rewrite ContainsByte_cons, Hc; reflexivity.
    + intros H. specialize (IH H).
      destruct (url.segments q) as [|seg segs]; [inversion IH|].
      inversion IH as [? ? Hseg | ? ? Hsegs]; subst.
      * apply Exists_cons_hd. rewrite ContainsByte_cons, Hseg. apply orb_true_r.
      * now apply Exists_cons_tl.
Qed.

Lemma ParseQuery_semicolon (q : string) :
  url.ContainsByte q ";" = true -> exists e, snd (url.ParseQuery q) = Some e.
Proof.
  intros Hq%segments_semicolon. unfold url.ParseQuery.
  generalize (∅ : url.Values) as m. generalize (None : option error) as err.
  induction Hq as [seg segs Hseg | seg segs _ IH]; intros err m; cbn [foldl].
  - unfold url.parseQueryStep at 2. rewrite Hseg.
    destruct (parseQuery_keeps_error segs m
                (errorString "invalid semicolon separator in query")) as [m' [e' ->]].
    now exists e'.
  - destruct (url.parseQueryStep (m, err) seg) as [m' err']. apply IH.
Qed.

(** On a request whose method has no form body and whose query has no
    percent sign and no semicolon, [ParseForm] returns no error and
    [GenericHandler] answers with status 200. *)
Theorem GenericHandler_ok_on_plain_query (request : Request) :
  hasFormBody request = false ->
  bytes.all plainQueryByte (URL_RawQuery request) = true ->
  snd (ParseForm request) = None
  /\ http.StatusCode (serve GenericHandler request) = 200.
Proof.
  intros Hmethod Hquery.
  assert (Hparse : snd (ParseForm request) = None).
  { unfold ParseForm. unfold hasFormBody in Hmethod. rewrite Hmethod.
    pose proof (ParseQuery_plain _ Hquery) as Hq.
    destruct (url.ParseQuery (URL_RawQuery request)) as [newValues e].
    simpl in Hq. now subst e. }
  split; [exact Hparse|].
  now rewrite GenericHandler_status, Hparse.
Qed.

Lemma GenericHandler_ok_on_plain_query_purple :
  snd (ParseForm (NewRequest "GET" "/generic/page?color=purple&size=3")) = None
  /\ http.StatusCode (serve GenericHandler (NewRequest "GET" "/generic/page?color=purple&size=3"))
     = 200.
Proof.
  exact (GenericHandler_ok_on_plain_query
           (NewRequest "GET" "/generic/page?color=purple&size=3") eq_refl eq_refl).
Defined.

(** A semicolon anywhere in the query makes [ParseForm] return an error, so
    that [GenericHandler] answers with status 500, whatever the method and the
    other keys. *)
Theorem GenericHandler_semicolon_is_an_error (request : Request) :
  url.ContainsByte (URL_RawQuery request) ";" = true ->
  http.StatusCode (serve GenericHandler request) = 500.
Proof.
  intros [e He]%ParseQuery_semicolon. rewrite GenericHandler_status.
  unfold ParseForm.
  destruct (url.ParseQuery (URL_RawQuery request)) as [newValues e']. simpl in He. subst e'.
  destruct (_ || _); [|reflexivity].
  destruct (postForm request) as [PostForm [err|]]; reflexivity.
Qed.

Lemma GenericHandler_semicolon_is_an_error_ab :
  http.StatusCode (serve GenericHandler (NewRequest "GET" "/generic/page?a=1;b=2&c=3")) = 500.
Proof.
  exact (GenericHandler_semicolon_is_an_error
           (NewRequest "GET" "/generic/page?a=1;b=2&c=3") eq_refl).
Defined.

(** The form of a request with a body: under each key, the values of the
    body come first and the values of the query follow them. *)
Theorem ParseForm_body_before_query (request : Request) (key : string) :
  hasFormBody request = true ->
  default [] (fst (ParseForm request) !! key)
  = default [] (fst (postForm request) !! key)
    ++ default [] (fst (url.ParseQuery (URL_RawQuery request)) !! key).
Proof.
  intros Hmethod. unfold ParseForm. unfold hasFormBody in Hmethod. rewrite Hmethod.
  destruct (postForm request) as [PostForm err].
  destruct (url.ParseQuery (URL_RawQuery request)) as [newValues e]. simpl.
  destruct (decide (PostForm = ∅)) as [->|Hne]; simpl.
  - now rewrite lookup_empty.
  - unfold copyValues. rewrite !lookup_union_with, lookup_empty.
    destruct (PostForm !! key) as [a|], (newValues !! key) as [b|]; simpl;
      rewrite ?app_nil_r; reflexivity.
Qed.

Lemma ParseForm_body_before_query_colour :
  default [] (fst (ParseForm postBoth) !! "color") = ["red"; "purple"].
Proof.
  rewrite (ParseForm_body_before_query postBoth "color" eq_refl). reflexivity.
Defined.

(** *** The errors of the parsers *)

Lemma QueryUnescape_error_short (n : nat) (s : string) (e : error) :
  (String.length s <= n)%nat -> url.QueryUnescape s = inr e -> shortEscape e = true.
Proof.
  revert s e. induction n as [|n IH]; intros s e Hn.
  - destruct s; [discriminate | simpl in Hn; lia].
  - destruct s as [|c s]; [discriminate|].
    simpl in Hn.
    destruct (Ascii.eqb_spec c "%") as [->|Hc].
    + destruct s as [|a [|b s]]; cbn [url.QueryUnescape].
      * intros [= <-]. reflexivity.
      * intros [= <-]. reflexivity.
      * destruct (url.ishex a && url.ishex b).
        -- destruct (url.QueryUnescape s) as [t|e'] eqn:E; [discriminate|].
           intros [= <-]. apply (IH s); [simpl in Hn; lia | exact E].
        -- intros [= <-]. reflexivity.
    + rewrite (QueryUnescape_cons c s Hc).
      destruct (url.QueryUnescape s) as [t|e'] eqn:E; [discriminate|].
      intros [= <-]. apply (IH s); [lia | exact E].
Qed.

Lemma parseQueryStep_short (m : url.Values) (err : option error) (key : string) :
  (forall e, err = Some e -> shortEscape e = true) ->
  forall e, snd (url.parseQueryStep (m, err) key) = Some e -> shortEscape e = true.
Proof.
  intros Herr e. unfold url.parseQueryStep.
  destruct (url.ContainsByte key ";"); [now intros [= <-]|].
  destruct key as [|c key]; [exact (Herr e)|].
  destruct (url.Cut (String c key) "=") as [k v].
  destruct (url.QueryUnescape k) as [k'|e1] eqn:Ek.
  - destruct (url.QueryUnescape v) as [v'|e1] eqn:Ev; [exact (Herr e)|].
    simpl. destruct err as [e0|]; [exact (Herr e)|].
    intros [= <-]. exact (QueryUnescape_error_short _ v e1 (le_n _) Ev).
  - simpl. destruct err as [e0|]; [exact (Herr e)|].
    intros [= <-]. exact (QueryUnescape_error_short _ k e1 (le_n _) Ek).
Qed.

Lemma ParseQuery_error_short (q : string) (e : error) :
  snd (url.ParseQuery q) = Some e -> shortEscape e = true.
Proof.
  unfold url.ParseQuery.
  assert (H : forall segs st,
             (forall e, snd st = Some e -> shortEscape e = true) ->
             forall e, snd (foldl url.parseQueryStep st segs) = Some e -> shortEscape e = true).
  { induction segs as [|seg segs IH]; intros st Hst; [exact Hst|].
    cbn [foldl]. apply IH. destruct st as [m err]. now apply parseQueryStep_short. }
  apply H. intros e' [=].
Qed.

(** The error of [ParseForm] is the one of the body or one of the query. *)
Lemma ParseForm_error_short (request : Request) (Form : url.Values) (err : error) :
  (forall e, snd (postForm request) = Some e -> shortEscape e = true) ->
  ParseForm request = (Form, Some err) -> shortEscape err = true.
Proof.
  intros Hpost. unfold ParseForm.
  pose proof (ParseQuery_error_short (URL_RawQuery request)) as Hquery.
  destruct (url.ParseQuery (URL_RawQuery request)) as [newValues e]. simpl in Hquery.
  destruct (_ || _).
  - destruct (postForm request) as [PostForm [e0|]]; simpl in Hpost.
    + intros [= _ <-]. now apply Hpost.
    + intros [= _ ->]. now apply Hquery.
  - intros [= _ ->]. now apply Hquery.
Qed.

(** Whenever [ParseForm] returns an error, the response of [GenericHandler]
    has status 500 and the content type of [http.Error], and its body is the
    line [error parsing url] with the message, followed by the dump with the
    form as far as it was parsed.  The error is a text or the [EscapeError] of
    a percent sign and two bytes at most, as long as the error of the body, if
    there is one, is of this kind; its message is then the text, or
    [invalid URL escape] and the three bytes as [strconv.Quote] writes them. *)
Theorem GenericHandler_on_parse_error
  (request : Request) (Form : url.Values) (err : error) :
  (forall e, snd (postForm request) = Some e -> shortEscape e = true) ->
  ParseForm request = (Form, Some err) ->
  let response := serve GenericHandler request in
  shortEscape err = true
  /\ http.StatusCode response = 500
  /\ http.Header_Values (http.RespHeader response) "Content-Type"
     = ["text/plain; charset=utf-8"]
  /\ http.RespBody response
     = "error parsing url " +:+ Error err +:+ fmt.nl +:+ dump request Form.
Proof.
  intros Hpost Hparse. cbv zeta.
  split; [exact (ParseForm_error_short request Form err Hpost Hparse)|].
  rewrite (GenericHandler_error_response request Form err Hparse).
  repeat split.
Qed.

(** [GET /generic/x?a=%zz&b=2]: the message quotes the three bytes, and the
    dump shows the key that was parsed.  [GET /generic/x?a=%é]: the two bytes
    of the printable rune U+00E9 are copied into the message as they are. *)
Lemma GenericHandler_on_parse_error_two_keys :
  ParseForm (NewRequest "GET" "/generic/x?a=%zz&b=2")
  = ({["b" := ["2"]]}, Some (EscapeError "%zz"))
  /\ http.StatusCode (serve GenericHandler (NewRequest "GET" "/generic/x?a=%zz&b=2")) = 500
  /\ lines (http.RespBody (serve GenericHandler (NewRequest "GET" "/generic/x?a=%zz&b=2")))
     = ["error parsing url invalid URL escape " +:+ quoted "%zz";
        "FooWebHandler says ... ";
        " request.Method     'GET'";
        " request.RequestURI '/generic/x?a=%zz&b=2'";
        " request.URL.Path   '/generic/x'";
        " request.Form       'map[b:[2]]'";
        " request.Cookies()  '[]'"]
  /\ hasPrefix (http.RespBody (serve GenericHandler badEscapeLatin))
       ("error parsing url invalid URL escape "
        +:+ quoted ("%" +:+ String "195" (String "169" EmptyString)) +:+ fmt.nl) = true.
Proof.
  assert (Hparse : ParseForm (NewRequest "GET" "/generic/x?a=%zz&b=2")
                   = ({["b" := ["2"]]}, Some (EscapeError "%zz"))) by reflexivity.
  assert (Hlatin : ParseForm badEscapeLatin
                   = (∅, Some (EscapeError ("%" +:+ String "195" (String "169" EmptyString)))))
    by reflexivity.
  split; [exact Hparse|].
  assert (Hpost : forall e, snd (postForm (NewRequest "GET" "/generic/x?a=%zz&b=2")) = Some e
                            -> shortEscape e = true) by (intros e H; discriminate H).
  assert (Hpost' : forall e, snd (postForm badEscapeLatin) = Some e -> shortEscape e = true)
    by (intros e H; discriminate H).
  destruct (GenericHandler_on_parse_error _ _ _ Hpost Hparse) as [_ [Hstatus [_ Hbody]]].
  destruct (GenericHandler_on_parse_error _ _ _ Hpost' Hlatin) as [_ [_ [_ Hbody']]].
  split; [exact Hstatus|].
  split; [rewrite Hbody; reflexivity|].
  rewrite Hbody'. reflexivity.
Defined.

(** ** Bytes and bits as numbers *)

Lemma code_range (c : ascii) : 0 <= bytes.code c < 256.
Proof.
  unfold bytes.code. pose proof (N_ascii_bounded c). lia.
Qed.

Lemma code_ofZ (z : Z) : 0 <= z < 256 -> bytes.code (bytes.ofZ z) = z.
Proof.
  intros Hz. unfold bytes.code, bytes.ofZ.
  rewrite N_ascii_embedding by lia. lia.
Qed.

Lemma land_low (x : Z) (n : Z) : 0 <= n -> Z.land x (2 ^ n - 1) = x mod 2 ^ n.
Proof.
  intros Hn. rewrite <- Z.land_ones by exact Hn.
  now rewrite Z.ones_equiv, Z.sub_1_r.
Qed.

Lemma lor_disjoint (hi lo n : Z) :
  0 <= n -> 0 <= lo < 2 ^ n -> Z.lor (hi * 2 ^ n) lo = hi * 2 ^ n + lo.
Proof.
  intros Hn Hlo.
  assert (Hland : Z.land (hi * 2 ^ n) lo = 0).
  { apply Z.bits_inj'. intros i Hi. rewrite Z.land_spec, Z.bits_0.
    destruct (Z.lt_ge_cases i n) as [Hlt|Hge].
    - now rewrite Z.mul_pow2_bits_low.
    - rewrite <- (Z.mod_small lo (2 ^ n)) by exact Hlo.
      rewrite Z.mod_pow2_bits_high by lia. apply andb_false_r. }
  now rewrite <- Z.lxor_lor, <- Z.add_nocarry_lxor.
Qed.

Ltac divmod := Z.div_mod_to_equations; lia.

Lemma land_255 (x : Z) : Z.land x 255 = x mod 256.
Proof. apply (land_low x 8). lia. Qed.
Lemma land_63 (x : Z) : Z.land x 63 = x mod 64.
Proof. apply (land_low x 6). lia. Qed.
Lemma land_31 (x : Z) : Z.land x 31 = x mod 32.
Proof. apply (land_low x 5). lia. Qed.
Lemma land_15 (x : Z) : Z.land x 15 = x mod 16.
Proof. apply (land_low x 4). lia. Qed.
Lemma land_7 (x : Z) : Z.land x 7 = x mod 8.
Proof. apply (land_low x 3). lia. Qed.

Lemma lor_64 (hi lo : Z) : 0 <= lo < 64 -> Z.lor (hi * 64) lo = hi * 64 + lo.
Proof. intros H. apply (lor_disjoint hi lo 6); lia. Qed.
Lemma lor_4096 (hi lo : Z) : 0 <= lo < 4096 -> Z.lor (hi * 4096) lo = hi * 4096 + lo.
Proof. intros H. apply (lor_disjoint hi lo 12); lia. Qed.
Lemma lor_262144 (hi lo : Z) : 0 <= lo < 262144 -> Z.lor (hi * 262144) lo = hi * 262144 + lo.
Proof. intros H. apply (lor_disjoint hi lo 18); lia. Qed.

(** The lead byte [t | x] for [x] below the lead's first free bit. *)
Lemma lor_lead (t x n : Z) :
  0 <= n -> t mod 2 ^ n = 0 -> 0 <= x < 2 ^ n -> Z.lor t x = t + x.
Proof.
  intros Hn Ht Hx.
  pose proof (Z.div_mod t (2 ^ n) ltac:(lia)) as Hdm. rewrite Ht, Z.add_0_r in Hdm.
  remember (t / 2 ^ n) as q eqn:Hq. clear Hq. subst t.
  rewrite (Z.mul_comm (2 ^ n) q). now apply lor_disjoint.
Qed.

(** *** The runes of two, three and four bytes *)

Lemma continues_code (s : ascii) (b : Z) :
  0 <= b < 64 -> bytes.code s = 128 + b -> utf8.continues s = true.
Proof. intros Hb H. unfold utf8.continues, utf8.locb, utf8.hicb. rewrite H. lia. Qed.

Lemma decoderune_two (s0 s1 : ascii) (t : string) (a b : Z) :
  0 <= a < 32 -> 0 <= b < 64 ->
  bytes.code s0 = 192 + a -> bytes.code s1 = 128 + b ->
  utf8.decoderune (String s0 (String s1 t))
  = if 127 <? a * 64 + b then (a * 64 + b, 2%nat) else (utf8.runeError, 1%nat).
Proof.
  intros Ha Hb H0 H1. unfold utf8.decoderune.
  rewrite (continues_code s1 b Hb H1), H0, H1.
  unfold utf8.t2, utf8.t3, utf8.mask2, utf8.maskx, utf8.rune1Max.
  replace ((192 <=? 192 + a) && (192 + a <? 224)) with true by lia.
  rewrite land_31, land_63, Z.shiftl_mul_pow2 by lia.
  replace ((192 + a) mod 32) with a by divmod.
  replace ((128 + b) mod 64) with b by divmod.
  change (2 ^ 6) with 64. now rewrite lor_64 by lia.
Qed.

Lemma decoderune_three (s0 s1 s2 : ascii) (t : string) (a b c : Z) :
  0 <= a < 16 -> 0 <= b < 64 -> 0 <= c < 64 ->
  bytes.code s0 = 224 + a -> bytes.code s1 = 128 + b -> bytes.code s2 = 128 + c ->
  utf8.decoderune (String s0 (String s1 (String s2 t)))
  = let r := a * 4096 + b * 64 + c in
    if (2047 <? r) && negb ((55296 <=? r) && (r <=? 57343))
    then (r, 3%nat) else (utf8.runeError, 1%nat).
Proof.
  intros Ha Hb Hc H0 H1 H2. unfold utf8.decoderune.
  rewrite (continues_code s1 b Hb H1), (continues_code s2 c Hc H2), H0, H1, H2.
  unfold utf8.t2, utf8.t3, utf8.t4, utf8.mask3, utf8.maskx, utf8.rune2Max,
    utf8.surrogateMin, utf8.surrogateMax.
  replace ((192 <=? 224 + a) && (224 + a <? 224)) with false by lia.
  replace ((224 <=? 224 + a) && (224 + a <? 240)) with true by lia.
  rewrite land_15, !land_63, !Z.shiftl_mul_pow2 by lia.
  replace ((224 + a) mod 16) with a by divmod.
  replace ((128 + b) mod 64) with b by divmod.
  replace ((128 + c) mod 64) with c by divmod.
  change (2 ^ 6) with 64. change (2 ^ 12) with 4096.
  rewrite lor_64 by lia. rewrite lor_4096 by lia.
  cbv zeta. now rewrite Z.add_assoc.
Qed.

Lemma decoderune_four (s0 s1 s2 s3 : ascii) (t : string) (a b c d : Z) :
  0 <= a < 8 -> 0 <= b < 64 -> 0 <= c < 64 -> 0 <= d < 64 ->
  bytes.code s0 = 240 + a -> bytes.code s1 = 128 + b ->
  bytes.code s2 = 128 + c -> bytes.code s3 = 128 + d ->
  utf8.decoderune (String s0 (String s1 (String s2 (String s3 t))))
  = let r := a * 262144 + b * 4096 + c * 64 + d in
    if (65535 <? r) && (r <=? 1114111) then (r, 4%nat) else (utf8.runeError, 1%nat).
Proof.
  intros Ha Hb Hc Hd H0 H1 H2 H3. unfold utf8.decoderune.
  rewrite (continues_code s1 b Hb H1), (continues_code s2 c Hc H2),
    (continues_code s3 d Hd H3), H0, H1, H2, H3.
  unfold utf8.t2, utf8.t3, utf8.t4, utf8.t5, utf8.mask4, utf8.maskx, utf8.rune3Max,
    utf8.maxRune.
  replace ((192 <=? 240 + a) && (240 + a <? 224)) with false by lia.
  replace ((224 <=? 240 + a) && (240 + a <? 240)) with false by lia.
  replace ((240 <=? 240 + a) && (240 + a <? 248)) with true by lia.
  rewrite land_7, !land_63, !Z.shiftl_mul_pow2 by lia.
  replace ((240 + a) mod 8) with a by divmod.
  replace ((128 + b) mod 64) with b by divmod.
  replace ((128 + c) mod 64) with c by divmod.
  replace ((128 + d) mod 64) with d by divmod.
  change (2 ^ 6) with 64. change (2 ^ 12) with 4096. change (2 ^ 18) with 262144.
  rewrite lor_64 by lia. rewrite lor_4096 by lia. rewrite lor_262144 by lia.
  cbv zeta. now rewrite !Z.add_assoc.
Qed.

(** *** The bytes of a rune *)

Lemma lor_128 (x : Z) : 0 <= x < 64 -> Z.lor 128 x = 128 + x.
Proof. intros H. apply (lor_lead 128 x 6); [lia | reflexivity | lia]. Qed.
Lemma lor_192 (x : Z) : 0 <= x < 64 -> Z.lor 192 x = 192 + x.
Proof. intros H. apply (lor_lead 192 x 6); [lia | reflexivity | lia]. Qed.
Lemma lor_224 (x : Z) : 0 <= x < 16 -> Z.lor 224 x = 224 + x.
Proof. intros H. apply (lor_lead 224 x 4); [lia | reflexivity | lia]. Qed.
Lemma lor_240 (x : Z) : 0 <= x < 8 -> Z.lor 240 x = 240 + x.
Proof. intros H. apply (lor_lead 240 x 3); [lia | reflexivity | lia]. Qed.

Lemma mod_256_64 (x : Z) : (x mod 256) mod 64 = x mod 64.
Proof. apply Z.mod_mod_divide. now exists 4. Qed.

Lemma byte_small (x : Z) : 0 <= x < 256 -> utf8.byte x = x.
Proof. intros H. unfold utf8.byte. rewrite land_255. now apply Z.mod_small. Qed.

Lemma encoderune_one (r : Z) :
  0 <= r <= 127 -> utf8.encoderune r = String (bytes.ofZ r) EmptyString.
Proof.
  intros Hr. unfold utf8.encoderune, utf8.rune1Max.
  rewrite (Z.mod_small r (2 ^ 32)) by lia.
  replace (r <=? 127) with true by lia. now rewrite byte_small by lia.
Qed.

Lemma encoderune_two (r : Z) :
  128 <= r <= 2047 ->
  utf8.encoderune r
  = String (bytes.ofZ (192 + r / 64)) (String (bytes.ofZ (128 + r mod 64)) EmptyString).
Proof.
  intros Hr. unfold utf8.encoderune, utf8.rune1Max, utf8.rune2Max, utf8.t2, utf8.tx,
    utf8.maskx, utf8.byte.
  rewrite (Z.mod_small r (2 ^ 32)) by lia.
  replace (r <=? 127) with false by lia. replace (r <=? 2047) with true by lia.
  rewrite Z.shiftr_div_pow2, !land_255, land_63 by lia. change (2 ^ 6) with 64.
  rewrite mod_256_64, (Z.mod_small (r / 64) 256) by divmod.
  now rewrite lor_192, lor_128 by divmod.
Qed.

Lemma encoderune_three (r : Z) :
  2048 <= r <= 65535 -> ~ 55296 <= r <= 57343 ->
  utf8.encoderune r
  = String (bytes.ofZ (224 + r / 4096))
      (String (bytes.ofZ (128 + (r / 64) mod 64))
         (String (bytes.ofZ (128 + r mod 64)) EmptyString)).
Proof.
  intros Hr Hs. unfold utf8.encoderune, utf8.rune1Max, utf8.rune2Max, utf8.rune3Max,
    utf8.maxRune, utf8.surrogateMin, utf8.surrogateMax, utf8.t3, utf8.tx, utf8.maskx,
    utf8.byte.
  rewrite (Z.mod_small r (2 ^ 32)) by lia.
  replace (r <=? 127) with false by lia. replace (r <=? 2047) with false by lia.
  replace ((1114111 <? r) || (55296 <=? r) && (r <=? 57343)) with false by lia.
  replace (r <=? 65535) with true by lia.
  rewrite !Z.shiftr_div_pow2, !land_255, !land_63 by lia.
  change (2 ^ 6) with 64. change (2 ^ 12) with 4096.
  rewrite !mod_256_64, (Z.mod_small (r / 4096) 256) by divmod.
  now rewrite lor_224, !lor_128 by divmod.
Qed.

Lemma encoderune_four (r : Z) :
  65536 <= r <= 1114111 ->
  utf8.encoderune r
  = String (bytes.ofZ (240 + r / 262144))
      (String (bytes.ofZ (128 + (r / 4096) mod 64))
         (String (bytes.ofZ (128 + (r / 64) mod 64))
            (String (bytes.ofZ (128 + r mod 64)) EmptyString))).
Proof.
  intros Hr. unfold utf8.encoderune, utf8.rune1Max, utf8.rune2Max, utf8.rune3Max,
    utf8.maxRune, utf8.surrogateMin, utf8.surrogateMax, utf8.t4, utf8.tx, utf8.maskx,
    utf8.byte.
  rewrite (Z.mod_small r (2 ^ 32)) by lia.
  replace (r <=? 127) with false by lia. replace (r <=? 2047) with false by lia.
  replace ((1114111 <? r) || (55296 <=? r) && (r <=? 57343)) with false by lia.
  replace (r <=? 65535) with false by lia.
  rewrite !Z.shiftr_div_pow2, !land_255, !land_63 by lia.
  change (2 ^ 6) with 64. change (2 ^ 12) with 4096. change (2 ^ 18) with 262144.
  rewrite !mod_256_64, (Z.mod_small (r / 262144) 256) by divmod.
  now rewrite lor_240, !lor_128 by divmod.
Qed.

(** A rune that is no Unicode scalar value is written as U+FFFD. *)
Lemma encoderune_invalid (r : Z) :
  - 2 ^ 31 <= r < 2 ^ 31 -> utf8.validRune r = false ->
  utf8.encoderune r = utf8.encoderune utf8.runeError.
Proof.
  intros Hr Hv. unfold utf8.validRune, utf8.maxRune, utf8.surrogateMin,
    utf8.surrogateMax in Hv.
  rewrite (encoderune_three utf8.runeError) by (unfold utf8.runeError; lia).
  unfold utf8.encoderune, utf8.rune1Max, utf8.rune2Max, utf8.maxRune,
    utf8.surrogateMin, utf8.surrogateMax.
  remember (r mod 2 ^ 32) as i eqn:Ei.
  assert (Hi : 0 <= i /\ (i = r \/ i = r + 4294967296)) by (subst i; divmod).
  clear Ei.
  assert (Hr' : r < 0 \/ 1114111 < r \/ 55296 <= r <= 57343) by lia.
  replace (i <=? 127) with false by lia.
  replace (i <=? 2047) with false by lia.
  replace ((1114111 <? i) || (55296 <=? i) && (i <=? 57343)) with true by lia.
  reflexivity.
Qed.

(** *** One turn of the loop *)

Lemma rangeRunes_ascii (c : ascii) (s : string) :
  bytes.code c < 128 ->
  utf8.rangeRunes 0 (String c s) = bytes.code c :: utf8.rangeRunes 0 s.
Proof.
  intros Hc. cbn [utf8.rangeRunes]. unfold utf8.runeSelf.
  now replace (bytes.code c <? 128) with true by lia.
Qed.

Lemma rangeRunes_lead (c : ascii) (s : string) :
  128 <= bytes.code c ->
  utf8.rangeRunes 0 (String c s)
  = fst (utf8.decoderune (String c s))
    :: utf8.rangeRunes (snd (utf8.decoderune (String c s)) - 1) s.
Proof.
  intros Hc. cbn [utf8.rangeRunes]. unfold utf8.runeSelf.
  replace (bytes.code c <? 128) with false by lia.
  now destruct (utf8.decoderune (String c s)).
Qed.

(** The loop reads back the rune whose bytes it meets. *)
Lemma rangeRunes_encoderune (r : Z) (rest : string) :
  - 2 ^ 31 <= r < 2 ^ 31 ->
  utf8.rangeRunes 0 (utf8.encoderune r +:+ rest)
  = (if utf8.validRune r then r else utf8.runeError) :: utf8.rangeRunes 0 rest.
Proof.
  intros Hint.
  destruct (utf8.validRune r) eqn:Hv.
  - unfold utf8.validRune, utf8.maxRune, utf8.surrogateMin, utf8.surrogateMax in Hv.
    destruct (Z.le_gt_cases r 127) as [H1|H1];
      [|destruct (Z.le_gt_cases r 2047) as [H2|H2];
        [|destruct (Z.le_gt_cases r 65535) as [H3|H3]]].
    + rewrite encoderune_one by lia. rewrite app_cons, app_nil_l.
      rewrite rangeRunes_ascii by (rewrite code_ofZ; lia). now rewrite code_ofZ by lia.
    + rewrite encoderune_two by lia. rewrite !app_cons, app_nil_l.
      rewrite rangeRunes_lead by (rewrite code_ofZ; divmod).
      rewrite (decoderune_two _ _ _ (r / 64) (r mod 64)) by (rewrite ?code_ofZ; divmod).
      replace (r / 64 * 64 + r mod 64) with r by divmod.
      now replace (127 <? r) with true by lia.
    + rewrite encoderune_three by lia. rewrite !app_cons, app_nil_l.
      rewrite rangeRunes_lead by (rewrite code_ofZ; divmod).
      rewrite (decoderune_three _ _ _ _ (r / 4096) ((r / 64) mod 64) (r mod 64))
        by (rewrite ?code_ofZ; divmod).
      cbv zeta. replace (r / 4096 * 4096 + (r / 64) mod 64 * 64 + r mod 64) with r by divmod.
      now replace ((2047 <? r) && negb ((55296 <=? r) && (r <=? 57343))) with true by lia.
    + rewrite encoderune_four by lia. rewrite !app_cons, app_nil_l.
      rewrite rangeRunes_lead by (rewrite code_ofZ; divmod).
      rewrite (decoderune_four _ _ _ _ _ (r / 262144) ((r / 4096) mod 64)
                 ((r / 64) mod 64) (r mod 64)) by (rewrite ?code_ofZ; divmod).
      cbv zeta.
      replace (r / 262144 * 262144 + (r / 4096) mod 64 * 4096 + (r / 64) mod 64 * 64
               + r mod 64) with r by divmod.
      now replace ((65535 <? r) && (r <=? 1114111)) with true by lia.
  - rewrite (encoderune_invalid r Hint Hv). reflexivity.
Qed.

(** *** What [decoderune] returns *)

Lemma validRune_runeError : utf8.validRune utf8.runeError = true.
Proof. reflexivity. Qed.

(** [decoderune] returns a Unicode scalar value and moves by one to four
    bytes. *)
Lemma decoderune_good (s : string) :
  utf8.validRune (fst (utf8.decoderune s)) = true
  /\ (1 <= snd (utf8.decoderune s) <= 4)%nat.
Proof.
  assert (Herr : utf8.validRune (fst (utf8.runeError, 1%nat)) = true
                 /\ (1 <= snd (utf8.runeError, 1%nat) <= 4)%nat) by (split; [reflexivity | simpl; lia]).
  destruct s as [|s0 t]; [exact Herr|].
  pose proof (code_range s0) as R0.
  destruct ((utf8.t2 <=? bytes.code s0) && (bytes.code s0 <? utf8.t3)) eqn:E2;
    [|destruct ((utf8.t3 <=? bytes.code s0) && (bytes.code s0 <? utf8.t4)) eqn:E3;
      [|destruct ((utf8.t4 <=? bytes.code s0) && (bytes.code s0 <? utf8.t5)) eqn:E4]].
  - destruct t as [|s1 t]; [unfold utf8.decoderune; cbv zeta; rewrite E2; exact Herr|].
    destruct (utf8.continues s1) eqn:C1;
      [|unfold utf8.decoderune; cbv zeta; rewrite E2, C1; exact Herr].
    unfold utf8.continues, utf8.locb, utf8.hicb in C1. unfold utf8.t2, utf8.t3 in E2.
    rewrite (decoderune_two s0 s1 t (bytes.code s0 - 192) (bytes.code s1 - 128)) by lia.
    destruct (127 <? _) eqn:G; [|exact Herr].
    split; [|simpl; lia]. simpl fst.
    unfold utf8.validRune, utf8.maxRune, utf8.surrogateMin, utf8.surrogateMax. lia.
  - destruct t as [|s1 [|s2 t]];
      [unfold utf8.decoderune; cbv zeta; rewrite E2, E3; exact Herr ..|].
    destruct (utf8.continues s1 && utf8.continues s2) eqn:C;
      [|unfold utf8.decoderune; cbv zeta; rewrite E2, E3, C; exact Herr].
    apply andb_prop in C as [C1 C2].
    unfold utf8.continues, utf8.locb, utf8.hicb in C1, C2. unfold utf8.t3, utf8.t4 in E3.
    rewrite (decoderune_three s0 s1 s2 t (bytes.code s0 - 224) (bytes.code s1 - 128)
               (bytes.code s2 - 128)) by lia.
    cbv zeta.
    match goal with |- context [if ?cnd then _ else _] => destruct cnd eqn:G end;
      [|exact Herr].
    split; [|simpl; lia]. simpl fst.
    unfold utf8.validRune, utf8.maxRune, utf8.surrogateMin, utf8.surrogateMax. lia.
  - destruct t as [|s1 [|s2 [|s3 t]]];
      [unfold utf8.decoderune; cbv zeta; rewrite E2, E3, E4; exact Herr ..|].
    destruct (utf8.continues s1 && utf8.continues s2 && utf8.continues s3) eqn:C;
      [|unfold utf8.decoderune; cbv zeta; rewrite E2, E3, E4, C; exact Herr].
    apply andb_prop in C as [[C1 C2]%andb_prop C3].
    unfold utf8.continues, utf8.locb, utf8.hicb in C1, C2, C3.
    unfold utf8.t4, utf8.t5 in E4.
    rewrite (decoderune_four s0 s1 s2 s3 t (bytes.code s0 - 240) (bytes.code s1 - 128)
               (bytes.code s2 - 128) (bytes.code s3 - 128)) by lia.
    cbv zeta.
    match goal with |- context [if ?cnd then _ else _] => destruct cnd eqn:G end;
      [|exact Herr].
    split; [|simpl; lia]. simpl fst.
    unfold utf8.validRune, utf8.maxRune, utf8.surrogateMin, utf8.surrogateMax. lia.
  - unfold utf8.decoderune; cbv zeta; rewrite E2, E3, E4. exact Herr.
Qed.

Lemma rangeRunes_valid (s : string) (skip : nat) :
  Forall (fun r => utf8.validRune r = true) (utf8.rangeRunes skip s).
Proof.
  revert skip. induction s as [|c s IH]; intros skip; [constructor|].
  destruct skip as [|k]; [|apply IH].
  pose proof (code_range c) as Rc.
  destruct (Z.lt_ge_cases (bytes.code c) 128) as [Hc|Hc].
  - rewrite rangeRunes_ascii by exact Hc. constructor; [|apply IH].
    unfold utf8.validRune, utf8.maxRune, utf8.surrogateMin, utf8.surrogateMax. lia.
  - rewrite rangeRunes_lead by exact Hc. constructor; [|apply IH].
    apply decoderune_good.
Qed.

Lemma rangeRunes_length (s : string) (skip : nat) :
  (length (utf8.rangeRunes skip s) <= String.length s
   /\ String.length s <= skip + 4 * length (utf8.rangeRunes skip s))%nat.
Proof.
  revert skip. induction s as [|c s IH]; intros skip; [simpl; lia|].
  destruct skip as [|k].
  - destruct (Z.lt_ge_cases (bytes.code c) 128) as [Hc|Hc].
    + rewrite rangeRunes_ascii by exact Hc. specialize (IH 0%nat). simpl in *. lia.
    + rewrite rangeRunes_lead by exact Hc.
      destruct (decoderune_good (String c s)) as [_ Hsize].
      specialize (IH (snd (utf8.decoderune (String c s)) - 1)%nat). simpl in *. lia.
  - specialize (IH k). simpl in *. lia.
Qed.

(** ** splitHangeul *)

(** The runes of an ASCII text are its bytes. *)
Theorem splitHangeul_ascii (s : string) :
  bytes.all (fun c => bytes.code c <? 128) s = true ->
  splitHangeul s = map bytes.code (String.list_ascii_of_string s).
Proof.
  unfold splitHangeul. induction s as [|c s IH]; [reflexivity|].
  simpl bytes.all. intros [Hc Hs]%andb_prop.
  rewrite rangeRunes_ascii by lia. simpl. now rewrite IH.
Qed.

Lemma splitHangeul_ascii_item :
  splitHangeul "item_1" = [105; 116; 101; 109; 95; 49].
Proof. exact (splitHangeul_ascii "item_1" eq_refl). Defined.

(** [splitHangeul] returns at most one rune for each byte and at least one
    rune for every four bytes; on the empty string it returns no rune. *)
Theorem splitHangeul_length (s : string) :
  (length (splitHangeul s) <= String.length s <= 4 * length (splitHangeul s))%nat.
Proof. unfold splitHangeul. pose proof (rangeRunes_length s 0). lia. Qed.

Lemma ofZ_code (c : ascii) : bytes.ofZ (bytes.code c) = c.
Proof.
  unfold bytes.ofZ, bytes.code. rewrite N2Z.id. apply ascii_N_embedding.
Qed.

(** The bytes of a rune that are still to be passed are passed. *)
Lemma rangeRunes_skip (a rest : string) :
  utf8.rangeRunes (String.length a) (a +:+ rest) = utf8.rangeRunes 0 rest.
Proof.
  induction a as [|x a IH]; [now rewrite app_nil_l|].
  rewrite app_cons. exact IH.
Qed.

(** [decoderune] reads back the rune whose bytes it meets. *)
Lemma decoderune_encoderune (r : Z) (rest : string) :
  utf8.validRune r = true -> 128 <= r ->
  exists c tail,
    utf8.encoderune r = String c tail /\ 128 <= bytes.code c /\ tail <> EmptyString
    /\ utf8.decoderune (utf8.encoderune r +:+ rest) = (r, S (String.length tail)).
Proof.
  intros Hv Hr.
  unfold utf8.validRune, utf8.maxRune, utf8.surrogateMin, utf8.surrogateMax in Hv.
  destruct (Z.le_gt_cases r 2047) as [H2|H2];
    [|destruct (Z.le_gt_cases r 65535) as [H3|H3]].
  - rewrite encoderune_two by lia. eexists _, _. split; [reflexivity|].
    split; [rewrite code_ofZ; divmod|]. split; [discriminate|].
    rewrite !app_cons, app_nil_l.
    rewrite (decoderune_two _ _ _ (r / 64) (r mod 64)) by (rewrite ?code_ofZ; divmod).
    replace (r / 64 * 64 + r mod 64) with r by divmod.
    now replace (127 <? r) with true by lia.
  - rewrite encoderune_three by lia. eexists _, _. split; [reflexivity|].
    split; [rewrite code_ofZ; divmod|]. split; [discriminate|].
    rewrite !app_cons, app_nil_l.
    rewrite (decoderune_three _ _ _ _ (r / 4096) ((r / 64) mod 64) (r mod 64))
      by (rewrite ?code_ofZ; divmod).
    cbv zeta. replace (r / 4096 * 4096 + (r / 64) mod 64 * 64 + r mod 64) with r by divmod.
    now replace ((2047 <? r) && negb ((55296 <=? r) && (r <=? 57343))) with true by lia.
  - rewrite encoderune_four by lia. eexists _, _. split; [reflexivity|].
    split; [rewrite code_ofZ; divmod|]. split; [discriminate|].
    rewrite !app_cons, app_nil_l.
    rewrite (decoderune_four _ _ _ _ _ (r / 262144) ((r / 4096) mod 64)
               ((r / 64) mod 64) (r mod 64)) by (rewrite ?code_ofZ; divmod).
    cbv zeta.
    replace (r / 262144 * 262144 + (r / 4096) mod 64 * 4096 + (r / 64) mod 64 * 64
             + r mod 64) with r by divmod.
    now replace ((65535 <? r) && (r <=? 1114111)) with true by lia.
Qed.

(** What [decoderune] returns at a byte from 128 on: the error and one byte,
    or a rune whose bytes the string starts with. *)
Lemma decoderune_cases (s0 : ascii) (t : string) :
  utf8.decoderune (String s0 t) = (utf8.runeError, 1%nat)
  \/ exists r tail rest,
       utf8.validRune r = true /\ t = tail +:+ rest
       /\ utf8.encoderune r = String s0 tail
       /\ utf8.decoderune (String s0 t) = (r, S (String.length tail)).
Proof.
  pose proof (code_range s0) as R0.
  destruct ((utf8.t2 <=? bytes.code s0) && (bytes.code s0 <? utf8.t3)) eqn:E2;
    [|destruct ((utf8.t3 <=? bytes.code s0) && (bytes.code s0 <? utf8.t4)) eqn:E3;
      [|destruct ((utf8.t4 <=? bytes.code s0) && (bytes.code s0 <? utf8.t5)) eqn:E4]].
  - destruct t as [|s1 t]; [left; unfold utf8.decoderune; cbv zeta; now rewrite E2|].
    destruct (utf8.continues s1) eqn:C1;
      [|left; unfold utf8.decoderune; cbv zeta; now rewrite E2, C1].
    pose proof (code_range s1) as R1.
    unfold utf8.continues, utf8.locb, utf8.hicb in C1. unfold utf8.t2, utf8.t3 in E2.
    rewrite (decoderune_two s0 s1 t (bytes.code s0 - 192) (bytes.code s1 - 128)) by lia.
    set (r := (bytes.code s0 - 192) * 64 + (bytes.code s1 - 128)).
    destruct (127 <? r) eqn:G; [|now left].
    right. exists r, (String s1 EmptyString), t.
    assert (Hr : 128 <= r <= 2047) by (unfold r; lia).
    split; [unfold utf8.validRune, utf8.maxRune, utf8.surrogateMin, utf8.surrogateMax; lia|].
    split; [reflexivity|]. split; [|reflexivity].
    rewrite encoderune_two by exact Hr.
    replace (192 + r / 64) with (bytes.code s0) by (unfold r; divmod).
    replace (128 + r mod 64) with (bytes.code s1) by (unfold r; divmod).
    now rewrite !ofZ_code.
  - destruct t as [|s1 [|s2 t]];
      [left; unfold utf8.decoderune; cbv zeta; now rewrite E2, E3 ..|].
    destruct (utf8.continues s1 && utf8.continues s2) eqn:C;
      [|left; unfold utf8.decoderune; cbv zeta; now rewrite E2, E3, C].
    apply andb_prop in C as [C1 C2].
    pose proof (code_range s1) as R1. pose proof (code_range s2) as R2.
    unfold utf8.continues, utf8.locb, utf8.hicb in C1, C2. unfold utf8.t3, utf8.t4 in E3.
    rewrite (decoderune_three s0 s1 s2 t (bytes.code s0 - 224) (bytes.code s1 - 128)
               (bytes.code s2 - 128)) by lia.
    cbv zeta.
    set (r := (bytes.code s0 - 224) * 4096 + (bytes.code s1 - 128) * 64
              + (bytes.code s2 - 128)).
    destruct ((2047 <? r) && negb ((55296 <=? r) && (r <=? 57343))) eqn:G; [|now left].
    right. exists r, (String s1 (String s2 EmptyString)), t.
    assert (Hr : 2048 <= r <= 65535) by (unfold r in *; lia).
    assert (Hs : ~ 55296 <= r <= 57343) by lia.
    split; [unfold utf8.validRune, utf8.maxRune, utf8.surrogateMin, utf8.surrogateMax; lia|].
    split; [reflexivity|]. split; [|reflexivity].
    rewrite encoderune_three by assumption.
    replace (224 + r / 4096) with (bytes.code s0) by (unfold r; divmod).
    replace (128 + (r / 64) mod 64) with (bytes.code s1) by (unfold r; divmod).
    replace (128 + r mod 64) with (bytes.code s2) by (unfold r; divmod).
    now rewrite !ofZ_code.
  - destruct t as [|s1 [|s2 [|s3 t]]];
      [left; unfold utf8.decoderune; cbv zeta; now rewrite E2, E3, E4 ..|].
    destruct (utf8.continues s1 && utf8.continues s2 && utf8.continues s3) eqn:C;
      [|left; unfold utf8.decoderune; cbv zeta; now rewrite E2, E3, E4, C].
    apply andb_prop in C as [[C1 C2]%andb_prop C3].
    pose proof (code_range s1) as R1. pose proof (code_range s2) as R2.
    pose proof (code_range s3) as R3.
    unfold utf8.continues, utf8.locb, utf8.hicb in C1, C2, C3.
    unfold utf8.t4, utf8.t5 in E4.
    rewrite (decoderune_four s0 s1 s2 s3 t (bytes.code s0 - 240) (bytes.code s1 - 128)
               (bytes.code s2 - 128) (bytes.code s3 - 128)) by lia.
    cbv zeta.
    set (r := (bytes.code s0 - 240) * 262144 + (bytes.code s1 - 128) * 4096
              + (bytes.code s2 - 128) * 64 + (bytes.code s3 - 128)).
    destruct ((65535 <? r) && (r <=? 1114111)) eqn:G; [|now left].
    right. exists r, (String s1 (String s2 (String s3 EmptyString))), t.
    assert (Hr : 65536 <= r <= 1114111) by (unfold r in *; lia).
    split; [unfold utf8.validRune, utf8.maxRune, utf8.surrogateMin, utf8.surrogateMax; lia|].
    split; [reflexivity|]. split; [|reflexivity].
    rewrite encoderune_four by assumption.
    replace (240 + r / 262144) with (bytes.code s0) by (unfold r; divmod).
    replace (128 + (r / 4096) mod 64) with (bytes.code s1) by (unfold r; divmod).
    replace (128 + (r / 64) mod 64) with (bytes.code s2) by (unfold r; divmod).
    replace (128 + r mod 64) with (bytes.code s3) by (unfold r; divmod).
    now rewrite !ofZ_code.
  - left. unfold utf8.decoderune; cbv zeta. now rewrite E2, E3, E4.
Qed.

(** Every rune [splitHangeul] returns is a Unicode scalar value, and each
    turn of its loop is one of two: where the string starts with the UTF-8
    bytes of a scalar value, the loop returns this value and goes on after its
    bytes; where it starts with no such bytes, the loop returns U+FFFD and
    goes on after one byte. *)
Theorem splitHangeul_scalar_values (s : string) :
  Forall (fun r => utf8.validRune r = true) (splitHangeul s)
  /\ (s = EmptyString
      \/ (exists r rest,
            utf8.validRune r = true /\ s = utf8.encoderune r +:+ rest
            /\ splitHangeul s = r :: splitHangeul rest)
      \/ (exists c t,
            s = String c t
            /\ (forall r rest, utf8.validRune r = true -> s <> utf8.encoderune r +:+ rest)
            /\ splitHangeul s = utf8.runeError :: splitHangeul t)).
Proof.
  split; [apply rangeRunes_valid|].
  destruct s as [|c t]; [now left|]. right. unfold splitHangeul.
  pose proof (code_range c) as Rc.
  destruct (Z.lt_ge_cases (bytes.code c) 128) as [Hc|Hc].
  - left. exists (bytes.code c), t.
    split; [unfold utf8.validRune, utf8.maxRune, utf8.surrogateMin, utf8.surrogateMax; lia|].
    split; [|now apply rangeRunes_ascii].
    rewrite encoderune_one by lia. now rewrite ofZ_code.
  - rewrite rangeRunes_lead by exact Hc.
    destruct (decoderune_cases c t) as [Herr | [r [tail [rest [Hv [Ht [Henc Hdec]]]]]]].
    + right. exists c, t. split; [reflexivity|]. split; [|now rewrite Herr].
      intros r rest Hv Heq.
      destruct (Z.lt_ge_cases r 128) as [Hr|Hr].
      * unfold utf8.validRune in Hv. rewrite encoderune_one in Heq by lia.
        rewrite app_cons in Heq. injection Heq as -> _.
        rewrite code_ofZ in Hc; lia.
      * destruct (decoderune_encoderune r rest Hv Hr) as [c' [tail [_ [_ [Htail Hdec]]]]].
        rewrite <- Heq, Herr in Hdec. destruct tail; [contradiction | discriminate Hdec].
    + left. exists r, rest. split; [exact Hv|].
      split; [now rewrite Henc, app_cons, Ht|].
      rewrite Hdec. simpl fst. simpl snd. f_equal.
      rewrite Ht. replace (S (String.length tail) - 1)%nat with (String.length tail) by lia.
      apply rangeRunes_skip.
Qed.

(** A byte that starts no rune, a letter, and the two bytes of an overlong
    encoding. *)
Example splitHangeul_malformed :
  splitHangeul (String "255" (String "A" (String "192" (String "128" EmptyString))))
  = [65533; 65; 65533; 65533].
Proof. reflexivity. Qed.

(** [splitHangeul] reads back the runes a string was made of: on
    [string(runes)] it returns [runes], with U+FFFD in the place of each rune
    that is no Unicode scalar value. *)
Theorem splitHangeul_of_runes (runes : list Z) :
  Forall (fun r => - 2 ^ 31 <= r < 2 ^ 31) runes ->
  splitHangeul (utf8.encodeRunes runes)
  = map (fun r => if utf8.validRune r then r else utf8.runeError) runes.
Proof.
  unfold splitHangeul. induction 1 as [|r runes Hr _ IH]; [reflexivity|].
  simpl utf8.encodeRunes. rewrite (rangeRunes_encoderune r _ Hr). simpl. now rewrite IH.
Qed.

(** The two syllables of the word Hangeul, U+D55C and U+AE00, and a
    surrogate. *)
Lemma splitHangeul_of_runes_hangeul :
  splitHangeul (utf8.encodeRunes [54620; 44544; 55296]) = [54620; 44544; 65533].
Proof.
  apply (splitHangeul_of_runes [54620; 44544; 55296]).
  repeat constructor; lia.
Defined.

(** ** Clean paths *)

Lemma hasPrefix_slash_app (out x : string) :
  hasPrefix out "/" = true -> hasPrefix (out +:+ x) "/" = true.
Proof. destruct out as [|c out]; [discriminate|]. now rewrite app_cons. Qed.

Lemma backtrackLoop_keeps_root (l : list ascii) (x : ascii) :
  exists l2, path.backtrackLoop 1 x (l ++ ["/"%char]) = l2 ++ ["/"%char].
Proof.
  revert x. induction l as [|y l IH]; intros x.
  - exists []. reflexivity.
  - cbn [app path.backtrackLoop].
    destruct ((1 <? length (y :: l ++ ["/"%char]))%nat && negb (Ascii.eqb x "/")).
    + apply IH.
    + now exists (y :: l).
Qed.

Lemma backtrack_rooted (out : string) :
  hasPrefix out "/" = true -> (1 < String.length out)%nat ->
  hasPrefix (path.backtrack 1 out) "/" = true.
Proof.
  destruct out as [|c out]; [discriminate|].
  simpl hasPrefix. rewrite andb_true_r. intros ->%Ascii.eqb_eq Hlen.
  unfold path.backtrack. cbn [String.list_ascii_of_string rev].
  destruct (rev (String.list_ascii_of_string out)) as [|x l] eqn:Hrev.
  - apply (f_equal (@length ascii)) in Hrev. rewrite length_rev in Hrev.
    destruct out; simpl in *; [lia | discriminate].
  - cbn [app]. destruct (backtrackLoop_keeps_root l x) as [l2 ->].
    rewrite rev_app_distr. reflexivity.
Qed.

(** The buffer of a rooted path keeps its first slash. *)
Lemma cleanLoop_rooted (n : nat) (p : string) (inElem : bool) (out : string) :
  (String.length p <= n)%nat -> hasPrefix out "/" = true ->
  hasPrefix (path.cleanLoop true inElem p out 1) "/" = true.
Proof.
  revert p inElem out. induction n as [|n IH]; intros p inElem out Hn Hout.
  - destruct p; [exact Hout | simpl in Hn; lia].
  - destruct p as [|c p]; [exact Hout|]. simpl in Hn.
    assert (Hp : (String.length p <= n)%nat) by lia.
    cbn [path.cleanLoop]. destruct inElem.
    + destruct (Ascii.eqb c "/"); apply IH; auto using hasPrefix_slash_app.
    + destruct (Ascii.eqb c "/"); [now apply IH|].
      destruct (Ascii.eqb c "." && path.startsWithSlashOrEnds p); [now apply IH|].
      assert (Hstart : hasPrefix
                (path.cleanLoop true true p
                   ((if true && negb (String.length out =? 1)%nat
                        || negb true && negb (String.length out =? 0)%nat
                     then out +:+ "/" else out) +:+ String c EmptyString) 1) "/" = true).
      { apply IH; [exact Hp|]. apply hasPrefix_slash_app.
        destruct (_ || _); auto using hasPrefix_slash_app. }
      destruct p as [|d p]; [exact Hstart|].
      destruct (Ascii.eqb_spec d ".") as [->|Hd].
      * destruct (Ascii.eqb c "." && path.startsWithSlashOrEnds p); [|exact Hstart].
        destruct (1 <? String.length out)%nat eqn:Hlen.
        -- apply IH; [simpl in Hp; lia|].
           apply backtrack_rooted; [exact Hout | now apply Nat.ltb_lt].
        -- cbn [negb]. apply IH; [simpl in Hp; lia | exact Hout].
      * destruct d as [[] [] [] [] [] [] [] []]; try exact Hstart; congruence.
Qed.

Lemma Clean_rooted (q : string) : hasPrefix (path.Clean (String "/" q)) "/" = true.
Proof.
  unfold path.Clean. cbn [Ascii.eqb Bool.eqb].
  pose proof (cleanLoop_rooted _ q false "/" (le_n _) eq_refl) as H.
  now destruct (path.cleanLoop true false q "/" 1).
Qed.

(** [cleanPath] returns a path that starts with a slash. *)
Lemma cleanPath_rooted (p : string) : hasPrefix (mux.cleanPath p) "/" = true.
Proof.
  destruct p as [|c p]; [reflexivity|].
  unfold mux.cleanPath.
  set (p' := if Ascii.eqb c "/" then String c p else "/" +:+ String c p).
  assert (Hp' : exists q, p' = String "/" q).
  { unfold p'. destruct (Ascii.eqb_spec c "/") as [->|_]; eauto. }
  destruct Hp' as [q ->]. cbv zeta.
  pose proof (Clean_rooted q) as HC.
  destruct (_ && _); [|exact HC].
  destruct (_ && _); [reflexivity|].
  now apply hasPrefix_slash_app.
Qed.

(** ** The tree of main *)

Lemma mainMux_is (ReadFile : string -> string * option error) :
  mainMux ReadFile = mux.Registered (theMux ReadFile).
Proof. reflexivity. Qed.

Lemma matchPath_nil (segs : list string) : mux.matchPath segs None = None.
Proof. now destruct segs. Qed.

Lemma matchPath_leaf (segs : list string) (p : mux.pattern) (h : mux.Handler) :
  mux.matchPath segs (Some (leafOf p h))
  = match segs with [] => Some (leafOf p h) | _ => None end.
Proof.
  destruct segs as [|seg rest]; [reflexivity|].
  cbn [mux.matchPath]. unfold leafOf at 1.
  replace (mux.findChild (mux.Node (Some (p, h)) [] None None) seg) with (@None mux.routingNode)
    by now destruct seg.
  rewrite matchPath_nil. cbn [mux.emptyChild mux.multiChild].
  rewrite matchPath_nil. now destruct (String.eqb seg "/").
Qed.

Lemma matchPath_subtree (segs : list string) (p : mux.pattern) (h : mux.Handler) :
  mux.matchPath segs (Some (subtreeOf p h))
  = match segs with [] => None | _ => Some (leafOf p h) end.
Proof.
  destruct segs as [|seg rest]; [reflexivity|].
  cbn [mux.matchPath]. unfold subtreeOf at 1.
  replace (mux.findChild (mux.Node None [] (Some (leafOf p h)) None) seg)
    with (@None mux.routingNode) by now destruct seg.
  rewrite matchPath_nil. cbn [mux.emptyChild mux.multiChild].
  rewrite matchPath_nil. now destruct (String.eqb seg "/").
Qed.

Lemma findChild_pathTree (R : string -> string * option error) (seg : string) :
  mux.findChild (pathTree R) seg
  = if String.eqb seg "home" then Some (leafOf homePattern (HomeHandler R))
    else if String.eqb seg "item" then Some (subtreeOf (subtreePattern "item") ItemHandler)
    else if String.eqb seg "generic"
         then Some (subtreeOf (subtreePattern "generic") GenericHandler)
    else None.
Proof.
  destruct seg as [|c seg]; [reflexivity|].
  unfold mux.findChild, pathTree. cbn [mux.children mux.find].
  rewrite (String.eqb_sym "home"), (String.eqb_sym "item"), (String.eqb_sym "generic").
  reflexivity.
Qed.

Lemma matchPath_pathTree (R : string -> string * option error) (segs : list string) :
  mux.matchPath segs (Some (pathTree R)) = leafFor R segs.
Proof.
  destruct segs as [|seg rest]; [reflexivity|].
  cbn [mux.matchPath]. rewrite findChild_pathTree.
  change (mux.emptyChild (pathTree R)) with (@None mux.routingNode).
  change (mux.multiChild (pathTree R)) with (@None mux.routingNode).
  rewrite matchPath_nil. unfold leafFor.
  destruct (String.eqb seg "home").
  { rewrite matchPath_leaf. destruct rest; [reflexivity | now destruct (String.eqb seg "/")]. }
  destruct (String.eqb seg "item").
  { rewrite matchPath_subtree.
    destruct rest; [now destruct (String.eqb seg "/") | reflexivity]. }
  destruct (String.eqb seg "generic").
  { rewrite matchPath_subtree.
    destruct rest; [now destruct (String.eqb seg "/") | reflexivity]. }
  rewrite matchPath_nil. now destruct (String.eqb seg "/").
Qed.

(** The host and the method of a request have no part in the match: no
    pattern of main names one. *)
Lemma match_theMux (R : string -> string * option error) (host method path : string) :
  mux.match_ (mux.tree (theMux R)) host method path = leafFor R (mux.pathSegments path).
Proof.
  unfold mux.match_. cbv zeta.
  set (segs := mux.pathSegments path).
  assert (Hhost : match host with
                  | EmptyString => None
                  | _ => mux.matchMethodAndPath
                           (mux.findChild (mux.tree (theMux R)) host) method segs
                  end = None) by now destruct host.
  rewrite Hhost.
  change (mux.emptyChild (mux.tree (theMux R)))
    with (Some (mux.Node None [] None (Some (pathTree R)))).
  unfold mux.matchMethodAndPath.
  cbn [mux.emptyChild].
  assert (Hfind : forall m, mux.findChild (mux.Node None [] None (Some (pathTree R))) m
                            = match m with EmptyString => Some (pathTree R) | _ => None end)
    by now intros [|? ?].
  rewrite !Hfind. cbn iota.
  destruct method as [|c method]; rewrite ?matchPath_nil, !matchPath_pathTree.
  - now destruct (leafFor R segs).
  - now destruct (String.eqb _ _).
Qed.

Lemma exactMatch_leafFor (R : string -> string * option error) (path : string) :
  mux.exactMatch (leafFor R (mux.pathSegments path)) path
  = match mux.pathSegments path with
    | [] => false
    | seg :: rest =>
        if String.eqb seg "home" then match rest with [] => true | _ => false end
        else if String.eqb seg "item" || String.eqb seg "generic" then
          match rest with
          | [] => false
          | _ => mux.endsInSlash path && (mux.countSlash path =? 2)%nat
          end
        else false
    end.
Proof.
  assert (Hsub : forall name h,
             mux.exactMatch (Some (leafOf (subtreePattern name) h)) path
             = mux.endsInSlash path && (mux.countSlash path =? 2)%nat).
  { intros name h. unfold mux.exactMatch, leafOf. cbn [mux.leaf].
    change (mux.multi (mux.lastSegment (subtreePattern name))) with true.
    change (length (mux.segments (subtreePattern name))) with 2%nat.
    cbn [negb]. rewrite Nat.eqb_sym.
    destruct path as [|c path]; [reflexivity|].
    now destruct (mux.endsInSlash (String c path)). }
  destruct (mux.pathSegments path) as [|seg rest]; [reflexivity|].
  unfold leafFor.
  destruct (String.eqb seg "home"); [now destruct rest|].
  destruct (String.eqb seg "item"); [destruct rest; [reflexivity | apply Hsub]|].
  destruct (String.eqb seg "generic"); [destruct rest; [reflexivity | apply Hsub]|].
  reflexivity.
Qed.

(** ** The segments of a path *)

Lemma splitSlash_cons (q : string) : exists piece pieces, mux.splitSlash q = piece :: pieces.
Proof.
  induction q as [|c q [piece [pieces IH]]]; [now eexists _, _|].
  simpl. rewrite IH. destruct (Ascii.eqb c "/"); now eexists _, _.
Qed.

Lemma splitSlash_app_slash (q : string) :
  mux.splitSlash (q +:+ "/") = mux.splitSlash q ++ [EmptyString].
Proof.
  induction q as [|c q IH]; [reflexivity|].
  rewrite app_cons. simpl. rewrite IH.
  destruct (splitSlash_cons q) as [piece [pieces ->]].
  now destruct (Ascii.eqb c "/").
Qed.

Lemma length_splitSlash (q : string) :
  length (mux.splitSlash q) = S (mux.countSlash q).
Proof.
  induction q as [|c q IH]; [reflexivity|].
  simpl. destruct (splitSlash_cons q) as [piece [pieces Hq]]. rewrite Hq in *.
  destruct (Ascii.eqb c "/"); simpl in *; lia.
Qed.

Lemma countSlash_app_slash (p : string) :
  mux.countSlash (p +:+ "/") = S (mux.countSlash p).
Proof.
  induction p as [|c p IH]; [reflexivity|].
  rewrite app_cons. simpl. rewrite IH. now destruct (Ascii.eqb c "/").
Qed.

Lemma lastByte_cons (x : ascii) (s : string) :
  s <> EmptyString -> mux.lastByte (String x s) = mux.lastByte s.
Proof. destruct s; [contradiction | reflexivity]. Qed.

Lemma lastByte_app (a T : string) :
  T <> EmptyString -> mux.lastByte (a +:+ T) = mux.lastByte T.
Proof.
  intros HT. induction a as [|x a IH]; [now rewrite app_nil_l|].
  rewrite app_cons, lastByte_cons; [exact IH|].
  destruct a; [now rewrite app_nil_l | rewrite app_cons; discriminate].
Qed.

Lemma endsInSlash_app_slash (p : string) : mux.endsInSlash (p +:+ "/") = true.
Proof. unfold mux.endsInSlash. now rewrite lastByte_app. Qed.

Lemma endsInSlash_cons (c : ascii) (q : string) :
  q <> EmptyString -> mux.endsInSlash (String c q) = mux.endsInSlash q.
Proof. intros Hq. unfold mux.endsInSlash. now rewrite lastByte_cons. Qed.

(** A path that ends in a slash has two pieces at least, and the last piece
    of one that does not is not empty. *)
Lemma splitSlash_ends (q : string) :
  mux.endsInSlash q = true -> (2 <= length (mux.splitSlash q))%nat.
Proof.
  induction q as [|c q IH]; [discriminate|].
  destruct q as [|d q].
  - unfold mux.endsInSlash. simpl. intros ->. simpl. lia.
  - rewrite endsInSlash_cons by discriminate. intros H. specialize (IH H).
    change (mux.splitSlash (String c (String d q)))
      with (if Ascii.eqb c "/" then EmptyString :: mux.splitSlash (String d q)
            else match mux.splitSlash (String d q) with
                 | piece :: pieces => String c piece :: pieces
                 | [] => [String c EmptyString]
                 end).
    destruct (splitSlash_cons (String d q)) as [piece [pieces Hq]]. rewrite Hq in *.
    destruct (Ascii.eqb c "/"); simpl in *; lia.
Qed.

Lemma splitSlash_last (q : string) :
  q <> EmptyString -> mux.endsInSlash q = false ->
  List.last (mux.splitSlash q) "/" <> EmptyString.
Proof.
  induction q as [|c q IH]; [contradiction|]. intros _.
  destruct q as [|d q].
  - unfold mux.endsInSlash. simpl. intros ->. simpl. discriminate.
  - rewrite endsInSlash_cons by discriminate. intros H.
    specialize (IH ltac:(discriminate) H).
    change (mux.splitSlash (String c (String d q)))
      with (if Ascii.eqb c "/" then EmptyString :: mux.splitSlash (String d q)
            else match mux.splitSlash (String d q) with
                 | piece :: pieces => String c piece :: pieces
                 | [] => [String c EmptyString]
                 end).
    destruct (splitSlash_cons (String d q)) as [piece [pieces Hq]]. rewrite Hq in *.
    destruct (Ascii.eqb c "/"); [exact IH|].
    destruct pieces; [discriminate | exact IH].
Qed.

Lemma length_segmentsOf (pieces : list string) :
  length (mux.segmentsOf pieces) = length pieces.
Proof.
  induction pieces as [|piece pieces IH]; [reflexivity|].
  destruct piece, pieces; simpl in *; congruence.
Qed.

Lemma segmentsOf_cons (piece piece' : string) (pieces : list string) :
  mux.segmentsOf (piece :: piece' :: pieces)
  = mux.pathUnescape piece :: mux.segmentsOf (piece' :: pieces).
Proof. now destruct piece. Qed.

Lemma segmentsOf_snoc (pieces : list string) :
  pieces <> [] -> List.last pieces "/" <> EmptyString ->
  mux.segmentsOf (pieces ++ [EmptyString]) = mux.segmentsOf pieces ++ ["/"].
Proof.
  induction pieces as [|piece pieces IH]; [contradiction|]. intros _ Hlast.
  destruct pieces as [|piece' pieces].
  - simpl in Hlast. destruct piece; [contradiction | reflexivity].
  - cbn [app]. rewrite !segmentsOf_cons.
    change (piece' :: pieces ++ [EmptyString]) with ((piece' :: pieces) ++ [EmptyString]).
    rewrite IH; [reflexivity | discriminate | exact Hlast].
Qed.

(** The segments of a path and of the path with a slash after it. *)
Lemma pathSegments_app_slash (q : string) :
  q <> EmptyString -> mux.endsInSlash q = false ->
  mux.pathSegments (String "/" q +:+ "/") = mux.pathSegments (String "/" q) ++ ["/"].
Proof.
  intros Hq Hends. rewrite app_cons. unfold mux.pathSegments.
  rewrite splitSlash_app_slash.
  apply segmentsOf_snoc; [|now apply splitSlash_last].
  destruct (splitSlash_cons q) as [piece [pieces ->]]. discriminate.
Qed.

(** *** The path of a token *)

Lemma word_no_slash (c : ascii) :
  regexp.isWordByte c = true -> Ascii.eqb c "/" = false /\ Ascii.eqb c "." = false.
Proof. destruct c as [[] [] [] [] [] [] [] []]; intros H; try discriminate H; now split. Qed.

Lemma cleanLoop_in_elem (rooted : bool) (c : ascii) (p out : string) (dotdot : nat) :
  path.cleanLoop rooted true (String c p) out dotdot
  = if Ascii.eqb c "/" then path.cleanLoop rooted false p out dotdot
    else path.cleanLoop rooted true p (out +:+ String c EmptyString) dotdot.
Proof. reflexivity. Qed.

(** An element of word characters is copied as it is. *)
Lemma cleanLoop_word (rooted : bool) (T out : string) (dotdot : nat) :
  bytes.all regexp.isWordByte T = true ->
  path.cleanLoop rooted true T out dotdot = out +:+ T.
Proof.
  revert out. induction T as [|c T IH]; intros out H.
  - simpl. now rewrite app_nil_r_s.
  - simpl in H. apply andb_prop in H as [Hc HT].
    rewrite cleanLoop_in_elem. destruct (word_no_slash c Hc) as [-> _].
    rewrite IH by exact HT. now rewrite app_assoc_s.
Qed.

(** The start of an element at a word character: a slash goes before it
    unless the buffer is the root alone (or empty, for a path that is not
    rooted). *)
Lemma cleanLoop_start (rooted : bool) (c : ascii) (p out : string) (dotdot : nat) :
  regexp.isWordByte c = true ->
  path.cleanLoop rooted false (String c p) out dotdot
  = path.cleanLoop rooted true p
      ((if (rooted && negb (String.length out =? 1)%nat)
           || (negb rooted && negb (String.length out =? 0)%nat)
        then out +:+ "/" else out) +:+ String c EmptyString) dotdot.
Proof.
  intros Hc. destruct (word_no_slash c Hc) as [H1 H2].
  cbn [path.cleanLoop]. rewrite H1, H2. cbn [andb].
  destruct p as [|d p]; [reflexivity|].
  destruct d as [[] [] [] [] [] [] [] []]; reflexivity.
Qed.

Lemma Clean_item (T : string) :
  isToken T -> path.Clean ("/item/" +:+ T) = "/item/" +:+ T.
Proof.
  intros [Hne Hall]. destruct T as [|c T]; [contradiction|].
  simpl in Hall. apply andb_prop in Hall as [Hc HT].
  rewrite !app_cons, app_nil_l. unfold path.Clean. cbn [Ascii.eqb Bool.eqb].
  rewrite cleanLoop_start by reflexivity.
  cbn [String.length Nat.eqb andb orb negb]. rewrite app_cons, app_nil_l.
  rewrite !cleanLoop_in_elem. cbn [Ascii.eqb Bool.eqb].
  rewrite !app_cons, !app_nil_l.
  rewrite cleanLoop_start by exact Hc.
  cbn [String.length Nat.eqb andb orb negb].
  rewrite cleanLoop_word by exact HT.
  rewrite !app_cons, !app_nil_l. reflexivity.
Qed.

Lemma endsInSlash_word (T : string) :
  isToken T -> mux.endsInSlash T = false.
Proof.
  intros [Hne Hall]. unfold mux.endsInSlash.
  induction T as [|c T IH]; [contradiction|].
  simpl in Hall. apply andb_prop in Hall as [Hc HT].
  destruct T as [|d T].
  - simpl. now destruct (word_no_slash c Hc).
  - rewrite lastByte_cons by discriminate. apply IH; [discriminate | exact HT].
Qed.

Lemma cleanPath_item (T : string) :
  isToken T -> mux.cleanPath ("/item/" +:+ T) = "/item/" +:+ T.
Proof.
  intros HT. pose proof (Clean_item T HT) as HC.
  pose proof (endsInSlash_word T HT) as HE.
  assert (HL : mux.endsInSlash ("/item/" +:+ T) = false).
  { unfold mux.endsInSlash in *. rewrite lastByte_app; [exact HE | apply HT]. }
  revert HC HL. rewrite !app_cons, app_nil_l. intros HC HL.
  unfold mux.cleanPath. cbn [Ascii.eqb Bool.eqb]. cbv zeta.
  now rewrite HL, HC.
Qed.

(** ** The routes of main *)

(** For a path that starts with a slash, the mux of main redirects to the
    path with a slash after it when the path is the one segment [item] or
    [generic], and looks up the leaf of the path otherwise. *)
Lemma matchOrRedirect_theMux (R : string -> string * option error)
  (host method p uPath uRawQuery : string) :
  hasPrefix p "/" = true ->
  mux.matchOrRedirect (theMux R) host method p (Some (uPath, uRawQuery))
  = if toSubtree p then (None, Some (mux.cleanPath uPath +:+ "/", uRawQuery))
    else (leafFor R (mux.pathSegments p), None).
Proof.
  intros Hp. destruct p as [|c q]; [discriminate|].
  simpl in Hp. rewrite andb_true_r in Hp. apply Ascii.eqb_eq in Hp. subst c.
  unfold mux.matchOrRedirect. cbv zeta.
  rewrite !match_theMux, !exactMatch_leafFor. unfold toSubtree.
  destruct (mux.endsInSlash (String "/" q)) eqn:Hends.
  - rewrite andb_false_r.
    replace (match mux.pathSegments (String "/" q) with
             | [seg] => String.eqb seg "item" || String.eqb seg "generic"
             | _ => false
             end) with false; [reflexivity|].
    destruct q as [|d q]; [reflexivity|].
    rewrite endsInSlash_cons in Hends by discriminate.
    pose proof (splitSlash_ends _ Hends) as Hlen.
    unfold mux.pathSegments. rewrite <- length_segmentsOf in Hlen.
    destruct (mux.segmentsOf (mux.splitSlash (String d q))) as [|s1 [|s2 l]];
      simpl in Hlen; [lia | lia | reflexivity].
  - assert (Hq : q <> EmptyString) by (intros ->; discriminate Hends).
    rewrite endsInSlash_cons in Hends by exact Hq.
    rewrite (pathSegments_app_slash q Hq Hends).
    rewrite endsInSlash_app_slash, countSlash_app_slash.
    assert (Hlen : mux.countSlash (String "/" q) = length (mux.pathSegments (String "/" q))).
    { unfold mux.pathSegments. rewrite length_segmentsOf, length_splitSlash. reflexivity. }
    rewrite !Hlen. clear Hlen.
    destruct (mux.pathSegments (String "/" q)) as [|seg rest]; [reflexivity|].
    cbn [app]. rewrite andb_false_l.
    destruct (String.eqb seg "home") eqn:Hhome.
    { apply String.eqb_eq in Hhome. subst seg.
      destruct rest; [reflexivity | now destruct rest]. }
    destruct (String.eqb seg "item" || String.eqb seg "generic") eqn:Hsub.
    + destruct rest as [|s2 rest]; [reflexivity|].
      cbn [app andb negb length Nat.eqb]. now destruct rest.
    + cbn [negb andb]. now destruct rest as [|s2 [|s3 rest]].
Qed.

(** *** What the mux of main does with a request *)

Lemma hasPrefix_elim (s prefix : string) :
  hasPrefix s prefix = true -> exists t, s = prefix +:+ t.
Proof.
  revert s. induction prefix as [|p prefix IH]; intros s; [now exists s|].
  destruct s as [|c s]; [discriminate|]. simpl.
  intros [->%Ascii.eqb_eq H]%andb_prop. destruct (IH s H) as [t ->]. now exists t.
Qed.

(** Where the path of a request is looked up as it is, the request is
    redirected when the path is [/item] or [/generic], and answered by the
    handler for the segments of the path otherwise. *)
Lemma ServeHTTP_asIs (R : string -> string * option error)
  (host urlHost escapedPath : string) (proto11 : bool)
  (w : http.ResponseWriter) (r : Request) :
  RequestURI r <> "*" -> asIs r escapedPath ->
  mux.ServeHTTP (theMux R) host urlHost escapedPath proto11 w r
  = if toSubtree escapedPath
    then mux.Redirected 307 (mux.cleanPath (URL_Path r) +:+ "/") (URL_RawQuery r)
    else mux.Answered (handlerFor R (mux.pathSegments escapedPath) w r).
Proof.
  intros Huri Has. apply String.eqb_neq in Huri.
  assert (Hroot : hasPrefix escapedPath "/" = true).
  { destruct Has as [Hclean | [_ H]]; [|exact H]. rewrite <- Hclean. apply cleanPath_rooted. }
  assert (Hserve : forall n : option mux.routingNode,
             n = leafFor R (mux.pathSegments escapedPath) ->
             match match n with
                   | Some (mux.Node (Some (p, h)) _ _ _) => mux.Serve h (mux.str p)
                   | _ => mux.Serve mux.NotFound EmptyString
                   end with
             | mux.Serve h _ => mux.Answered (h w r)
             | mux.Redirect path rawQuery => mux.Redirected mux.redirectStatus path rawQuery
             end = mux.Answered (handlerFor R (mux.pathSegments escapedPath) w r)).
  { intros n ->. unfold leafFor, handlerFor.
    destruct (mux.pathSegments escapedPath) as [|seg rest]; [reflexivity|].
    destruct (String.eqb seg "home"); [now destruct rest|].
    destruct (String.eqb seg "item"); [now destruct rest|].
    destruct (String.eqb seg "generic"); [now destruct rest|]. reflexivity. }
  unfold mux.ServeHTTP, mux.findHandler. rewrite Huri. cbv zeta.
  destruct (String.eqb (Method r) "CONNECT") eqn:Hm.
  - rewrite matchOrRedirect_theMux by exact Hroot.
    destruct (toSubtree escapedPath); [reflexivity|]. cbn [snd].
    apply Hserve. unfold mux.matchOrRedirect. cbn [fst]. apply match_theMux.
  - assert (Hclean : mux.cleanPath escapedPath = escapedPath).
    { destruct Has as [H | [H _]]; [exact H|]. rewrite H in Hm. discriminate Hm. }
    rewrite Hclean, matchOrRedirect_theMux by exact Hroot.
    destruct (toSubtree escapedPath); [reflexivity|].
    rewrite String.eqb_refl. cbn [negb]. now apply Hserve.
Qed.

Lemma pathSegments_subtree (name t : string) :
  bytes.all (fun c => negb (Ascii.eqb c "/")) name = true ->
  exists seg rest,
    mux.pathSegments ("/" +:+ name +:+ "/" +:+ t) = mux.pathUnescape name :: seg :: rest.
Proof.
  intros Hname. rewrite app_cons, app_nil_l. unfold mux.pathSegments.
  assert (Hsplit : mux.splitSlash (name +:+ "/" +:+ t) = name :: mux.splitSlash t).
  { induction name as [|c name IH]; [reflexivity|].
    simpl in Hname. apply andb_prop in Hname as [Hc Hname].
    rewrite app_cons. simpl. rewrite (IH Hname).
    now destruct (Ascii.eqb c "/"). }
  rewrite Hsplit. destruct (splitSlash_cons t) as [piece [pieces ->]].
  rewrite segmentsOf_cons.
  pose proof (length_segmentsOf (piece :: pieces)) as Hlen.
  destruct (mux.segmentsOf (piece :: pieces)) as [|seg rest]; [discriminate Hlen|].
  now exists seg, rest.
Qed.

(** ** The server *)

(** A request whose escaped path is looked up as it is and lies under
    [/item/] or under [/generic/], or is [/home], is answered by the handler
    [main] registered for that pattern, whatever its method, host and query. *)
Theorem main_routes_to_the_handlers (R : string -> string * option error)
  (mx : mux.ServeMux) (host urlHost escapedPath : string) (proto11 : bool)
  (w : http.ResponseWriter) (r : Request) :
  mainMux R = mux.Registered mx ->
  RequestURI r <> "*" ->
  asIs r escapedPath ->
  (hasPrefix escapedPath "/item/" = true ->
   mux.ServeHTTP mx host urlHost escapedPath proto11 w r = mux.Answered (ItemHandler w r))
  /\ (hasPrefix escapedPath "/generic/" = true ->
      mux.ServeHTTP mx host urlHost escapedPath proto11 w r
      = mux.Answered (GenericHandler w r))
  /\ (escapedPath = "/home" ->
      mux.ServeHTTP mx host urlHost escapedPath proto11 w r
      = mux.Answered (HomeHandler R w r)).
Proof.
  intros Hmx Huri Has.
  rewrite mainMux_is in Hmx. injection Hmx as <-.
  rewrite (ServeHTTP_asIs R host urlHost escapedPath proto11 w r Huri Has).
  split; [|split].
  - intros [t ->]%hasPrefix_elim.
    destruct (pathSegments_subtree "item" t eq_refl) as [seg [rest Hsegs]].
    change ("/" +:+ "item" +:+ "/" +:+ t) with ("/item/" +:+ t) in Hsegs.
    unfold toSubtree. now rewrite Hsegs.
  - intros [t ->]%hasPrefix_elim.
    destruct (pathSegments_subtree "generic" t eq_refl) as [seg [rest Hsegs]].
    change ("/" +:+ "generic" +:+ "/" +:+ t) with ("/generic/" +:+ t) in Hsegs.
    unfold toSubtree. now rewrite Hsegs.
  - intros ->. reflexivity.
Qed.

(** [GET /item/yellow] reaches [ItemHandler]. *)
Lemma main_routes_to_the_handlers_yellow :
  mux.ServeHTTP (theMux noFile) "localhost" EmptyString "/item/yellow" true
    http.NewRecorder plainGet
  = mux.Answered (ItemHandler http.NewRecorder plainGet).
Proof.
  apply (main_routes_to_the_handlers noFile (theMux noFile) "localhost" EmptyString
           "/item/yellow" true http.NewRecorder plainGet);
    [reflexivity | discriminate | left; reflexivity | reflexivity].
Defined.

(** A request whose escaped path is looked up as it is and is not routed
    (its first segment, unescaped, is neither [item] nor [generic], and it is
    not the one segment [home]) is answered by the mux itself: status 404, the
    two headers and the body of [http.Error], and no cookie.  So are the paths
    under [/home], such as [/home/x], the root, and a path whose slash after
    [item] is escaped. *)
Theorem main_answers_not_found (R : string -> string * option error)
  (mx : mux.ServeMux) (host urlHost escapedPath : string) (proto11 : bool) (r : Request) :
  mainMux R = mux.Registered mx ->
  RequestURI r <> "*" ->
  asIs r escapedPath ->
  routed escapedPath = false ->
  exists w,
    mux.ServeHTTP mx host urlHost escapedPath proto11 http.NewRecorder r = mux.Answered w
    /\ http.Result w
       = {| http.StatusCode := 404;
            http.RespHeader :=
              <["X-Content-Type-Options" := ["nosniff"]]>
                (<["Content-Type" := ["text/plain; charset=utf-8"]]> ∅);
            http.RespBody := "404 page not found" +:+ fmt.nl |}.
Proof.
  intros Hmx Huri Has Hno.
  rewrite mainMux_is in Hmx. injection Hmx as <-.
  exists (mux.NotFound http.NewRecorder r). split; [|reflexivity].
  rewrite (ServeHTTP_asIs R host urlHost escapedPath proto11 _ r Huri Has).
  unfold routed in Hno. unfold toSubtree, handlerFor.
  destruct (mux.pathSegments escapedPath) as [|seg rest]; [reflexivity|].
  apply orb_false_elim in Hno as [[Hi Hg]%orb_false_elim Hh].
  rewrite Hi, Hg. cbn [orb].
  destruct (String.eqb seg "home"); [|now destruct rest].
  destruct rest as [|seg' rest]; [discriminate Hh | now destruct rest].
Qed.

(** [GET /home/x]: the pattern [/home] names one path, not a subtree.
    [GET /item%2Fyellow]: the path the handlers would read is [/item/yellow],
    but the first segment of the escaped path is not [item]. *)
Lemma main_answers_not_found_under_home :
  (exists w,
     mux.ServeHTTP (theMux noFile) "localhost" EmptyString "/home/x" true http.NewRecorder
       (NewRequest "GET" "/home/x") = mux.Answered w
     /\ http.Result w
        = {| http.StatusCode := 404;
             http.RespHeader :=
               <["X-Content-Type-Options" := ["nosniff"]]>
                 (<["Content-Type" := ["text/plain; charset=utf-8"]]> ∅);
             http.RespBody := "404 page not found" +:+ fmt.nl |})
  /\ (exists w,
        mux.ServeHTTP (theMux noFile) "localhost" EmptyString "/item%2Fyellow" true
          http.NewRecorder
          {| Method := "GET"; RequestURI := "/item%2Fyellow"; URL_Path := "/item/yellow";
             URL_RawQuery := EmptyString; Cookies := []; postForm := (∅, None) |}
        = mux.Answered w
        /\ http.Result w
           = {| http.StatusCode := 404;
                http.RespHeader :=
                  <["X-Content-Type-Options" := ["nosniff"]]>
                    (<["Content-Type" := ["text/plain; charset=utf-8"]]> ∅);
                http.RespBody := "404 page not found" +:+ fmt.nl |}).
Proof.
  split.
  - apply (main_answers_not_found noFile (theMux noFile) "localhost" EmptyString "/home/x"
             true (NewRequest "GET" "/home/x"));
      [reflexivity | discriminate | left; reflexivity | reflexivity].
  - apply (main_answers_not_found noFile (theMux noFile) "localhost" EmptyString
             "/item%2Fyellow" true);
      [reflexivity | discriminate | left; reflexivity | reflexivity].
Defined.

(** A request for [/item] or [/generic], without the slash, is not answered
    by a handler: the mux redirects it with status 307 to the path with the
    slash, and keeps the query. *)
Theorem main_redirects_to_the_subtree (R : string -> string * option error)
  (mx : mux.ServeMux) (host urlHost escapedPath : string) (proto11 : bool)
  (w : http.ResponseWriter) (r : Request) :
  mainMux R = mux.Registered mx ->
  RequestURI r <> "*" ->
  Method r <> "CONNECT" ->
  escapedPath = "/item" \/ escapedPath = "/generic" ->
  URL_Path r = escapedPath ->
  mux.ServeHTTP mx host urlHost escapedPath proto11 w r
  = mux.Redirected 307 (escapedPath +:+ "/") (URL_RawQuery r).
Proof.
  intros Hmx Huri Hm He Hp.
  rewrite mainMux_is in Hmx. injection Hmx as <-.
  assert (Has : asIs r escapedPath) by (left; destruct He as [-> | ->]; reflexivity).
  rewrite (ServeHTTP_asIs R host urlHost escapedPath proto11 w r Huri Has), Hp.
  destruct He as [-> | ->]; reflexivity.
Qed.

(** [GET /item?x=1] is sent to [/item/?x=1]. *)
Lemma main_redirects_to_the_subtree_item :
  mux.ServeHTTP (theMux noFile) "localhost" EmptyString "/item" true http.NewRecorder
    (NewRequest "GET" "/item?x=1")
  = mux.Redirected 307 "/item/" "x=1".
Proof.
  apply (main_redirects_to_the_subtree noFile (theMux noFile) "localhost" EmptyString
           "/item" true http.NewRecorder (NewRequest "GET" "/item?x=1"));
    [reflexivity | discriminate | discriminate | left; reflexivity | reflexivity].
Defined.

(** A request whose method is not CONNECT and whose escaped path is not
    clean (a doubled slash, a [.] or [..] element) reaches no handler: the mux
    redirects it with status 307 and keeps the query.  The redirect goes to
    the clean path, or, when that is the one segment [item] or [generic], to
    the clean path of the URL with a slash after it. *)
Theorem main_redirects_unclean_paths (R : string -> string * option error)
  (mx : mux.ServeMux) (host urlHost escapedPath : string) (proto11 : bool)
  (w : http.ResponseWriter) (r : Request) :
  mainMux R = mux.Registered mx ->
  RequestURI r <> "*" ->
  Method r <> "CONNECT" ->
  mux.cleanPath escapedPath <> escapedPath ->
  mux.ServeHTTP mx host urlHost escapedPath proto11 w r
  = mux.Redirected 307
      (if toSubtree (mux.cleanPath escapedPath)
       then mux.cleanPath (URL_Path r) +:+ "/" else mux.cleanPath escapedPath)
      (URL_RawQuery r).
Proof.
  intros Hmx Huri Hm Hp.
  rewrite mainMux_is in Hmx. injection Hmx as <-.
  apply String.eqb_neq in Huri, Hm, Hp.
  unfold mux.ServeHTTP, mux.findHandler. rewrite Huri, Hm. cbv zeta.
  rewrite matchOrRedirect_theMux by apply cleanPath_rooted.
  destruct (toSubtree (mux.cleanPath escapedPath)); [reflexivity|].
  now rewrite Hp.
Qed.

(** [GET /item//abc/../yellow?x=1] is sent to [/item/yellow?x=1]. *)
Lemma main_redirects_unclean_paths_item :
  mux.ServeHTTP (theMux noFile) "localhost" EmptyString "/item//abc/../yellow" true
    http.NewRecorder (NewRequest "GET" "/item//abc/../yellow?x=1")
  = mux.Redirected 307 "/item/yellow" "x=1".
Proof.
  apply (main_redirects_unclean_paths noFile (theMux noFile) "localhost" EmptyString
           "/item//abc/../yellow" true http.NewRecorder
           (NewRequest "GET" "/item//abc/../yellow?x=1"));
    [reflexivity | discriminate | discriminate | discriminate].
Defined.

(** The mux and [ItemHandler] on the item URL.  For a token T the path
    [/item/T] holds no escape and is clean, so that with any method, host and
    query the mux hands the request to [ItemHandler], which writes status 200,
    the cookie, the JSON content type and the two JSON lines. *)
Theorem main_serves_the_item (R : string -> string * option error)
  (mx : mux.ServeMux) (host urlHost escapedPath : string) (proto11 : bool)
  (r : Request) (T : string) :
  mainMux R = mux.Registered mx ->
  RequestURI r <> "*" ->
  isToken T ->
  escapedPath = "/item/" +:+ T ->
  URL_Path r = "/item/" +:+ T ->
  exists w,
    mux.ServeHTTP mx host urlHost escapedPath proto11 http.NewRecorder r = mux.Answered w
    /\ http.Result w
       = {| http.StatusCode := 200;
            http.RespHeader := itemHeader;
            http.RespBody := objectLine T +:+ fmt.nl +:+ arrayLine T +:+ fmt.nl |}.
Proof.
  intros Hmx Huri HT -> Hp.
  rewrite mainMux_is in Hmx. injection Hmx as <-.
  exists (ItemHandler http.NewRecorder r). split.
  - assert (Has : asIs r ("/item/" +:+ T)) by (left; now apply cleanPath_item).
    rewrite (ServeHTTP_asIs R host urlHost _ proto11 _ r Huri Has).
    destruct (pathSegments_subtree "item" T eq_refl) as [seg [rest Hsegs]].
    change ("/" +:+ "item" +:+ "/" +:+ T) with ("/item/" +:+ T) in Hsegs.
    unfold toSubtree. now rewrite Hsegs.
  - now apply (ItemHandler_token_response r T).
Qed.

(** [POST /item/yellow?size=3] with a cookie and a form. *)
Lemma main_serves_the_item_yellow :
  exists w,
    mux.ServeHTTP (theMux noFile) "localhost" EmptyString "/item/yellow" true
      http.NewRecorder busyPost
    = mux.Answered w
    /\ http.Result w
       = {| http.StatusCode := 200;
            http.RespHeader := itemHeader;
            http.RespBody :=
              objectLine "yellow" +:+ fmt.nl +:+ arrayLine "yellow" +:+ fmt.nl |}.
Proof.
  apply (main_serves_the_item noFile (theMux noFile) "localhost" EmptyString "/item/yellow"
           true busyPost "yellow");
    [reflexivity | discriminate | split; [discriminate | reflexivity]
    | reflexivity | reflexivity].
Defined.

(** Where the item URL does not match, [ItemHandler] answers with the
    status and the body of the mux's own [NotFound]; the one difference a
    client sees is the cookie, which [ItemHandler] has set before. *)
Theorem ItemHandler_not_found_as_the_mux (request : Request) :
  regexp.itemURL_FindStringSubmatch (URL_Path request) = [] ->
  http.StatusCode (serve ItemHandler request) = http.StatusCode (serve mux.NotFound request)
  /\ http.RespBody (serve ItemHandler request) = http.RespBody (serve mux.NotFound request)
  /\ http.RespHeader (serve ItemHandler request)
     = <["Set-Cookie" := ["testcookiename=testcookievalue"]]>
         (http.RespHeader (serve mux.NotFound request)).
Proof.
  intros H. rewrite (ItemHandler_404_response request H).
  split; [reflexivity | split; reflexivity].
Qed.

(** [GET /item/] has no token. *)
Lemma ItemHandler_not_found_as_the_mux_bare :
  http.StatusCode (serve ItemHandler (NewRequest "GET" "/item/"))
  = http.StatusCode (serve mux.NotFound (NewRequest "GET" "/item/"))
  /\ http.RespBody (serve ItemHandler (NewRequest "GET" "/item/"))
     = http.RespBody (serve mux.NotFound (NewRequest "GET" "/item/"))
  /\ http.RespHeader (serve ItemHandler (NewRequest "GET" "/item/"))
     = <["Set-Cookie" := ["testcookiename=testcookievalue"]]>
         (http.RespHeader (serve mux.NotFound (NewRequest "GET" "/item/"))).
Proof.
  apply (ItemHandler_not_found_as_the_mux (NewRequest "GET" "/item/")). reflexivity.
Defined.
